(** * CloudPulse client layer: SDK request builders, MCP tool handler,
      dashboard budget / anomaly logic and the auth context.

    The development is a shallow embedding of the JavaScript, TypeScript and
    Go sources of the repository.  Part I contains the embedding, one module
    per source file; Parts II and III contain the properties proved about it.

    Conventions of the embedding:
    - a JavaScript string is a [string] (its UTF-8 bytes);
    - a JSON value is a [json]; [undefined] is the [None] of [option json];
    - a promise that may reject is a [completion]: [Return v] or [Throw e];
    - a JavaScript number of the Budgets page is an IEEE 754 binary64 value,
      a primitive [float] (module [Budgets64]); module [Budgets] has the
      same expressions over the rationals [Q], without the rounding;
    - the network ([fetch], Go's [http.Client]) is an explicit argument. *)

From Stdlib Require Import Ascii String ZArith QArith Qminmax Lia Lqa.
From Stdlib Require Floats.
From stdpp Require Import base strings list option gmap pretty.

Local Set Warnings "-register-all,-inexact-float".
Local Open Scope string_scope.
Local Open Scope Z_scope.

(* ===================================================================== *)
(** * Part I.  The embedding                                              *)
(* ===================================================================== *)

(** ** JavaScript substrate shared by the TypeScript and JavaScript files *)
Module Js.

(** JSON values; object members are kept in property-enumeration order.
    Numbers are the integers (page numbers, limits, status codes). *)
Inductive json : Type :=
| JNull
| JBool (b : bool)
| JNum (n : Z)
| JStr (s : string)
| JArr (l : list json)
| JObj (members : list (string * json)).

(** A JavaScript value that may also be [undefined]. *)
Definition value : Type := option json.
Definition undefined : value := None.

(** Errors thrown by the modelled code are all instances of [Error]. *)
Record error : Type := mkError { error_name : string; message : string }.

Inductive completion (A : Type) : Type :=
| Return (a : A)
| Throw (e : error).
Arguments Return {A} a.
Arguments Throw {A} e.

Definition bind {A B} (m : completion A) (k : A -> completion B) : completion B :=
  match m with
  | Return a => k a
  | Throw e => Throw e
  end.

(** [try { m } catch (e) { h e }] and [promise.catch(h)]. *)
Definition try_catch {A} (m : completion A) (h : error -> completion A) : completion A :=
  match m with
  | Return a => Return a
  | Throw e => h e
  end.

(** [String.prototype.join] on already converted elements. *)
Fixpoint join (sep : string) (l : list string) : string :=
  match l with
  | [] => ""
  | [x] => x
  | x :: r => x +:+ sep +:+ join sep r
  end.

(** ToBoolean. *)
Definition truthy_json (v : json) : bool :=
  match v with
  | JNull => false
  | JBool b => b
  | JNum n => negb (n =? 0)
  | JStr s => negb (String.eqb s "")
  | JArr _ | JObj _ => true
  end.

Definition truthy (v : value) : bool :=
  match v with
  | None => false
  | Some j => truthy_json j
  end.

Definition truthy_string (s : string) : bool := negb (String.eqb s "").

(** ToString, as performed by [String(v)] and by template literals. *)
Fixpoint to_string_json (v : json) : string :=
  match v with
  | JNull => "null"
  | JBool true => "true"
  | JBool false => "false"
  | JNum n => pretty n
  | JStr s => s
  | JArr l =>
      join "," (List.map (fun e => match e with
                                   | JNull => ""
                                   | _ => to_string_json e
                                   end) l)
  | JObj _ => "[object Object]"
  end.

Definition to_string (v : value) : string :=
  match v with
  | None => "undefined"
  | Some j => to_string_json j
  end.

(** Property read [o.k].  Reading a property of [null] or [undefined]
    throws a TypeError (message as produced by V8). *)
Fixpoint lookup_member (k : string) (ms : list (string * json)) : value :=
  match ms with
  | [] => None
  | (k', v) :: r => if String.eqb k' k then Some v else lookup_member k r
  end.

Definition null_property_error (k : string) (what : string) : error :=
  mkError "TypeError"
    ("Cannot read properties of " +:+ what +:+ " (reading '" +:+ k +:+ "')").

Definition get_prop (o : value) (k : string) : completion value :=
  match o with
  | None => Throw (null_property_error k "undefined")
  | Some JNull => Throw (null_property_error k "null")
  | Some (JObj ms) => Return (lookup_member k ms)
  | Some _ => Return None
  end.

(** Optional chaining [o?.k]. *)
Definition get_prop_opt (o : value) (k : string) : value :=
  match o with
  | Some (JObj ms) => lookup_member k ms
  | _ => None
  end.

(** Assignment of one property, as in an object literal or a spread: an
    existing property keeps its position and takes the value, a new one
    is appended. *)
Fixpoint set_member {V : Type} (k : string) (v : V) (ms : list (string * V))
  : list (string * V) :=
  match ms with
  | [] => [(k, v)]
  | (k', v') :: r =>
      if String.eqb k' k then (k', v) :: r else (k', v') :: set_member k v r
  end.

(** [{ ...target, ...src }]. *)
Definition spread {V : Type} (target src : list (string * V)) : list (string * V) :=
  fold_left (fun t kv => set_member (fst kv) (snd kv) t) src target.

(** *** JSON.stringify *)

Definition hex_digit (upper : bool) (n : nat) : ascii :=
  match n with
  | 0%nat => "0" | 1%nat => "1" | 2%nat => "2" | 3%nat => "3"
  | 4%nat => "4" | 5%nat => "5" | 6%nat => "6" | 7%nat => "7"
  | 8%nat => "8" | 9%nat => "9"
  | 10%nat => if upper then "A" else "a"
  | 11%nat => if upper then "B" else "b"
  | 12%nat => if upper then "C" else "c"
  | 13%nat => if upper then "D" else "d"
  | 14%nat => if upper then "E" else "e"
  | _ => if upper then "F" else "f"
  end%char.

Definition hex2 (upper : bool) (c : ascii) : string :=
  let n := nat_of_ascii c in
  String (hex_digit upper (n / 16)) (String (hex_digit upper (n mod 16)) "").

Definition dquote : string := String (ascii_of_nat 34) "".
Definition newline : string := String (ascii_of_nat 10) "".

(** One code unit of QuoteJSONString. *)
Definition quote_char (c : ascii) : string :=
  let n := nat_of_ascii c in
  if (n =? 34)%nat then "\" +:+ dquote
  else if (n =? 92)%nat then "\\"
  else if (n =? 8)%nat then "\b"
  else if (n =? 12)%nat then "\f"
  else if (n =? 10)%nat then "\n"
  else if (n =? 13)%nat then "\r"
  else if (n =? 9)%nat then "\t"
  else if (n <? 32)%nat then "\u00" +:+ hex2 false c
  else String c "".

Fixpoint quote_body (s : string) : string :=
  match s with
  | "" => ""
  | String c r => quote_char c +:+ quote_body r
  end.

Definition QuoteJSONString (s : string) : string :=
  dquote +:+ quote_body s +:+ dquote.

(** SerializeJSONProperty with the [gap] computed from the third argument
    of [JSON.stringify] ([""] when absent, two spaces for [2]). *)
Fixpoint SerializeJSONProperty (gap indent : string) (v : json) : string :=
  match v with
  | JNull => "null"
  | JBool true => "true"
  | JBool false => "false"
  | JNum n => pretty n
  | JStr s => QuoteJSONString s
  | JArr l =>
      let stepback := indent in
      let indent := indent +:+ gap in
      let partial := List.map (SerializeJSONProperty gap indent) l in
      match partial with
      | [] => "[]"
      | _ =>
          if String.eqb gap "" then "[" +:+ join "," partial +:+ "]"
          else "[" +:+ newline +:+ indent
                   +:+ join ("," +:+ newline +:+ indent) partial
                   +:+ newline +:+ stepback +:+ "]"
      end
  | JObj ms =>
      let stepback := indent in
      let indent := indent +:+ gap in
      let partial :=
        List.map (fun kv =>
                    QuoteJSONString (fst kv) +:+ ":"
                      +:+ (if String.eqb gap "" then "" else " ")
                      +:+ SerializeJSONProperty gap indent (snd kv)) ms in
      match partial with
      | [] => "{}"
      | _ =>
          if String.eqb gap "" then "{" +:+ join "," partial +:+ "}"
          else "{" +:+ newline +:+ indent
                   +:+ join ("," +:+ newline +:+ indent) partial
                   +:+ newline +:+ stepback +:+ "}"
      end
  end.

(** [JSON.stringify(v)] and [JSON.stringify(v, null, 2)]. *)
Definition JSON_stringify (v : json) : string := SerializeJSONProperty "" "" v.
Definition JSON_stringify_2 (v : json) : string := SerializeJSONProperty "  " "" v.

End Js.

(** ** The WHATWG URL pieces used by the SDKs: [URLSearchParams] *)
Module Url.
Import Js.

(** Bytes left as they are by the application/x-www-form-urlencoded
    serializer: ASCII letters and digits and [*], [-], [.], [_]. *)
Definition urlencoded_safe (c : ascii) : bool :=
  let n := nat_of_ascii c in
  ((n =? 42) || (n =? 45) || (n =? 46) || (n =? 95)
   || ((48 <=? n) && (n <=? 57))
   || ((65 <=? n) && (n <=? 90))
   || ((97 <=? n) && (n <=? 122)))%nat.

Definition urlencode_byte (c : ascii) : string :=
  if (nat_of_ascii c =? 32)%nat then "+"
  else if urlencoded_safe c then String c ""
  else "%" +:+ hex2 true c.

Fixpoint urlencode (s : string) : string :=
  match s with
  | "" => ""
  | String c r => urlencode_byte c +:+ urlencode r
  end.

(** The list of name-value pairs of a [URLSearchParams] object. *)
Definition URLSearchParams : Type := list (string * string).

Definition remove_name (k : string) (qs : URLSearchParams) : URLSearchParams :=
  List.filter (fun p => negb (String.eqb (fst p) k)) qs.

(** [qs.set(k, v)]: the first pair named [k] takes the value and the other
    pairs of that name are removed; without such a pair, one is appended. *)
Fixpoint set (qs : URLSearchParams) (k v : string) : URLSearchParams :=
  match qs with
  | [] => [(k, v)]
  | (k', v') :: r =>
      if String.eqb k' k then (k, v) :: remove_name k r
      else (k', v') :: set r k v
  end.

Definition serialize_pair (p : string * string) : string :=
  urlencode (fst p) +:+ "=" +:+ urlencode (snd p).

(** [qs.toString()]. *)
Definition toString (qs : URLSearchParams) : string :=
  join "&" (List.map serialize_pair qs).

(** [s.replace(/\/$/, '')]: one trailing slash is dropped. *)
Fixpoint strip_trailing_slash (s : string) : string :=
  match s with
  | "" => ""
  | String c r =>
      match r with
      | "" => if Ascii.eqb c "/" then "" else s
      | _ => String c (strip_trailing_slash r)
      end
  end.

(** [s.includes(sub)]. *)
Fixpoint includes (s sub : string) : bool :=
  String.prefix sub s
  || match s with
     | "" => false
     | String _ r => includes r sub
     end.

End Url.

(** ** The Fetch API as seen by the clients *)
Module Fetch.
Import Js.

Record request : Type := mkRequest {
  url : string;
  method : string;
  headers : list (string * string);
  body : option string
}.

(** A response: its status line and the outcome of [res.json()], which
    rejects when the body is not JSON. *)
Record response : Type := mkResponse {
  status : Z;
  statusText : string;
  json_body : completion json
}.

(** [res.ok]: the status is in the range 200 to 299. *)
Definition ok (res : response) : bool :=
  (200 <=? status res) && (status res <=? 299).

(** [fetch] rejects on a network failure and resolves with a response
    whatever its status. *)
Definition fetch_fn : Type := request -> completion response.

(** [body ? JSON.stringify(body) : undefined]. *)
Definition body_of (b : value) : option string :=
  match b with
  | Some j => if truthy_json j then Some (JSON_stringify j) else None
  | None => None
  end.

End Fetch.

(** Query parameters handed to a [list] call: the entries of the object. *)
Definition params_t : Type := list (string * Js.value).

(** ** sdks/cloudpulse-ts/src/index.ts *)
Module TsSdk.
Import Js.

Record CloudPulseClientOptions : Type := mkOptions {
  apiToken : string;
  baseUrl : option string
}.

Record CloudPulseClient : Type := mkClient {
  client_baseUrl : string;
  client_headers : list (string * string)
}.

(** [options.baseUrl || 'https://api.cloudpulse.dev']: an absent and an
    empty base URL both select the default. *)
Definition constructor (options : CloudPulseClientOptions) : CloudPulseClient :=
  let b := match baseUrl options with
           | Some s => if truthy_string s then s else "https://api.cloudpulse.dev"
           | None => "https://api.cloudpulse.dev"
           end in
  {| client_baseUrl := Url.strip_trailing_slash b +:+ "/api/v2";
     client_headers := [("Authorization", "Bearer " +:+ apiToken options);
                        ("Content-Type", "application/json");
                        ("User-Agent", "cloudpulse-ts/0.1.0")] |}.

(** The loop over [Object.entries(params)]: [if (v !== undefined) qs.set(k, String(v))]. *)
Definition request_qs (ps : params_t) : Url.URLSearchParams :=
  fold_left (fun qs kv =>
               match snd kv with
               | None => qs
               | Some _ => Url.set qs (fst kv) (to_string (snd kv))
               end) ps [].

Definition request_url (c : CloudPulseClient) (path : string)
    (params : option params_t) : string :=
  let url := client_baseUrl c +:+ path in
  match params with
  | Some ps =>
      let qsStr := Url.toString (request_qs ps) in
      if truthy_string qsStr then url +:+ "?" +:+ qsStr else url
  | None => url
  end.

(** The arguments [request] hands to [fetch]. *)
Definition request_args (c : CloudPulseClient) (method path : string)
    (body : value) (params : option params_t) : Fetch.request :=
  {| Fetch.url := request_url c path params;
     Fetch.method := method;
     Fetch.headers := client_headers c;
     Fetch.body := Fetch.body_of body |}.

(** What [request] does with the response. *)
Definition request_result (res : Fetch.response) : completion json :=
  if negb (Fetch.ok res) then
    bind (try_catch (Fetch.json_body res)
            (fun _ => Return (JObj [("detail", JStr (Fetch.statusText res))])))
      (fun err =>
         bind (get_prop (Some err) "detail")
           (fun detail =>
              Throw (mkError "Error"
                       ("CloudPulse API error " +:+ pretty (Fetch.status res) +:+ ": "
                          +:+ (if truthy detail then to_string detail
                               else "Unknown error")))))
  else Fetch.json_body res.

Definition request (fetch : Fetch.fetch_fn) (c : CloudPulseClient)
    (method path : string) (body : value) (params : option params_t) : completion json :=
  bind (fetch (request_args c method path body params)) request_result.

(** The error V8 throws when a call finds the call stack exhausted. *)
Definition RangeError : error :=
  mkError "RangeError" "Maximum call stack size exceeded".

(** The resource classes.  [R] is what a call to [this.client.request]
    stands for: the awaited result, or the arguments given to [fetch]. *)
Section Resources.
Context {R : Type}.
Variable client_request : string -> string -> value -> option params_t -> R.

(** [class Resource]: the protected helpers. *)
Definition Resource_get (path : string) (params : option params_t) : R :=
  client_request "GET" path None params.
Definition Resource_post (path : string) (data : json) : R :=
  client_request "POST" path (Some data) None.
Definition Resource_put (path : string) (data : json) : R :=
  client_request "PUT" path (Some data) None.
Definition Resource_del (path : string) : R :=
  client_request "DELETE" path None None.

(** The six collection classes each declare a method [get(token)] of their
    own.  It has the name of the inherited helper and shadows it, so the
    [this.get(...)] in the body of [list] and in the body of [get] itself is
    the method of the subclass: [get(token)] calls [get] again with
    [`/workspaces/${token}`] as the token and never reaches
    [client.request].  Every call takes a frame of the call stack; [stack]
    is the number of frames the engine still has, and a call that finds
    none throws [RangeError].  A second argument given to [get(token)] is
    ignored. *)
Fixpoint WorkspacesResource_get (stack : nat) (token : string) : completion R :=
  match stack with
  | O => Throw RangeError
  | S stack' => WorkspacesResource_get stack' ("/workspaces/" +:+ token)
  end.
Definition WorkspacesResource_list (stack : nat) (params : option params_t) : completion R :=
  match stack with
  | O => Throw RangeError
  | S stack' => WorkspacesResource_get stack' "/workspaces"
  end.
Definition WorkspacesResource_create (data : json) : R :=
  Resource_post "/workspaces" data.
Definition WorkspacesResource_update (token : string) (data : json) : R :=
  Resource_put ("/workspaces/" +:+ token) data.
Definition WorkspacesResource_delete (token : string) : R :=
  Resource_del ("/workspaces/" +:+ token).

Fixpoint CostReportsResource_get (stack : nat) (token : string) : completion R :=
  match stack with
  | O => Throw RangeError
  | S stack' => CostReportsResource_get stack' ("/cost_reports/" +:+ token)
  end.
Definition CostReportsResource_list (stack : nat) (params : option params_t) : completion R :=
  match stack with
  | O => Throw RangeError
  | S stack' => CostReportsResource_get stack' "/cost_reports"
  end.
Definition CostReportsResource_create (data : json) : R :=
  Resource_post "/cost_reports" data.
Definition CostReportsResource_update (token : string) (data : json) : R :=
  Resource_put ("/cost_reports/" +:+ token) data.
Definition CostReportsResource_delete (token : string) : R :=
  Resource_del ("/cost_reports/" +:+ token).

Fixpoint FoldersResource_get (stack : nat) (token : string) : completion R :=
  match stack with
  | O => Throw RangeError
  | S stack' => FoldersResource_get stack' ("/folders/" +:+ token)
  end.
Definition FoldersResource_list (stack : nat) (params : option params_t) : completion R :=
  match stack with
  | O => Throw RangeError
  | S stack' => FoldersResource_get stack' "/folders"
  end.
Definition FoldersResource_create (data : json) : R :=
  Resource_post "/folders" data.
Definition FoldersResource_update (token : string) (data : json) : R :=
  Resource_put ("/folders/" +:+ token) data.
Definition FoldersResource_delete (token : string) : R :=
  Resource_del ("/folders/" +:+ token).

Fixpoint SegmentsResource_get (stack : nat) (token : string) : completion R :=
  match stack with
  | O => Throw RangeError
  | S stack' => SegmentsResource_get stack' ("/segments/" +:+ token)
  end.
Definition SegmentsResource_list (stack : nat) (params : option params_t) : completion R :=
  match stack with
  | O => Throw RangeError
  | S stack' => SegmentsResource_get stack' "/segments"
  end.
Definition SegmentsResource_create (data : json) : R :=
  Resource_post "/segments" data.
Definition SegmentsResource_update (token : string) (data : json) : R :=
  Resource_put ("/segments/" +:+ token) data.
Definition SegmentsResource_delete (token : string) : R :=
  Resource_del ("/segments/" +:+ token).

Fixpoint TeamsResource_get (stack : nat) (token : string) : completion R :=
  match stack with
  | O => Throw RangeError
  | S stack' => TeamsResource_get stack' ("/teams/" +:+ token)
  end.
Definition TeamsResource_list (stack : nat) (params : option params_t) : completion R :=
  match stack with
  | O => Throw RangeError
  | S stack' => TeamsResource_get stack' "/teams"
  end.
Definition TeamsResource_create (data : json) : R :=
  Resource_post "/teams" data.
Definition TeamsResource_update (token : string) (data : json) : R :=
  Resource_put ("/teams/" +:+ token) data.
Definition TeamsResource_delete (token : string) : R :=
  Resource_del ("/teams/" +:+ token).

Fixpoint VirtualTagsResource_get (stack : nat) (token : string) : completion R :=
  match stack with
  | O => Throw RangeError
  | S stack' => VirtualTagsResource_get stack' ("/virtual_tags/" +:+ token)
  end.
Definition VirtualTagsResource_list (stack : nat) (params : option params_t) : completion R :=
  match stack with
  | O => Throw RangeError
  | S stack' => VirtualTagsResource_get stack' "/virtual_tags"
  end.
Definition VirtualTagsResource_create (data : json) : R :=
  Resource_post "/virtual_tags" data.
Definition VirtualTagsResource_update (token : string) (data : json) : R :=
  Resource_put ("/virtual_tags/" +:+ token) data.
Definition VirtualTagsResource_delete (token : string) : R :=
  Resource_del ("/virtual_tags/" +:+ token).

(** [class APITokensResource] declares no [get]: its [list] reaches the
    inherited helper. *)
Definition APITokensResource_list (params : option params_t) : R :=
  Resource_get "/api_tokens" params.
Definition APITokensResource_create (data : json) : R :=
  Resource_post "/api_tokens" data.
Definition APITokensResource_revoke (tokenPrefix : string) : R :=
  Resource_del ("/api_tokens/" +:+ tokenPrefix).

End Resources.

End TsSdk.

(** ** The JavaScript SDK, src/unnamed/part_011 (CommonJS client, [Resource]
    and [TokensResource]) *)
Module JsSdk.
Import Js.

Record CloudPulseClient : Type := mkClient {
  client_baseUrl : string;
  client_headers : list (string * string)
}.

(** [constructor({ apiToken, baseUrl = 'https://api.cloudpulse.dev' })]:
    the default applies to an absent base URL only. *)
Definition constructor (apiToken : string) (baseUrl : option string) : CloudPulseClient :=
  let b := match baseUrl with
           | Some s => s
           | None => "https://api.cloudpulse.dev"
           end in
  {| client_baseUrl := Url.strip_trailing_slash b +:+ "/api/v2";
     client_headers := [("Authorization", "Bearer " +:+ apiToken);
                        ("Content-Type", "application/json");
                        ("User-Agent", "cloudpulse-js/0.1.0")] |}.

(** [if (v !== undefined && v !== null) qs.set(k, String(v))]. *)
Definition request_qs (ps : params_t) : Url.URLSearchParams :=
  fold_left (fun qs kv =>
               match snd kv with
               | None => qs
               | Some JNull => qs
               | Some _ => Url.set qs (fst kv) (to_string (snd kv))
               end) ps [].

Definition request_url (c : CloudPulseClient) (path : string)
    (params : option params_t) : string :=
  let url := client_baseUrl c +:+ path in
  match params with
  | Some ps =>
      let qsStr := Url.toString (request_qs ps) in
      if truthy_string qsStr then url +:+ "?" +:+ qsStr else url
  | None => url
  end.

Definition request_args (c : CloudPulseClient) (method path : string)
    (body : value) (params : option params_t) : Fetch.request :=
  {| Fetch.url := request_url c path params;
     Fetch.method := method;
     Fetch.headers := client_headers c;
     Fetch.body := Fetch.body_of body |}.

Definition request_result (res : Fetch.response) : completion json :=
  if negb (Fetch.ok res) then
    bind (try_catch (Fetch.json_body res)
            (fun _ => Return (JObj [("detail", JStr (Fetch.statusText res))])))
      (fun err =>
         bind (get_prop (Some err) "detail")
           (fun detail =>
              Throw (mkError "Error"
                       ("CloudPulse API error " +:+ pretty (Fetch.status res) +:+ ": "
                          +:+ (if truthy detail then to_string detail
                               else "Unknown error")))))
  else Fetch.json_body res.

Definition request (fetch : Fetch.fetch_fn) (c : CloudPulseClient)
    (method path : string) (body : value) (params : option params_t) : completion json :=
  bind (fetch (request_args c method path body params)) request_result.

Section Resources.
Context {R : Type}.
Variable client_request : string -> string -> value -> option params_t -> R.

(** [class Resource]; the instance is its [_basePath] (the [_listKey] is
    stored and never read). *)
Definition Resource_list (basePath : string) (params : option params_t) : R :=
  client_request "GET" basePath (Some JNull) params.
Definition Resource_get (basePath token : string) : R :=
  client_request "GET" (basePath +:+ "/" +:+ token) None None.
Definition Resource_create (basePath : string) (data : json) : R :=
  client_request "POST" basePath (Some data) None.
Definition Resource_update (basePath token : string) (data : json) : R :=
  client_request "PUT" (basePath +:+ "/" +:+ token) (Some data) None.
Definition Resource_delete (basePath token : string) : R :=
  client_request "DELETE" (basePath +:+ "/" +:+ token) None None.

(** [class TokensResource]. *)
Definition TokensResource_list (params : option params_t) : R :=
  client_request "GET" "/api_tokens" (Some JNull) params.
Definition TokensResource_create (data : json) : R :=
  client_request "POST" "/api_tokens" (Some data) None.
Definition TokensResource_revoke (tokenPrefix : string) : R :=
  client_request "DELETE" ("/api_tokens/" +:+ tokenPrefix) None None.

End Resources.

(** The base paths given to [new Resource(this, basePath, listKey)]. *)
Definition workspaces : string := "/workspaces".
Definition costReports : string := "/cost_reports".
Definition folders : string := "/folders".
Definition savedFilters : string := "/saved_filters".
Definition dashboards : string := "/dashboards".
Definition segments : string := "/segments".
Definition teams : string := "/teams".
Definition accessGrants : string := "/access_grants".
Definition virtualTags : string := "/virtual_tags".
Definition resourceReports : string := "/resource_reports".

End JsSdk.

(** ** The resources and operations the two SDKs have in common *)
Inductive resource : Type :=
| workspaces | cost_reports | folders | segments | teams | virtual_tags | api_tokens.

Inductive operation : Type :=
| op_list (params : option params_t)
| op_get (token : string)
| op_create (data : Js.json)
| op_update (token : string) (data : Js.json)
| op_delete (token : string)
| op_revoke (tokenPrefix : string).

(** Method dispatch on the TypeScript client, called with [stack] frames
    left: [None] when the class has no such method, otherwise how the call
    completes. *)
Definition ts_call {R : Type} (rq : string -> string -> Js.value -> option params_t -> R)
    (stack : nat) (r : resource) (o : operation) : option (Js.completion R) :=
  match r, o with
  | workspaces, op_list p => Some (TsSdk.WorkspacesResource_list stack p)
  | workspaces, op_get t => Some (TsSdk.WorkspacesResource_get stack t)
  | workspaces, op_create d => Some (Js.Return (TsSdk.WorkspacesResource_create rq d))
  | workspaces, op_update t d => Some (Js.Return (TsSdk.WorkspacesResource_update rq t d))
  | workspaces, op_delete t => Some (Js.Return (TsSdk.WorkspacesResource_delete rq t))
  | cost_reports, op_list p => Some (TsSdk.CostReportsResource_list stack p)
  | cost_reports, op_get t => Some (TsSdk.CostReportsResource_get stack t)
  | cost_reports, op_create d => Some (Js.Return (TsSdk.CostReportsResource_create rq d))
  | cost_reports, op_update t d => Some (Js.Return (TsSdk.CostReportsResource_update rq t d))
  | cost_reports, op_delete t => Some (Js.Return (TsSdk.CostReportsResource_delete rq t))
  | folders, op_list p => Some (TsSdk.FoldersResource_list stack p)
  | folders, op_get t => Some (TsSdk.FoldersResource_get stack t)
  | folders, op_create d => Some (Js.Return (TsSdk.FoldersResource_create rq d))
  | folders, op_update t d => Some (Js.Return (TsSdk.FoldersResource_update rq t d))
  | folders, op_delete t => Some (Js.Return (TsSdk.FoldersResource_delete rq t))
  | segments, op_list p => Some (TsSdk.SegmentsResource_list stack p)
  | segments, op_get t => Some (TsSdk.SegmentsResource_get stack t)
  | segments, op_create d => Some (Js.Return (TsSdk.SegmentsResource_create rq d))
  | segments, op_update t d => Some (Js.Return (TsSdk.SegmentsResource_update rq t d))
  | segments, op_delete t => Some (Js.Return (TsSdk.SegmentsResource_delete rq t))
  | teams, op_list p => Some (TsSdk.TeamsResource_list stack p)
  | teams, op_get t => Some (TsSdk.TeamsResource_get stack t)
  | teams, op_create d => Some (Js.Return (TsSdk.TeamsResource_create rq d))
  | teams, op_update t d => Some (Js.Return (TsSdk.TeamsResource_update rq t d))
  | teams, op_delete t => Some (Js.Return (TsSdk.TeamsResource_delete rq t))
  | virtual_tags, op_list p => Some (TsSdk.VirtualTagsResource_list stack p)
  | virtual_tags, op_get t => Some (TsSdk.VirtualTagsResource_get stack t)
  | virtual_tags, op_create d => Some (Js.Return (TsSdk.VirtualTagsResource_create rq d))
  | virtual_tags, op_update t d => Some (Js.Return (TsSdk.VirtualTagsResource_update rq t d))
  | virtual_tags, op_delete t => Some (Js.Return (TsSdk.VirtualTagsResource_delete rq t))
  | api_tokens, op_list p => Some (Js.Return (TsSdk.APITokensResource_list rq p))
  | api_tokens, op_create d => Some (Js.Return (TsSdk.APITokensResource_create rq d))
  | api_tokens, op_revoke t => Some (Js.Return (TsSdk.APITokensResource_revoke rq t))
  | _, _ => None
  end.

(** The property of the JavaScript client holding each generic resource. *)
Definition js_basePath (r : resource) : option string :=
  match r with
  | workspaces => Some JsSdk.workspaces
  | cost_reports => Some JsSdk.costReports
  | folders => Some JsSdk.folders
  | segments => Some JsSdk.segments
  | teams => Some JsSdk.teams
  | virtual_tags => Some JsSdk.virtualTags
  | api_tokens => None
  end.

Definition js_call {R : Type} (rq : string -> string -> Js.value -> option params_t -> R)
    (r : resource) (o : operation) : option R :=
  match js_basePath r, o with
  | Some bp, op_list p => Some (JsSdk.Resource_list rq bp p)
  | Some bp, op_get t => Some (JsSdk.Resource_get rq bp t)
  | Some bp, op_create d => Some (JsSdk.Resource_create rq bp d)
  | Some bp, op_update t d => Some (JsSdk.Resource_update rq bp t d)
  | Some bp, op_delete t => Some (JsSdk.Resource_delete rq bp t)
  | Some _, op_revoke _ => None
  | None, op_list p => Some (JsSdk.TokensResource_list rq p)
  | None, op_create d => Some (JsSdk.TokensResource_create rq d)
  | None, op_revoke t => Some (JsSdk.TokensResource_revoke rq t)
  | None, _ => None
  end.

(** ** sdks/cloudpulse-go/cloudpulse/client.go *)
Module GoSdk.

(** A Go [(value, error)] pair of which exactly one side is set. *)
Inductive result (A : Type) : Type :=
| Ok (a : A)
| Err (e : string).
Arguments Ok {A} a.
Arguments Err {A} e.

Definition DefaultBaseURL : string := "https://api.cloudpulse.dev".
Definition APIVersion : string := "v2".
Definition UserAgent : string := "cloudpulse-go/0.1.0".

Record Client : Type := mkClient {
  BaseURL : string;
  APIToken : string
}.

Definition NewClient (apiToken : string) : Client :=
  {| BaseURL := DefaultBaseURL +:+ "/api/" +:+ APIVersion; APIToken := apiToken |}.

Record Request : Type := mkRequest {
  Method : string;
  URL : string;
  Header : list (string * string);
  ReqBody : option string
}.

(** [http.Response]: the status code and what [io.ReadAll(resp.Body)] gives. *)
Record Response : Type := mkResponse {
  StatusCode : Z;
  Body : result string
}.

(** The standard-library calls [doRequest] depends on. *)
Record runtime : Type := mkRuntime {
  json_Marshal : Js.json -> result string;
  http_NewRequest : string -> string -> option string -> result Request;
  HTTPClient_Do : Request -> result Response
}.

Definition Header_Set (k v : string) (r : Request) : Request :=
  {| Method := Method r; URL := URL r;
     Header := Js.set_member k v (Header r); ReqBody := ReqBody r |}.

Definition doRequest (rt : runtime) (c : Client) (method path : string)
    (body : option Js.json) : result string :=
  match (match body with
         | Some b => match json_Marshal rt b with
                     | Ok bytes => Ok (Some bytes)
                     | Err e => Err e
                     end
         | None => Ok None
         end) with
  | Err e => Err e
  | Ok buf =>
      match http_NewRequest rt method (BaseURL c +:+ path) buf with
      | Err e => Err e
      | Ok req =>
          let req := Header_Set "Authorization" ("Bearer " +:+ APIToken c) req in
          let req := Header_Set "Content-Type" "application/json" req in
          let req := Header_Set "User-Agent" UserAgent req in
          match HTTPClient_Do rt req with
          | Err e => Err e
          | Ok resp =>
              match Body resp with
              | Err e => Err e
              | Ok data =>
                  if StatusCode resp >=? 400
                  then Err ("API error " +:+ pretty (StatusCode resp) +:+ ": " +:+ data)
                  else Ok data
              end
          end
      end
  end.

End GoSdk.

(** ** tools/cloudpulse-mcp-server/src/index.ts *)
Module Mcp.
Import Js.

(** [process.env] as read at start-up. *)
Record env : Type := mkEnv {
  CLOUDPULSE_API_URL : option string;
  CLOUDPULSE_API_TOKEN : option string
}.

Definition or_default (v : option string) (d : string) : string :=
  match v with
  | Some s => if truthy_string s then s else d
  | None => d
  end.

Definition API_BASE (e : env) : string :=
  or_default (CLOUDPULSE_API_URL e) "https://api.cloudpulse.dev".
Definition API_TOKEN (e : env) : string :=
  or_default (CLOUDPULSE_API_TOKEN e) "".

Definition apiRequest_args (e : env) (method path : string) (body : value) : Fetch.request :=
  {| Fetch.url := API_BASE e +:+ "/api/v2" +:+ path;
     Fetch.method := method;
     Fetch.headers := [("Authorization", "Bearer " +:+ API_TOKEN e);
                       ("Content-Type", "application/json")];
     Fetch.body := Fetch.body_of body |}.

Definition apiRequest (fetch : Fetch.fetch_fn) (e : env) (method path : string)
    (body : value) : completion json :=
  bind (fetch (apiRequest_args e method path body))
    (fun res =>
       if negb (Fetch.ok res) then
         bind (try_catch (Fetch.json_body res)
                 (fun _ => Return (JObj [("detail", JStr (Fetch.statusText res))])))
           (fun err =>
              bind (get_prop (Some err) "detail")
                (fun detail =>
                   Throw (mkError "Error"
                            ("API error " +:+ pretty (Fetch.status res) +:+ ": "
                               +:+ to_string detail))))
       else Fetch.json_body res).

Record content_item : Type := mkContent { type : string; text : string }.

(** The object a tool call answers with; [isError] is [None] when the
    property is absent. *)
Record tool_result : Type := mkResult {
  content : list content_item;
  isError : option bool
}.

Record call_params : Type := mkParams {
  name : string;
  arguments : value
}.

(** [args?.workspace_token ? `?workspace_token=${args.workspace_token}` : ''] *)
Definition workspace_qs (args : value) : string :=
  if truthy (get_prop_opt args "workspace_token")
  then "?workspace_token=" +:+ to_string (get_prop_opt args "workspace_token")
  else "".

(** The [switch] of the handler: [inl] is the API call whose awaited value
    becomes [result], [inr] the object returned by the [default] case. *)
Definition tool_call (fetch : Fetch.fetch_fn) (e : env) (p : call_params)
  : completion json + tool_result :=
  let args := arguments p in
  if String.eqb (name p) "list_workspaces" then
    inl (apiRequest fetch e "GET" "/workspaces" None)
  else if String.eqb (name p) "list_cost_reports" then
    inl (apiRequest fetch e "GET" ("/cost_reports" +:+ workspace_qs args) None)
  else if String.eqb (name p) "get_cost_report" then
    inl (apiRequest fetch e "GET"
           ("/cost_reports/" +:+ to_string (get_prop_opt args "token")) None)
  else if String.eqb (name p) "create_cost_report" then
    inl (apiRequest fetch e "POST" "/cost_reports" args)
  else if String.eqb (name p) "list_segments" then
    inl (apiRequest fetch e "GET" ("/segments" +:+ workspace_qs args) None)
  else
    inr {| content := [mkContent "text" ("Unknown tool: " +:+ name p)];
           isError := Some true |}.

(** The CallTool request handler: the [try] block and its [catch]. *)
Definition handler (fetch : Fetch.fetch_fn) (e : env) (p : call_params)
  : completion tool_result :=
  try_catch
    (match tool_call fetch e p with
     | inl call =>
         bind call
           (fun result =>
              Return {| content := [mkContent "text" (JSON_stringify_2 result)];
                        isError := None |})
     | inr unknown => Return unknown
     end)
    (fun error =>
       Return {| content := [mkContent "text" ("Error: " +:+ message error)];
                 isError := Some true |}).

End Mcp.

(** ** The dashboard's API client, src/unnamed/part_009 (imported by the
    pages as ../api/client) *)
Module Api.
Import Js.

Definition BASE_URL : string := "/api/v1".
Definition V2_BASE_URL : string := "/api/v2".

(** The [options] argument of [request]; [None] is an absent property. *)
Record options : Type := mkOptions {
  opt_method : option string;
  opt_body : option string;
  opt_headers : option (list (string * string))
}.

Definition no_options : options := mkOptions None None None.

(** The second argument of [fetch] before the defaults of the Fetch API. *)
Record init : Type := mkInit {
  init_url : string;
  init_method : option string;
  init_headers : list (string * string);
  init_body : option string
}.

(** [request(endpoint, options, baseUrl)] up to the call of [fetch]:
    [{ headers, ...options }] lets a [headers] property of [options]
    replace the merged headers. *)
Definition request_args (localStorage : gmap string string) (endpoint : string)
    (o : options) (baseUrl : string) : init :=
  let token := localStorage !! "cloudpulse_token" in
  let headers :=
    spread
      (spread [("Content-Type", "application/json")]
         (match token with
          | Some t => if truthy_string t then [("Authorization", "Bearer " +:+ t)] else []
          | None => []
          end))
      (default [] (opt_headers o)) in
  {| init_url := baseUrl +:+ endpoint;
     init_method := opt_method o;
     init_headers := default headers (opt_headers o);
     init_body := opt_body o |}.

Definition to_fetch (i : init) : Fetch.request :=
  {| Fetch.url := init_url i;
     Fetch.method := default "GET" (init_method i);
     Fetch.headers := init_headers i;
     Fetch.body := init_body i |}.

Definition request (fetch : Fetch.fetch_fn) (localStorage : gmap string string)
    (endpoint : string) (o : options) (baseUrl : string) : completion json :=
  bind (fetch (to_fetch (request_args localStorage endpoint o baseUrl)))
    (fun res =>
       if negb (Fetch.ok res) then
         bind (try_catch (Fetch.json_body res)
                 (fun _ => Return (JObj [("detail", JStr (Fetch.statusText res))])))
           (fun error =>
              bind (get_prop (Some error) "detail")
                (fun detail =>
                   Throw (mkError "Error"
                            (if truthy detail then to_string detail
                             else "API request failed"))))
       else Fetch.json_body res).

(** [acknowledgeAnomaly(anomalyId)]. *)
Definition acknowledgeAnomaly (fetch : Fetch.fetch_fn) (localStorage : gmap string string)
    (anomalyId : value) : completion json :=
  request fetch localStorage
    ("/anomalies/" +:+ to_string anomalyId +:+ "/acknowledge")
    (mkOptions (Some "POST") None None) BASE_URL.

(** [validateCQL(filter)]: the arguments of the [request] call. *)
Definition validateCQL_options (filter : string) : options :=
  mkOptions (Some "POST") (Some (JSON_stringify (JObj [("filter", JStr filter)]))) None.

Definition validateCQL_args (localStorage : gmap string string) (filter : string) : init :=
  request_args localStorage "/query/validate" (validateCQL_options filter) V2_BASE_URL.

Definition validateCQL (fetch : Fetch.fetch_fn) (localStorage : gmap string string)
    (filter : string) : completion json :=
  request fetch localStorage "/query/validate" (validateCQL_options filter) V2_BASE_URL.

End Api.

(** ** frontend/src/pages/Budgets.jsx, its arithmetic read over the
    rationals (exact quotients and sums; module [Budgets64] below has the
    binary64 arithmetic the page computes with) *)
Module Budgets.

Local Open Scope Q_scope.

Record budget : Type := mkBudget {
  amount : Q;
  current_spend : Q;
  alert_at_pct : Q
}.

(** [a >= b] and [a < b] on numbers. *)
Definition geb (a b : Q) : bool := Qle_bool b a.
Definition ltb (a b : Q) : bool := negb (Qle_bool b a).
Definition gtb (a b : Q) : bool := negb (Qle_bool a b).

(** What a [<Badge>] element shows. *)
Record badge : Type := mkBadge { variant : string; label : string }.

Definition BudgetStatusBadge (pctUsed alertAtPct : Q) : badge :=
  if geb pctUsed 1 then mkBadge "error" "Over Budget"
  else if geb pctUsed alertAtPct then mkBadge "warning" "Warning"
  else mkBadge "success" "On Track".

(** The rendered bar: the width of the fill in percent, its colour and the
    position of the alert marker in percent. *)
Record bar : Type := mkBar { width : Q; color : string; marker_left : Q }.

Definition ProgressBar (pctUsed alertAtPct : Q) : bar :=
  let pct := Qmin (pctUsed * 100) 100 in
  let color :=
    if geb pctUsed 1 then "var(--color-error)"
    else if geb pctUsed alertAtPct then "var(--color-warning)"
    else "var(--color-success)" in
  {| width := pct; color := color; marker_left := alertAtPct * 100 |}.

(** [budget.amount > 0 ? budget.current_spend / budget.amount : 0] *)
Definition pctUsed (b : budget) : Q :=
  if gtb (amount b) 0 then current_spend b / amount b else 0.

Record stats_t : Type := mkStats {
  total : Q;
  spent : Q;
  overBudget : nat;
  atRisk : nat;
  remaining : Q
}.

Definition is_over (b : budget) : bool := gtb (current_spend b) (amount b).

Definition is_at_risk (b : budget) : bool :=
  let p := if gtb (amount b) 0 then current_spend b / amount b else 0 in
  geb p (alert_at_pct b) && ltb p 1.

Definition stats (budgets : list budget) : stats_t :=
  let total := fold_left (fun s b => s + amount b) budgets 0 in
  let spent := fold_left (fun s b => s + current_spend b) budgets 0 in
  let overBudget := length (List.filter is_over budgets) in
  let atRisk := length (List.filter is_at_risk budgets) in
  {| total := total; spent := spent; overBudget := overBudget; atRisk := atRisk;
     remaining := Qmax (total - spent) 0 |}.

End Budgets.

(** ** JavaScript numbers: IEEE 754 binary64 *)
Module Number.
Import PrimFloat.
Local Open Scope float_scope.

(** [a >= b] and [a > b]; like [a < b] and [a <= b] they are false when an
    operand is NaN. *)
Definition geb (a b : float) : bool := b <=? a.
Definition gtb (a b : float) : bool := b <? a.

Definition is_pos_zero (x : float) : bool := Leibniz.eqb x zero.
Definition is_neg_zero (x : float) : bool := Leibniz.eqb x neg_zero.

(** [Math.min] (ECMA-262, 21.3.2.25): NaN when an argument is NaN;
    otherwise [lowest] starts at +Infinity and each argument in turn
    replaces it when it is -0 against +0 or when it is smaller. *)
Definition min_step (lowest number : float) : float :=
  if is_neg_zero number && is_pos_zero lowest then number
  else if number <? lowest then number
  else lowest.

Definition Math_min (a b : float) : float :=
  if is_nan a || is_nan b then nan
  else min_step (min_step infinity a) b.

(** [Math.max] (ECMA-262, 21.3.2.24): NaN when an argument is NaN;
    otherwise [highest] starts at -Infinity and each argument in turn
    replaces it when it is +0 against -0 or when it is larger. *)
Definition max_step (highest number : float) : float :=
  if is_pos_zero number && is_neg_zero highest then number
  else if highest <? number then number
  else highest.

Definition Math_max (a b : float) : float :=
  if is_nan a || is_nan b then nan
  else max_step (max_step neg_infinity a) b.

End Number.

(** ** frontend/src/pages/Budgets.jsx *)
Module Budgets64.
Import PrimFloat Number.
Local Open Scope float_scope.

(** The numeric fields of a budget the page computes with. *)
Record budget : Type := mkBudget {
  amount : float;
  current_spend : float;
  alert_at_pct : float
}.

Definition BudgetStatusBadge (pctUsed alertAtPct : float) : Budgets.badge :=
  if geb pctUsed 1.0 then Budgets.mkBadge "error" "Over Budget"
  else if geb pctUsed alertAtPct then Budgets.mkBadge "warning" "Warning"
  else Budgets.mkBadge "success" "On Track".

(** The rendered bar: the width of the fill in percent, its colour and the
    position of the alert marker in percent. *)
Record bar : Type := mkBar { width : float; color : string; marker_left : float }.

Definition ProgressBar (pctUsed alertAtPct : float) : bar :=
  let pct := Math_min (pctUsed * 100) 100 in
  let color :=
    if geb pctUsed 1.0 then "var(--color-error)"
    else if geb pctUsed alertAtPct then "var(--color-warning)"
    else "var(--color-success)" in
  {| width := pct; color := color; marker_left := alertAtPct * 100 |}.

(** [budget.amount > 0 ? budget.current_spend / budget.amount : 0] *)
Definition pctUsed (b : budget) : float :=
  if gtb (amount b) 0 then current_spend b / amount b else 0.

Record stats_t : Type := mkStats {
  total : float;
  spent : float;
  overBudget : nat;
  atRisk : nat;
  remaining : float
}.

(** [b => b.current_spend > b.amount] *)
Definition is_over (b : budget) : bool := gtb (current_spend b) (amount b).

(** [b => { const p = ...; return p >= b.alert_at_pct && p < 1; }] *)
Definition is_at_risk (b : budget) : bool :=
  let p := if gtb (amount b) 0 then current_spend b / amount b else 0 in
  geb p (alert_at_pct b) && (p <? 1).

(** The [useMemo] of [stats]: [reduce] adds from the left, starting at 0. *)
Definition stats (budgets : list budget) : stats_t :=
  let total := fold_left (fun s b => s + amount b) budgets 0 in
  let spent := fold_left (fun s b => s + current_spend b) budgets 0 in
  let overBudget := length (List.filter is_over budgets) in
  let atRisk := length (List.filter is_at_risk budgets) in
  {| total := total; spent := spent; overBudget := overBudget; atRisk := atRisk;
     remaining := Math_max (total - spent) 0 |}.

End Budgets64.

(** ** The Anomalies page, src/unnamed/part_005 *)
Module Anomalies.
Import Js.

Record alert_config : Type := mkAlertConfig {
  criticalThreshold : Z;
  warningThreshold : Z;
  emailEnabled : bool;
  slackEnabled : bool;
  autoAcknowledge : bool
}.

Definition alertDefaults : alert_config :=
  {| criticalThreshold := 50;
     warningThreshold := 25;
     emailEnabled := true;
     slackEnabled := false;
     autoAcknowledge := false |}.

(** The initial [alertConfig] state:
    [saved ? JSON.parse(saved) : alertDefaults]. *)
Definition initial_alertConfig (JSON_parse : string -> alert_config)
    (localStorage : gmap string string) : alert_config :=
  match localStorage !! "cp_anomaly_config" with
  | Some saved => if truthy_string saved then JSON_parse saved else alertDefaults
  | None => alertDefaults
  end.

Inductive severity : Type := INFO | WARNING | CRITICAL.

(** Modelled from the spec: the routine that assigns a severity to an
    anomaly runs in the backend, which is not part of the sources; the
    project notes (src/unnamed/part_000, Feature 3) document its levels as INFO (25%+), WARNING (50%+) and
    CRITICAL (100%+) of deviation from the rolling 7-day average. *)
Definition documented_threshold (s : severity) : Z :=
  match s with
  | INFO => 25
  | WARNING => 50
  | CRITICAL => 100
  end.

(** Modelled from the spec: severity by threshold comparison on the
    percentage deviation, highest level first. *)
Definition documented_severity (deviation_pct : Z) : option severity :=
  if deviation_pct >=? documented_threshold CRITICAL then Some CRITICAL
  else if deviation_pct >=? documented_threshold WARNING then Some WARNING
  else if deviation_pct >=? documented_threshold INFO then Some INFO
  else None.

(** An anomaly as received from the API: the members of the object. *)
Definition anomaly : Type := list (string * json).

(** [a === b] on values that are not object references. *)
Definition strict_eq (a b : value) : bool :=
  match a, b with
  | None, None => true
  | Some JNull, Some JNull => true
  | Some (JBool x), Some (JBool y) => Bool.eqb x y
  | Some (JNum x), Some (JNum y) => x =? y
  | Some (JStr x), Some (JStr y) => String.eqb x y
  | _, _ => false
  end.

(** [a.id === id ? { ...a, acknowledged: true } : a]; the copy made by the
    spread has the members of [a]. *)
Definition acknowledge (id : value) (a : anomaly) : anomaly :=
  if strict_eq (lookup_member "id" a) id
  then set_member "acknowledged" (JBool true) a
  else a.

(** [handleAcknowledge(id)]: the new [anomalies] state. *)
Definition handleAcknowledge (fetch : Fetch.fetch_fn) (localStorage : gmap string string)
    (id : value) (anomalies : list anomaly) : list anomaly :=
  match Api.acknowledgeAnomaly fetch localStorage id with
  | Return _ => List.map (acknowledge id) anomalies
  | Throw _ => anomalies
  end.

End Anomalies.

(** ** frontend/src/context/AuthContext.jsx *)
Module Auth.
Import Js.

Definition TOKEN_KEY : string := "cloudpulse_token".

(** The component state ([user], [token], [loading]), the browser's
    [localStorage], the tokens whose validation request has not settled
    yet, and whether the effect scheduled by the last render has still to
    run.  [user] is [null] or whatever JSON value /api/v1/auth/me served. *)
Record state : Type := mkState {
  user : json;
  token : option string;
  loading : bool;
  localStorage : gmap string string;
  in_flight : list string;
  effect_due : bool
}.

(** The value handed to [AuthContext.Provider] by one render. *)
Record context_value : Type := mkContext {
  ctx_user : json;
  ctx_token : option string;
  ctx_loading : bool;
  isAuthenticated : bool
}.

(** [!!user] *)
Definition not_not (u : json) : bool := truthy_json u.

Definition render (s : state) : context_value :=
  {| ctx_user := user s; ctx_token := token s; ctx_loading := loading s;
     isAuthenticated := not_not (user s) |}.

Definition setUser (u : json) (s : state) : state :=
  mkState u (token s) (loading s) (localStorage s) (in_flight s) (effect_due s).
Definition setLoading (l : bool) (s : state) : state :=
  mkState (user s) (token s) l (localStorage s) (in_flight s) (effect_due s).
Definition removeItem (k : string) (s : state) : state :=
  mkState (user s) (token s) (loading s) (delete k (localStorage s)) (in_flight s)
    (effect_due s).
Definition setItem (k v : string) (s : state) : state :=
  mkState (user s) (token s) (loading s) (<[k := v]> (localStorage s)) (in_flight s)
    (effect_due s).

(** [setToken(t)]; the effect depends on [token], so the render that
    follows a changed value schedules it. *)
Definition setToken (t : option string) (s : state) : state :=
  mkState (user s) t (loading s) (localStorage s) (in_flight s)
    (effect_due s || negb (bool_decide (token s = t))).

(** The body of [useEffect], run after the render that scheduled it: a
    truthy token starts a validation request, otherwise loading ends. *)
Definition effect (s : state) : state :=
  match token s with
  | Some t =>
      if truthy_string t
      then mkState (user s) (token s) (loading s) (localStorage s) (in_flight s ++ [t]) false
      else mkState (user s) (token s) false (localStorage s) (in_flight s) false
  | None => mkState (user s) (token s) false (localStorage s) (in_flight s) false
  end.

(** The first render: [useState(null)],
    [useState(() => localStorage.getItem('cloudpulse_token'))] and
    [useState(true)]; no request has been started and the effect is due. *)
Definition initial (storage : gmap string string) : state :=
  mkState JNull (storage !! TOKEN_KEY) true storage [] true.

(** The response to [/api/v1/auth/me]. *)
Record me_response : Type := mkMe {
  me_status : Z;
  me_json : completion json
}.

(** [if (res.ok) return res.json(); throw new Error('Invalid token')] *)
Definition validated (r : completion me_response) : completion json :=
  bind r (fun res =>
            if (200 <=? me_status res) && (me_status res <=? 299)
            then me_json res
            else Throw (mkError "Error" "Invalid token")).

Fixpoint remove_first (t : string) (l : list string) : list string :=
  match l with
  | [] => []
  | t' :: r => if String.eqb t' t then r else t' :: remove_first t r
  end.

(** The validation request of token [t] settles with [r]: the [then],
    [catch] and [finally] callbacks. *)
Definition settle (t : string) (r : completion me_response) (s : state) : state :=
  let s := mkState (user s) (token s) (loading s) (localStorage s)
             (remove_first t (in_flight s)) (effect_due s) in
  let s := match validated r with
           | Return userData => setUser userData s
           | Throw _ => setUser JNull (setToken None (removeItem TOKEN_KEY s))
           end in
  setLoading false s.

(** [login] after a successful response carrying [access_token]. *)
Definition login (access_token : string) (s : state) : state :=
  setToken (Some access_token) (setItem TOKEN_KEY access_token s).

Definition logout (s : state) : state :=
  setUser JNull (setToken None (removeItem TOKEN_KEY s)).

(** What can happen next.  React runs the effect of a render before it
    renders any later update, so every other step starts from a state
    whose effect has run. *)
Inductive step : state -> state -> Prop :=
| step_effect (s : state) :
    effect_due s = true -> step s (effect s)
| step_settle (s : state) (t : string) (r : completion me_response) :
    effect_due s = false -> In t (in_flight s) -> step s (settle t r s)
| step_login (s : state) (access_token : string) :
    effect_due s = false -> step s (login access_token s)
| step_logout (s : state) :
    effect_due s = false -> step s (logout s).

(** The rendered states, from the first render on. *)
Inductive reachable (storage : gmap string string) : state -> Prop :=
| reach_initial : reachable storage (initial storage)
| reach_step (s s' : state) :
    reachable storage s -> step s s' -> reachable storage s'.

End Auth.

(** ** Reading a JSON string literal back (the receiving side of the wire) *)
Module JsonRead.
Import Js.

Definition hex_value (c : ascii) : option nat :=
  let n := nat_of_ascii c in
  if ((48 <=? n) && (n <=? 57))%nat then Some (n - 48)%nat
  else if ((97 <=? n) && (n <=? 102))%nat then Some (n - 87)%nat
  else if ((65 <=? n) && (n <=? 70))%nat then Some (n - 55)%nat
  else None.

(** The code unit written [\u00XY]; escapes above one byte are outside
    the byte model and are refused. *)
Definition unicode_escape (a b c d : ascii) : option ascii :=
  match hex_value a, hex_value b, hex_value c, hex_value d with
  | Some 0%nat, Some 0%nat, Some x, Some y => Some (ascii_of_nat (16 * x + y))
  | _, _, _, _ => None
  end.

Definition simple_escape (e : ascii) : option ascii :=
  let n := nat_of_ascii e in
  if (n =? 34)%nat then Some e
  else if (n =? 92)%nat then Some e
  else if (n =? 47)%nat then Some e
  else if (n =? 98)%nat then Some (ascii_of_nat 8)
  else if (n =? 102)%nat then Some (ascii_of_nat 12)
  else if (n =? 110)%nat then Some (ascii_of_nat 10)
  else if (n =? 114)%nat then Some (ascii_of_nat 13)
  else if (n =? 116)%nat then Some (ascii_of_nat 9)
  else None.

(** The characters of a string literal after its opening quote, up to the
    closing quote, which must end the input. *)
Fixpoint read_body (s : string) : option string :=
  match s with
  | "" => None
  | String c r =>
      if (nat_of_ascii c =? 34)%nat then
        match r with
        | "" => Some ""
        | _ => None
        end
      else if (nat_of_ascii c =? 92)%nat then
        match r with
        | String e r' =>
            if (nat_of_ascii e =? 117)%nat then
              match r' with
              | String h1 (String h2 (String h3 (String h4 r''))) =>
                  match unicode_escape h1 h2 h3 h4, read_body r'' with
                  | Some x, Some t => Some (String x t)
                  | _, _ => None
                  end
              | _ => None
              end
            else
              match simple_escape e, read_body r' with
              | Some x, Some t => Some (String x t)
              | _, _ => None
              end
        | "" => None
        end
      else if (nat_of_ascii c <? 32)%nat then None
      else
        match read_body r with
        | Some t => Some (String c t)
        | None => None
        end
  end.

Definition read_string_literal (s : string) : option string :=
  match s with
  | String c r => if (nat_of_ascii c =? 34)%nat then read_body r else None
  | "" => None
  end.

End JsonRead.


(** ** Vocabulary of the statements *)

(** What a request is compared on: the HTTP method and the URL. *)
Definition method_url (q : Fetch.request) : string * string :=
  (Fetch.method q, Fetch.url q).

(** The request the TypeScript, respectively JavaScript, client gives to
    [fetch] for an operation, for the same token and [baseUrl] option.  On
    the TypeScript client the call may throw before any request is made. *)
Definition ts_request (stack : nat) (apiToken : string) (baseUrl : option string)
    (r : resource) (o : operation) : option (Js.completion Fetch.request) :=
  ts_call (TsSdk.request_args (TsSdk.constructor (TsSdk.mkOptions apiToken baseUrl)))
    stack r o.

Definition js_request (apiToken : string) (baseUrl : option string)
    (r : resource) (o : operation) : option Fetch.request :=
  js_call (JsSdk.request_args (JsSdk.constructor apiToken baseUrl)) r o.

(** No query parameter of the operation has the value [null]. *)
Definition no_null_param (o : operation) : Prop :=
  match o with
  | op_list (Some ps) => Forall (fun kv => snd kv <> Some Js.JNull) ps
  | _ => True
  end.

(** A promise that rejects. *)
Definition throws {A : Type} (c : Js.completion A) : Prop :=
  exists e, c = Js.Throw e.

(** A Go call that returns a non-nil error. *)
Definition go_fails {A : Type} (r : GoSdk.result A) : Prop :=
  exists e, r = GoSdk.Err e.


Fixpoint string_forallb (f : ascii -> bool) (s : string) : bool :=
  match s with
  | "" => true
  | String c r => f c && string_forallb f r
  end.


(** A Go runtime in which marshalling and the transport succeed and the
    server answers every request with status [code] and body [data]. *)
Definition go_runtime_answering (code : Z) (data : string) : GoSdk.runtime :=
  {| GoSdk.json_Marshal := fun j => GoSdk.Ok (Js.JSON_stringify j);
     GoSdk.http_NewRequest := fun m u b => GoSdk.Ok (GoSdk.mkRequest m u [] b);
     GoSdk.HTTPClient_Do := fun _ => GoSdk.Ok (GoSdk.mkResponse code (GoSdk.Ok data)) |}.

(** The HTTP exchange of a [doRequest] call completes: the body marshals,
    the request is well formed, the transport delivers [resp] and its body
    reads as [data]. *)
Definition go_exchange (rt : GoSdk.runtime) (c : GoSdk.Client) (method path : string)
    (body : option Js.json) (resp : GoSdk.Response) (data : string) : Prop :=
  (forall b, body = Some b -> exists bytes, GoSdk.json_Marshal rt b = GoSdk.Ok bytes)
  /\ (forall buf, exists req,
        GoSdk.http_NewRequest rt method (GoSdk.BaseURL c +:+ path) buf = GoSdk.Ok req)
  /\ (forall req, GoSdk.HTTPClient_Do rt req = GoSdk.Ok resp)
  /\ GoSdk.Body resp = GoSdk.Ok data.


(** The tool names the MCP server's [switch] has a case for. *)
Definition known_tool (n : string) : bool :=
  String.eqb n "list_workspaces" || String.eqb n "list_cost_reports"
  || String.eqb n "get_cost_report" || String.eqb n "create_cost_report"
  || String.eqb n "list_segments".

(** A network on which every request is rejected. *)
Definition fetch_failing (msg : string) : Fetch.fetch_fn :=
  fun _ => Js.Throw (Js.mkError "TypeError" msg).


(** The name-value pairs a parameter object contributes when the values
    selected by [keep] are set one after the other. *)
Definition pairs_of (keep : Js.value -> bool) (ps : params_t) : Url.URLSearchParams :=
  flat_map (fun kv => if keep (snd kv) then [(fst kv, Js.to_string (snd kv))] else []) ps.

(** [v !== undefined], and [v !== undefined && v !== null]. *)
Definition not_undefined (v : Js.value) : bool :=
  match v with
  | None => false
  | Some _ => true
  end.

Definition not_undefined_nor_null (v : Js.value) : bool :=
  match v with
  | None | Some Js.JNull => false
  | Some _ => true
  end.




(** ** More of sdks/cloudpulse-go/cloudpulse/client.go: list parameters and
    the service methods *)
Module GoServices.

(** [url.QueryEscape]: letters, digits, [-], [_], [.] and [~] stay, a
    space becomes [+], every other byte is written %XX. *)
Definition unreserved (c : ascii) : bool :=
  let n := nat_of_ascii c in
  ((n =? 45) || (n =? 95) || (n =? 46) || (n =? 126)
   || ((48 <=? n) && (n <=? 57))
   || ((65 <=? n) && (n <=? 90))
   || ((97 <=? n) && (n <=? 122)))%nat.

Definition escape_byte (c : ascii) : string :=
  if (nat_of_ascii c =? 32)%nat then "+"
  else if unreserved c then String c ""
  else "%" +:+ Js.hex2 true c.

Fixpoint QueryEscape (s : string) : string :=
  match s with
  | "" => ""
  | String c r => escape_byte c +:+ QueryEscape r
  end.

(** [url.Values]: the keys with their value lists. *)
Definition Values : Type := list (string * list string).

(** [v.Set(key, value)]. *)
Definition Values_Set (v : Values) (key value : string) : Values :=
  Js.set_member key [value] v.

Fixpoint insert_sorted (kv : string * list string) (l : Values) : Values :=
  match l with
  | [] => [kv]
  | kv' :: r =>
      if String.leb (fst kv) (fst kv') then kv :: kv' :: r
      else kv' :: insert_sorted kv r
  end.

Definition sort_keys (v : Values) : Values :=
  fold_right insert_sorted [] v.

(** [v.Encode()]: key=value pairs, the keys in sorted order. *)
Definition Values_Encode (v : Values) : string :=
  Js.join "&"
    (flat_map (fun kv =>
                 List.map (fun x => QueryEscape (fst kv) +:+ "=" +:+ QueryEscape x) (snd kv))
       (sort_keys v)).

Record ListParams : Type := mkListParams {
  Page : Z;
  Limit : Z;
  WorkspaceToken : string
}.

(** [(p *ListParams) toQuery()]; [None] is the nil pointer. *)
Definition toQuery (p : option ListParams) : string :=
  let v : Values := [] in
  let v :=
    match p with
    | Some p =>
        let v := if Page p >? 0 then Values_Set v "page" (pretty (Page p)) else v in
        let v := if Limit p >? 0 then Values_Set v "limit" (pretty (Limit p)) else v in
        let v := if negb (String.eqb (WorkspaceToken p) "")
                 then Values_Set v "workspace_token" (WorkspaceToken p) else v in
        v
    | None => v
    end in
  if (0 <? length v)%nat then "?" +:+ Values_Encode v else "".

(** The service methods up to their call of [doRequest]; [R] is what that
    call stands for. *)
Section Services.
Context {R : Type}.
Variable doRequest : string -> string -> option Js.json -> R.








End Services.


End GoServices.





(** Bytes both query encoders leave as they are: letters, digits, [-],
    [_] and [.]. *)
Definition plain_char (c : ascii) : bool :=
  let n := nat_of_ascii c in
  ((n =? 45) || (n =? 95) || (n =? 46)
   || ((48 <=? n) && (n <=? 57))
   || ((65 <=? n) && (n <=? 90))
   || ((97 <=? n) && (n <=? 122)))%nat.




(** Lookup in a list of headers. *)
Fixpoint header_lookup (k : string) (hs : list (string * string)) : option string :=
  match hs with
  | [] => None
  | (k', v) :: r => if String.eqb k' k then Some v else header_lookup k r
  end.

(** The string ends in a slash. *)
Fixpoint ends_with_slash (s : string) : bool :=
  match s with
  | "" => false
  | String c r =>
      match r with
      | "" => Ascii.eqb c "/"
      | _ => ends_with_slash r
      end
  end.


(** ** More of tools/cloudpulse-mcp-server/src/index.ts: the tool list *)
Module McpTools.

(** One entry of the input schema's [properties]; [None] is an absent
    [description] or [default]. *)
Record property : Type := mkProperty {
  prop_name : string;
  prop_type : string;
  prop_description : option string;
  prop_default : option string
}.

Record tool : Type := mkTool {
  tool_name : string;
  description : string;
  properties : list property;
  required : list string
}.

(** The answer to a ListTools request. *)
Definition tools : list tool :=
  [ mkTool "list_workspaces" "List all CloudPulse workspaces" [] [];
    mkTool "list_cost_reports" "List cost reports, optionally filtered by workspace"
      [mkProperty "workspace_token" "string" (Some "Filter by workspace token") None] [];
    mkTool "get_cost_report" "Get details of a specific cost report"
      [mkProperty "token" "string" None None] ["token"];
    mkTool "create_cost_report" "Create a new cost report with optional CQL filter"
      [mkProperty "title" "string" None None;
       mkProperty "workspace_token" "string" None None;
       mkProperty "filter" "string" (Some "CQL filter expression") None;
       mkProperty "groupings" "string" None (Some "service");
       mkProperty "date_interval" "string" None (Some "last_30_days")]
      ["title"; "workspace_token"];
    mkTool "list_segments" "List cost segments in a workspace"
      [mkProperty "workspace_token" "string" None None] [] ].

End McpTools.


(** ** More of the dashboard's API client: the calls that build a query *)
Module ApiCalls.
Import Js.

(** [if (x) params.set(k, x)] *)
Definition set_if_truthy (params : Url.URLSearchParams) (k : string) (x : value)
  : Url.URLSearchParams :=
  if truthy x then Url.set params k (to_string x) else params.

(** [getCosts(accountId, startDate, endDate)]: the endpoint requested. *)
Definition getCosts_endpoint (accountId startDate endDate : value) : string :=
  let params : Url.URLSearchParams := [] in
  let params := set_if_truthy params "start_date" startDate in
  let params := set_if_truthy params "end_date" endDate in
  "/accounts/" +:+ to_string accountId +:+ "/costs?" +:+ Url.toString params.

Definition getCosts (fetch : Fetch.fetch_fn) (localStorage : gmap string string)
    (accountId startDate endDate : value) : completion json :=
  Api.request fetch localStorage (getCosts_endpoint accountId startDate endDate)
    Api.no_options Api.BASE_URL.

(** [getAnomalies(accountId, opts = {})]; the three options read from
    [opts]. *)
Definition getAnomalies_endpoint (accountId : value) (opts : list (string * json)) : string :=
  let params : Url.URLSearchParams := [] in
  let params := set_if_truthy params "start_date" (lookup_member "startDate" opts) in
  let params := set_if_truthy params "end_date" (lookup_member "endDate" opts) in
  let params := set_if_truthy params "severity" (lookup_member "severity" opts) in
  "/accounts/" +:+ to_string accountId +:+ "/anomalies?" +:+ Url.toString params.

Definition getAnomalies (fetch : Fetch.fetch_fn) (localStorage : gmap string string)
    (accountId : value) (opts : list (string * json)) : completion json :=
  Api.request fetch localStorage (getAnomalies_endpoint accountId opts)
    Api.no_options Api.BASE_URL.

(** [syncCloudAccount(id, startDate, endDate)]. *)
Definition syncCloudAccount_endpoint (id startDate endDate : value) : string :=
  let params : Url.URLSearchParams := [] in
  let params := set_if_truthy params "start_date" startDate in
  let params := set_if_truthy params "end_date" endDate in
  "/cloud_accounts/" +:+ to_string id +:+ "/sync?" +:+ Url.toString params.

Definition syncCloudAccount (fetch : Fetch.fetch_fn) (localStorage : gmap string string)
    (id startDate endDate : value) : completion json :=
  Api.request fetch localStorage (syncCloudAccount_endpoint id startDate endDate)
    (Api.mkOptions (Some "POST") None None) Api.V2_BASE_URL.

(** [getCloudAccounts(provider)]. *)
Definition getCloudAccounts_endpoint (provider : value) : string :=
  let params := if truthy provider then "?provider=" +:+ to_string provider else "" in
  "/cloud_accounts" +:+ params.

Definition getCloudAccounts (fetch : Fetch.fetch_fn) (localStorage : gmap string string)
    (provider : value) : completion json :=
  Api.request fetch localStorage (getCloudAccounts_endpoint provider)
    Api.no_options Api.V2_BASE_URL.

(** [getBudgets], [deleteBudget] and [checkBudgets]. *)
Definition getBudgets (fetch : Fetch.fetch_fn) (localStorage : gmap string string)
    (accountId : value) : completion json :=
  Api.request fetch localStorage ("/accounts/" +:+ to_string accountId +:+ "/budgets")
    Api.no_options Api.BASE_URL.

Definition deleteBudget (fetch : Fetch.fetch_fn) (localStorage : gmap string string)
    (budgetId : value) : completion json :=
  Api.request fetch localStorage ("/budgets/" +:+ to_string budgetId)
    (Api.mkOptions (Some "DELETE") None None) Api.BASE_URL.

End ApiCalls.

(** The serialized pair for a truthy argument, nothing for a falsy one. *)
Definition query_component (k : string) (x : Js.value) : list string :=
  if Js.truthy x then [k +:+ "=" +:+ Url.urlencode (Js.to_string x)] else [].


(** ** More of frontend/src/pages/Budgets.jsx: the delete handler *)
Module BudgetsPage.
Import Js.

(** A budget as listed: its id and the amounts the page computes with. *)
Record row : Type := mkRow {
  id : value;
  budget : Budgets64.budget
}.

(** The [budgets] and [selectedBudget] state. *)
Record page : Type := mkPage {
  budgets : list row;
  selectedBudget : option row
}.

(** [b.id !== budgetId] *)
Definition other_id (budgetId : value) (b : row) : bool :=
  negb (Anomalies.strict_eq (id b) budgetId).

(** [selectedBudget?.id]: undefined when nothing is selected. *)
Definition selected_id (s : page) : value :=
  match selectedBudget s with
  | Some sel => id sel
  | None => None
  end.

(** [handleDelete(budgetId)].  The handler is a closure of one render and
    reads that render's [budgets] and [selectedBudget] ([rendered]); the
    setters it calls after the awaited request act on the state of that
    moment ([s]): [setBudgets(budgets.filter(...))] replaces the list by
    the filtered list of the render, and [setSelectedBudget(null)] runs
    when the selection of the render has the id. *)
Definition handleDelete (fetch : Fetch.fetch_fn) (localStorage : gmap string string)
    (budgetId : value) (rendered s : page) : page :=
  match ApiCalls.deleteBudget fetch localStorage budgetId with
  | Return _ =>
      {| budgets := List.filter (other_id budgetId) (budgets rendered);
         selectedBudget :=
           if Anomalies.strict_eq (selected_id rendered) budgetId then None
           else selectedBudget s |}
  | Throw _ => s
  end.

(** The summary statistics of the listed budgets. *)
Definition stats (s : page) : Budgets64.stats_t :=
  Budgets64.stats (List.map budget (budgets s)).

End BudgetsPage.

(** How far a badge is from 'On Track'. *)
Definition badge_rank (b : Budgets.badge) : nat :=
  if String.eqb (Budgets.label b) "Over Budget" then 2
  else if String.eqb (Budgets.label b) "Warning" then 1
  else 0.


(** ** More of the Anomalies page: the counters and the severity filter *)
Module AnomalyViews.
Import Js.

(** [a.severity === s] *)
Definition severity_is (s : string) (a : Anomalies.anomaly) : bool :=
  Anomalies.strict_eq (lookup_member "severity" a) (Some (JStr s)).

(** [!a.acknowledged] *)
Definition unacknowledged (a : Anomalies.anomaly) : bool :=
  negb (truthy (lookup_member "acknowledged" a)).

(** The counters of [stats] ([total], [critical], [unacked]); its fourth
    field, the floating-point sum [totalImpact], is not part of the model. *)
Definition stats_total (anomalies : list Anomalies.anomaly) : nat :=
  length anomalies.
Definition stats_critical (anomalies : list Anomalies.anomaly) : nat :=
  length (List.filter (severity_is "critical") anomalies).
Definition stats_unacked (anomalies : list Anomalies.anomaly) : nat :=
  length (List.filter unacknowledged anomalies).

(** [filter === 'all' ? anomalies : anomalies.filter(a => a.severity === filter)] *)
Definition filtered (filter : string) (anomalies : list Anomalies.anomaly)
  : list Anomalies.anomaly :=
  if String.eqb filter "all" then anomalies
  else List.filter (severity_is filter) anomalies.

End AnomalyViews.


(** A network on which every request is answered with [code] and the JSON
    body [body]. *)
Definition fetch_answering (code : Z) (body : Js.json) : Fetch.fetch_fn :=
  fun _ => Js.Return (Fetch.mkResponse code "" (Js.Return body)).


(** ** frontend/src/App.jsx: what [AppRoutes] shows *)
Module App.

Inductive screen : Type :=
| LoadingScreen
| LoginScreen
| Application.

(** [AppRoutes()]: the loading splash while [loading], the login page
    while not authenticated, the routed application otherwise. *)
Definition AppRoutes (ctx : Auth.context_value) : screen :=
  if Auth.ctx_loading ctx then LoadingScreen
  else if negb (Auth.isAuthenticated ctx) then LoginScreen
  else Application.

End App.

(** The token is absent or the empty string. *)
Definition falsy_token (t : option string) : bool :=
  match t with
  | Some s => negb (Js.truthy_string s)
  | None => true
  end.

(** A response of /api/v1/auth/me with status 200 carrying the body [u]. *)
Definition me_ok (u : Js.json) : Js.completion Auth.me_response :=
  Js.Return (Auth.mkMe 200 (Js.Return u)).

(** The validation request fails: [fetch] rejects, the status is not ok,
    or the body of an ok response does not parse as JSON. *)
Definition validation_failed (r : Js.completion Auth.me_response) : bool :=
  match r with
  | Js.Throw _ => true
  | Js.Return res =>
      negb ((200 <=? Auth.me_status res) && (Auth.me_status res <=? 299))
      || match Auth.me_json res with
         | Js.Throw _ => true
         | Js.Return _ => false
         end
  end.

(** The state once the effect that is due, if any, has run. *)
Definition after_effect (s : Auth.state) : Auth.state :=
  if Auth.effect_due s then Auth.effect s else s.


(** ** frontend/src/pages/Login.jsx: the password strength meter *)
Module Login.

(** A password as the sequence of its UTF-16 code units, which is what
    [length] counts and the regular expressions test. *)
Definition code_units : Type := list nat.

Definition is_upper (c : nat) : bool := ((65 <=? c) && (c <=? 90))%nat.
Definition is_lower (c : nat) : bool := ((97 <=? c) && (c <=? 122))%nat.
Definition is_digit (c : nat) : bool := ((48 <=? c) && (c <=? 57))%nat.

Definition b2n (b : bool) : nat := if b then 1 else 0.

(** [getStrength()] *)
Definition getStrength (password : code_units) : nat :=
  match password with
  | [] => 0
  | _ =>
      (b2n (8 <=? length password)
       + b2n (existsb is_upper password)
       + b2n (existsb is_digit password)
       + b2n (existsb (fun c => negb (is_upper c || is_lower c || is_digit c)) password))%nat
  end.

Definition labels : list string := [""; "Weak"; "Fair"; "Good"; "Strong"].
Definition colors : list string :=
  [""; "var(--color-error)"; "var(--color-warning)"; "var(--color-info)";
   "var(--color-success)"].

(** What the meter shows: the colours of its four bars and the label with
    its colour; [None] (of [option string]) is an array read out of
    range, which gives undefined. *)
Record meter : Type := mkMeter {
  bars : list (option string);
  label : option string;
  label_color : option string
}.

(** [PasswordStrength({ password })]: nothing for an empty password. *)
Definition PasswordStrength (password : code_units) : option meter :=
  match password with
  | [] => None
  | _ =>
      let strength := getStrength password in
      Some {| bars := List.map (fun i => if (i <=? strength)%nat
                                         then nth_error colors strength
                                         else Some "var(--color-border)")
                        [1; 2; 3; 4]%nat;
              label := nth_error labels strength;
              label_color := nth_error colors strength |}
  end.

End Login.


(** A bar of the meter that is not drawn in the border colour. *)
Definition coloured_bar (b : option string) : bool :=
  match b with
  | Some s => negb (String.eqb s "var(--color-border)")
  | None => true
  end.


(** How often a character occurs in a string. *)
Fixpoint count_char (c : ascii) (s : string) : nat :=
  match s with
  | "" => 0
  | String x r => ((if Ascii.eqb x c then 1 else 0) + count_char c r)%nat
  end.

(* ===================================================================== *)
(** * Part II.  Properties                                                *)
(* ===================================================================== *)

Import Js.

(** ** Strings *)

Lemma append_nil_l' (b : string) : "" +:+ b = b.
Proof. reflexivity. Qed.

Lemma append_cons (c : ascii) (a b : string) : String c a +:+ b = String c (a +:+ b).
Proof. reflexivity. Qed.

Lemma append_assoc' (a b c : string) : (a +:+ b) +:+ c = a +:+ (b +:+ c).
Proof.
  induction a as [|x a IH]; [reflexivity|].
  rewrite !append_cons. f_equal. exact IH.
Qed.

Lemma append_nil_r' (a : string) : a +:+ "" = a.
Proof.
  induction a as [|x a IH]; [reflexivity|].
  rewrite append_cons. f_equal. exact IH.
Qed.

Lemma prefix_append (a b : string) : String.prefix a (a +:+ b) = true.
Proof.
  induction a as [|c a IH]; [destruct b; reflexivity|].
  rewrite append_cons. simpl.
  destruct (ascii_dec c c) as [_|Hne]; [exact IH | congruence].
Qed.

Lemma includes_prefix (s sub : string) :
  String.prefix sub s = true -> Url.includes s sub = true.
Proof. intros H. destruct s; cbn [Url.includes]; rewrite H; reflexivity. Qed.

Lemma includes_append_r (a s sub : string) :
  Url.includes s sub = true -> Url.includes (a +:+ s) sub = true.
Proof.
  intros H. induction a as [|c a IH]; [exact H|].
  rewrite append_cons. cbn [Url.includes]. rewrite IH. apply orb_true_r.
Qed.

Lemma prefix_append_l (sub s b : string) :
  String.prefix sub s = true -> String.prefix sub (s +:+ b) = true.
Proof.
  revert s. induction sub as [|d sub IH]; intros s H;
    [destruct (s +:+ b); reflexivity|].
  destruct s as [|c s]; [discriminate|].
  rewrite append_cons. simpl in *.
  destruct (ascii_dec d c); [apply IH, H | discriminate].
Qed.

Lemma includes_append_l (s b sub : string) :
  Url.includes s sub = true -> Url.includes (s +:+ b) sub = true.
Proof.
  induction s as [|c s IH]; cbn [Url.includes]; intros H.
  - rewrite orb_false_r in H. destruct sub; [|discriminate].
    destruct b; reflexivity.
  - rewrite append_cons. cbn [Url.includes].
    apply orb_true_iff in H. destruct H as [H|H].
    + rewrite <- append_cons, (prefix_append_l _ _ _ H). reflexivity.
    + rewrite (IH H). apply orb_true_r.
Qed.

Lemma includes_self_append (sub b : string) : Url.includes (sub +:+ b) sub = true.
Proof. apply includes_prefix, prefix_append. Qed.

Lemma includes_middle (a sub b : string) :
  Url.includes (a +:+ sub +:+ b) sub = true.
Proof. apply includes_append_r, includes_self_append. Qed.

Lemma includes_self (sub : string) : Url.includes sub sub = true.
Proof. rewrite <- (append_nil_r' sub) at 1. apply includes_self_append. Qed.

Lemma includes_join (sep x : string) (l : list string) :
  In x l -> Url.includes (join sep l) x = true.
Proof.
  induction l as [|y l IH]; [intros []|].
  intros [->|Hin].
  - destruct l; cbn [join]; [apply includes_self | apply includes_self_append].
  - destruct l as [|z l]; [destruct Hin|].
    change (join sep (y :: z :: l)) with (y +:+ sep +:+ join sep (z :: l)).
    apply includes_append_r, includes_append_r, IH, Hin.
Qed.

(** ** The two JavaScript-family SDKs build the same requests *)

Lemma request_qs_agree (ps : params_t) :
  Forall (fun kv => snd kv <> Some JNull) ps ->
  TsSdk.request_qs ps = JsSdk.request_qs ps.
Proof.
  unfold TsSdk.request_qs, JsSdk.request_qs.
  generalize (@nil (string * string)).
  induction ps as [|[k v] ps IH]; intros acc H; [reflexivity|].
  inversion H as [|? ? Hv Hps]; subst. simpl in Hv. simpl.
  destruct v as [[| | | | |]|]; try congruence; apply IH, Hps.
Qed.

Lemma request_url_agree (apiToken : string) (baseUrl : option string)
    (path : string) (params : option params_t) :
  baseUrl <> Some "" ->
  match params with
  | Some ps => Forall (fun kv => snd kv <> Some JNull) ps
  | None => True
  end ->
  TsSdk.request_url (TsSdk.constructor (TsSdk.mkOptions apiToken baseUrl)) path params
  = JsSdk.request_url (JsSdk.constructor apiToken baseUrl) path params.
Proof.
  intros Hb Hp.
  assert (Hbase : TsSdk.client_baseUrl (TsSdk.constructor (TsSdk.mkOptions apiToken baseUrl))
                  = JsSdk.client_baseUrl (JsSdk.constructor apiToken baseUrl)).
  { destruct baseUrl as [[|c s]|]; [congruence|reflexivity|reflexivity]. }
  unfold TsSdk.request_url, JsSdk.request_url. rewrite Hbase.
  destruct params as [ps|]; [|reflexivity].
  rewrite (request_qs_agree ps Hp). reflexivity.
Qed.

Lemma ts_get_overflows {R : Type} (r : resource) (stack : nat) :
  r <> api_tokens ->
  forall (rq : string -> string -> value -> option params_t -> R) (token : string),
    ts_call rq stack r (op_get token) = Some (Throw TsSdk.RangeError).
Proof.
  intros Hr rq.
  destruct r; try congruence; cbn [ts_call];
    induction stack as [|n IH]; intros token; cbn; first [reflexivity | apply IH].
Qed.

Lemma ts_list_overflows {R : Type} (r : resource) (stack : nat) :
  r <> api_tokens ->
  forall (rq : string -> string -> value -> option params_t -> R)
         (params : option params_t),
    ts_call rq stack r (op_list params) = Some (Throw TsSdk.RangeError).
Proof.
  intros Hr rq params.
  destruct stack as [|n]; [destruct r; try congruence; reflexivity|].
  pose proof (ts_get_overflows r n Hr rq) as Hg.
  destruct r; try congruence; cbn [ts_call] in *;
    cbn [TsSdk.WorkspacesResource_list TsSdk.CostReportsResource_list
         TsSdk.FoldersResource_list TsSdk.SegmentsResource_list
         TsSdk.TeamsResource_list TsSdk.VirtualTagsResource_list];
    apply Hg.
Qed.

(** Where the TypeScript client does hand a request to [fetch], the
    JavaScript client hands over one with the same method and URL. *)
Lemma ts_request_matched (stack : nat) (apiToken : string) (baseUrl : option string)
    (r : resource) (o : operation) (q : Fetch.request) :
  baseUrl <> Some "" ->
  no_null_param o ->
  ts_request stack apiToken baseUrl r o = Some (Return q) ->
  option_map method_url (js_request apiToken baseUrl r o) = Some (method_url q).
Proof.
  intros Hb Hp Hq.
  pose proof (fun path => request_url_agree apiToken baseUrl path None Hb I) as Hnone.
  assert (Hl : forall params, r <> api_tokens ->
                 ts_request stack apiToken baseUrl r (op_list params)
                 <> Some (Return q)).
  { intros params Hr. unfold ts_request. rewrite (ts_list_overflows r stack Hr). discriminate. }
  assert (Hg : forall t, r <> api_tokens ->
                 ts_request stack apiToken baseUrl r (op_get t) <> Some (Return q)).
  { intros t Hr. unfold ts_request. rewrite (ts_get_overflows r stack Hr). discriminate. }
  destruct o as [params|t|d|t d|t|t]; destruct r;
    try (exfalso; apply (Hl params); [discriminate | exact Hq]);
    try (exfalso; apply (Hg t); [discriminate | exact Hq]);
    cbn -[TsSdk.constructor JsSdk.constructor TsSdk.request_url JsSdk.request_url] in Hq;
    try discriminate Hq;
    injection Hq as <-;
    cbn -[TsSdk.constructor JsSdk.constructor TsSdk.request_url JsSdk.request_url];
    unfold method_url; cbn [Fetch.method Fetch.url]; do 2 f_equal;
    rewrite ?append_assoc'; symmetry; try apply Hnone;
    apply request_url_agree; assumption.
Qed.

(** C1 (the code diverges from the claim): on the six collections
    (workspaces, cost_reports, folders, segments, teams, virtual_tags) the
    TypeScript classes declare a [get(token)] that shadows the inherited
    helper, so [list] and [get] call themselves until the call stack is
    exhausted: whatever the stack depth, base URL and argument, the call
    ends in a RangeError and no request is made, while the JavaScript
    client sends the GET request for the collection, respectively for
    <collection>/<token>.  On every operation for which the TypeScript
    client does make a request (create, update and delete on the
    collections; list, create and revoke on the API tokens) the two
    clients compute the same method and URL, given the same [baseUrl]
    option other than the empty string and params without a [null]; with
    the empty string as [baseUrl] the TypeScript client falls back to the
    default host and the JavaScript client does not. *)
Theorem ts_list_and_get_never_request (stack : nat) (apiToken : string)
    (baseUrl : option string) (r : resource) (params : option params_t)
    (token : string) (o : operation) :
  (r <> api_tokens ->
     ts_request stack apiToken baseUrl r (op_list params) = Some (Throw TsSdk.RangeError)
     /\ ts_request stack apiToken baseUrl r (op_get token) = Some (Throw TsSdk.RangeError)
     /\ (exists path,
           js_basePath r = Some path
           /\ js_request apiToken baseUrl r (op_list params)
              = Some (JsSdk.request_args (JsSdk.constructor apiToken baseUrl)
                        "GET" path (Some JNull) params)
           /\ js_request apiToken baseUrl r (op_get token)
              = Some (JsSdk.request_args (JsSdk.constructor apiToken baseUrl)
                        "GET" (path +:+ "/" +:+ token) None None)))
  /\ (forall q,
        baseUrl <> Some "" ->
        no_null_param o ->
        ts_request stack apiToken baseUrl r o = Some (Return q) ->
        option_map method_url (js_request apiToken baseUrl r o) = Some (method_url q))
  /\ (exists q,
        ts_request stack apiToken (Some "") workspaces (op_create (JObj [])) = Some (Return q)
        /\ Fetch.url q = "https://api.cloudpulse.dev/api/v2/workspaces"
        /\ option_map Fetch.url
             (js_request apiToken (Some "") workspaces (op_create (JObj [])))
           = Some "/api/v2/workspaces").
Proof.
  split; [|split].
  - intros Hr. split; [apply ts_list_overflows, Hr|]. split; [apply ts_get_overflows, Hr|].
    destruct r; try congruence; eexists; repeat split.
  - intros q Hb Hp Hq. exact (ts_request_matched stack apiToken baseUrl r o q Hb Hp Hq).
  - eexists. split; [reflexivity|]. split; reflexivity.
Qed.

Lemma ts_list_and_get_never_request_witness :
  ts_request 64 "cpls_1" None workspaces (op_list None) = Some (Throw TsSdk.RangeError)
  /\ ts_request 64 "cpls_1" None workspaces (op_get "ws_1") = Some (Throw TsSdk.RangeError)
  /\ option_map method_url (js_request "cpls_1" None workspaces (op_list None))
     = Some ("GET", "https://api.cloudpulse.dev/api/v2/workspaces")
  /\ option_map method_url
       (js_request "cpls_1" (Some "https://cp.example/") folders
          (op_create (JObj [("title", JStr "Q3")])))
     = Some ("POST", "https://cp.example/api/v2/folders").
Proof.
  destruct (ts_list_and_get_never_request 64 "cpls_1" None workspaces None "ws_1"
              (op_list None)) as (H1 & _ & _).
  destruct (H1 ltac:(discriminate)) as (Hl & Hg & path & Hp & Hjl & _).
  destruct (ts_list_and_get_never_request 64 "cpls_1" (Some "https://cp.example/")
              folders None "" (op_create (JObj [("title", JStr "Q3")]))) as (_ & H2 & _).
  split; [exact Hl|]. split; [exact Hg|]. split.
  - rewrite Hjl. injection Hp as <-. reflexivity.
  - apply (H2 (TsSdk.request_args
                 (TsSdk.constructor (TsSdk.mkOptions "cpls_1" (Some "https://cp.example/")))
                 "POST" "/folders" (Some (JObj [("title", JStr "Q3")])) None)).
    + discriminate.
    + exact I.
    + reflexivity.
Defined.

(** ** Which statuses the SDKs treat as failures *)

Lemma ok_range (res : Fetch.response) :
  Fetch.ok res = true <-> 200 <= Fetch.status res <= 299.
Proof. unfold Fetch.ok. rewrite andb_true_iff, !Z.leb_le. reflexivity. Qed.

Lemma ts_request_result_ok (res : Fetch.response) :
  200 <= Fetch.status res <= 299 ->
  TsSdk.request_result res = Fetch.json_body res.
Proof.
  intros H. apply ok_range in H. unfold TsSdk.request_result. now rewrite H.
Qed.

Lemma ts_request_result_not_ok (res : Fetch.response) :
  ~ (200 <= Fetch.status res <= 299) -> throws (TsSdk.request_result res).
Proof.
  intros H. unfold TsSdk.request_result, throws.
  destruct (Fetch.ok res) eqn:Hok; [apply ok_range in Hok; contradiction|].
  cbn [negb]. destruct (Fetch.json_body res) as [[| | | | |]|e]; cbn; eexists; reflexivity.
Qed.

Lemma js_request_result_eq (res : Fetch.response) :
  JsSdk.request_result res = TsSdk.request_result res.
Proof. reflexivity. Qed.

Lemma go_doRequest_exchange (rt : GoSdk.runtime) (c : GoSdk.Client) (method path : string)
    (body : option json) (resp : GoSdk.Response) (data : string) :
  go_exchange rt c method path body resp data ->
  GoSdk.doRequest rt c method path body
  = if GoSdk.StatusCode resp >=? 400
    then GoSdk.Err ("API error " +:+ pretty (GoSdk.StatusCode resp) +:+ ": " +:+ data)
    else GoSdk.Ok data.
Proof.
  intros (Hm & Hn & Hd & Hb). unfold GoSdk.doRequest.
  assert (Hbuf : exists buf,
             match body with
             | Some b => match GoSdk.json_Marshal rt b with
                         | GoSdk.Ok bytes => GoSdk.Ok (Some bytes)
                         | GoSdk.Err e => GoSdk.Err e
                         end
             | None => GoSdk.Ok None
             end = GoSdk.Ok buf).
  { destruct body as [b|]; [|eexists; reflexivity].
    destruct (Hm b eq_refl) as [bytes ->]. eexists; reflexivity. }
  destruct Hbuf as [buf ->]. destruct (Hn buf) as [req ->].
  rewrite Hd, Hb. reflexivity.
Qed.

(** C3 (as stated it fails): on status 304 the TypeScript and JavaScript
    clients raise an error while the Go client returns the body, so the
    three SDKs do not agree on which statuses denote failure. *)
Lemma sdks_disagree_on_status_304 :
  throws (TsSdk.request_result (Fetch.mkResponse 304 "Not Modified" (Return (JObj []))))
  /\ throws (JsSdk.request_result (Fetch.mkResponse 304 "Not Modified" (Return (JObj []))))
  /\ GoSdk.doRequest (go_runtime_answering 304 "{}") (GoSdk.NewClient "t")
       "GET" "/workspaces" None = GoSdk.Ok "{}".
Proof. repeat split; try (eexists; reflexivity). Qed.

(** C3 (amended): the TypeScript and JavaScript request functions raise an
    error whenever the response status is outside 200..299 and otherwise
    give what [res.json()] gives, the parsed body; Go's [doRequest], once
    the exchange has completed, returns an error exactly when the status is
    400 or more and the raw body otherwise; so for a response with a JSON
    body the three agree on failure exactly for the statuses in 200..299
    and from 400 on (they differ below 200 and in 300..399). *)
Theorem sdk_failure_statuses (res : Fetch.response) (parsed : json)
    (rt : GoSdk.runtime) (c : GoSdk.Client) (method path : string)
    (body : option json) (resp : GoSdk.Response) (data : string) :
  Fetch.json_body res = Return parsed ->
  go_exchange rt c method path body resp data ->
  GoSdk.StatusCode resp = Fetch.status res ->
  (throws (TsSdk.request_result res) <-> ~ (200 <= Fetch.status res <= 299))
  /\ (200 <= Fetch.status res <= 299 -> TsSdk.request_result res = Return parsed)
  /\ JsSdk.request_result res = TsSdk.request_result res
  /\ (go_fails (GoSdk.doRequest rt c method path body) <-> 400 <= Fetch.status res)
  /\ (Fetch.status res < 400 -> GoSdk.doRequest rt c method path body = GoSdk.Ok data)
  /\ ((throws (TsSdk.request_result res)
       <-> go_fails (GoSdk.doRequest rt c method path body))
      <-> (200 <= Fetch.status res <= 299 \/ 400 <= Fetch.status res)).
Proof.
  intros Hj Hx Hs.
  assert (Hts : throws (TsSdk.request_result res) <-> ~ (200 <= Fetch.status res <= 299)).
  { split.
    - intros [e He] Hr. rewrite (ts_request_result_ok res Hr), Hj in He. discriminate.
    - apply ts_request_result_not_ok. }
  assert (Hgo : go_fails (GoSdk.doRequest rt c method path body) <-> 400 <= Fetch.status res).
  { rewrite (go_doRequest_exchange _ _ _ _ _ _ _ Hx), Hs.
    destruct (Fetch.status res >=? 400) eqn:Hc.
    - apply Z.geb_le in Hc. split; [lia | intros _; eexists; reflexivity].
    - assert (Fetch.status res < 400) by (rewrite Z.geb_leb in Hc; apply Z.leb_gt in Hc; lia).
      split; [intros [e He]; discriminate | lia]. }
  split; [exact Hts|].
  split; [intros Hr; rewrite (ts_request_result_ok res Hr); exact Hj|].
  split; [reflexivity|].
  split; [exact Hgo|].
  split.
  - intros Hlt. rewrite (go_doRequest_exchange _ _ _ _ _ _ _ Hx), Hs.
    destruct (Fetch.status res >=? 400) eqn:Hc; [apply Z.geb_le in Hc; lia | reflexivity].
  - rewrite Hts, Hgo. lia.
Qed.

Lemma sdk_failure_statuses_witness :
  let res := Fetch.mkResponse 404 "Not Found" (Return (JObj [("detail", JStr "Not found")])) in
  let rt := go_runtime_answering 404 "{}" in
  (throws (TsSdk.request_result res) <-> ~ (200 <= Fetch.status res <= 299))
  /\ (200 <= Fetch.status res <= 299 ->
      TsSdk.request_result res = Return (JObj [("detail", JStr "Not found")]))
  /\ JsSdk.request_result res = TsSdk.request_result res
  /\ (go_fails (GoSdk.doRequest rt (GoSdk.NewClient "t") "GET" "/workspaces" None)
      <-> 400 <= Fetch.status res)
  /\ (Fetch.status res < 400 ->
      GoSdk.doRequest rt (GoSdk.NewClient "t") "GET" "/workspaces" None = GoSdk.Ok "{}")
  /\ ((throws (TsSdk.request_result res)
       <-> go_fails (GoSdk.doRequest rt (GoSdk.NewClient "t") "GET" "/workspaces" None))
      <-> (200 <= Fetch.status res <= 299 \/ 400 <= Fetch.status res)).
Proof.
  intros res rt.
  apply (sdk_failure_statuses res (JObj [("detail", JStr "Not found")]) rt
           (GoSdk.NewClient "t") "GET" "/workspaces" None
           (GoSdk.mkResponse 404 (GoSdk.Ok "{}")) "{}").
  - reflexivity.
  - repeat split.
    + intros b Hb. discriminate.
    + intros buf. eexists. reflexivity.
  - reflexivity.
Defined.

(** ** Budgets: status badge, progress bar and summary statistics *)

(** *** The order of binary64 numbers *)

Section FloatOrder.
Import SpecFloat FloatOps FloatAxioms PrimFloat.
Local Open Scope float_scope.

Ltac cmp_cases :=
  repeat match goal with
  | |- context [Z.compare ?a ?b] => destruct (Z.compare_spec a b)
  | H : context [Z.compare ?a ?b] |- _ => destruct (Z.compare_spec a b)
  | |- context [Pos.compare_cont Eq ?a ?b] =>
      change (Pos.compare_cont Eq a b) with (Pos.compare a b);
      destruct (Pos.compare_spec a b)
  | H : context [Pos.compare_cont Eq ?a ?b] |- _ =>
      change (Pos.compare_cont Eq a b) with (Pos.compare a b) in H;
      destruct (Pos.compare_spec a b)
  end.

Lemma SFcompare_antisym (x y : spec_float) :
  SFcompare y x = option_map CompOpp (SFcompare x y).
Proof.
  destruct x as [sx|sx| |sx mx ex], y as [sy|sy| |sy my ey]; cbn;
    try reflexivity;
    try (destruct sx; reflexivity); try (destruct sy; reflexivity);
    try (destruct sx, sy; reflexivity).
  destruct sx, sy; cbn; try reflexivity;
    rewrite (Z.compare_antisym ex ey); destruct (ex ?= ey)%Z; cbn; try reflexivity;
    pose proof (Pos.compare_cont_antisym mx my Eq) as H; cbn in H; rewrite <- H;
    destruct (Pos.compare_cont Eq mx my); reflexivity.
Qed.

Lemma SFcompare_None (x y : spec_float) :
  SFcompare x y = None <-> x = S754_nan \/ y = S754_nan.
Proof.
  destruct x as [sx|sx| |sx mx ex], y as [sy|sy| |sy my ey]; cbn;
    split; intros H; try discriminate; auto;
    try (destruct H; discriminate).
Qed.

Lemma SFcompare_refl (x : spec_float) : x <> S754_nan -> SFcompare x x = Some Eq.
Proof.
  destruct x as [s|s| |s m e]; cbn; intros H; try congruence.
  - destruct s; reflexivity.
  - destruct s; rewrite Z.compare_refl, Pos.compare_cont_refl; reflexivity.
Qed.

Lemma SFltb_leb_trans (x y z : spec_float) :
  SFltb x y = true -> SFleb y z = true -> SFltb x z = true.
Proof.
  unfold SFltb, SFleb.
  destruct x as [sx|sx| |sx mx ex], y as [sy|sy| |sy my ey], z as [sz|sz| |sz mz ez];
    cbn; try discriminate; try reflexivity;
    try (destruct sx; try discriminate; try reflexivity);
    try (destruct sy; try discriminate; try reflexivity);
    try (destruct sz; try discriminate; try reflexivity);
    cbn; try discriminate; try reflexivity;
    cmp_cases; cbn; try discriminate; try reflexivity; try lia.
Qed.

Lemma is_nan_Prim2SF (x : float) : is_nan x = true <-> Prim2SF x = S754_nan.
Proof.
  unfold is_nan. rewrite eqb_spec. unfold SFeqb.
  split.
  - intros H. destruct (Prim2SF x) eqn:E; try reflexivity;
      rewrite SFcompare_refl in H by discriminate; discriminate.
  - intros ->. reflexivity.
Qed.

Lemma is_nan_false (x : float) : is_nan x = false <-> Prim2SF x <> S754_nan.
Proof.
  rewrite <- is_nan_Prim2SF. destruct (is_nan x); split; congruence.
Qed.

Lemma ltb_leb_false (x y : float) : (x <? y) = true -> (y <=? x) = false.
Proof.
  rewrite ltb_spec, leb_spec. unfold SFltb, SFleb.
  rewrite (SFcompare_antisym (Prim2SF x) (Prim2SF y)).
  destruct (SFcompare (Prim2SF x) (Prim2SF y)) as [[]|]; cbn; congruence.
Qed.

Lemma leb_ltb_false (x y : float) : (x <=? y) = true -> (y <? x) = false.
Proof.
  rewrite ltb_spec, leb_spec. unfold SFltb, SFleb.
  rewrite (SFcompare_antisym (Prim2SF x) (Prim2SF y)).
  destruct (SFcompare (Prim2SF x) (Prim2SF y)) as [[]|]; cbn; congruence.
Qed.

Lemma leb_false_ltb (x y : float) :
  is_nan x = false -> is_nan y = false -> (x <=? y) = false -> (y <? x) = true.
Proof.
  rewrite !is_nan_false, ltb_spec, leb_spec. unfold SFltb, SFleb.
  intros Hx Hy. rewrite (SFcompare_antisym (Prim2SF x) (Prim2SF y)).
  destruct (SFcompare (Prim2SF x) (Prim2SF y)) as [[]|] eqn:E; cbn; try congruence.
  apply SFcompare_None in E. tauto.
Qed.

Lemma ltb_false_leb (x y : float) :
  is_nan x = false -> is_nan y = false -> (x <? y) = false -> (y <=? x) = true.
Proof.
  rewrite !is_nan_false, ltb_spec, leb_spec. unfold SFltb, SFleb.
  intros Hx Hy. rewrite (SFcompare_antisym (Prim2SF x) (Prim2SF y)).
  destruct (SFcompare (Prim2SF x) (Prim2SF y)) as [[]|] eqn:E; cbn; try congruence.
  apply SFcompare_None in E. tauto.
Qed.

Lemma leb_not_nan (x y : float) :
  (x <=? y) = true -> is_nan x = false /\ is_nan y = false.
Proof.
  rewrite leb_spec, !is_nan_false. unfold SFleb.
  destruct (SFcompare (Prim2SF x) (Prim2SF y)) eqn:E; [|discriminate].
  intros _. split; intros H; rewrite H in E;
    [|destruct (Prim2SF x)]; discriminate.
Qed.

Lemma ltb_not_nan (x y : float) :
  (x <? y) = true -> is_nan x = false /\ is_nan y = false.
Proof.
  rewrite ltb_spec, !is_nan_false. unfold SFltb.
  destruct (SFcompare (Prim2SF x) (Prim2SF y)) eqn:E; [|discriminate].
  intros _. split; intros H; rewrite H in E;
    [|destruct (Prim2SF x)]; discriminate.
Qed.

Lemma ltb_irrefl (x : float) : (x <? x) = false.
Proof.
  destruct (x <? x) eqn:E; [|reflexivity].
  pose proof (ltb_leb_false x x E) as H.
  rewrite ltb_spec in E. rewrite leb_spec in H. unfold SFltb, SFleb in *.
  destruct (SFcompare (Prim2SF x) (Prim2SF x)) as [[]|]; congruence.
Qed.

Lemma ltb_leb_trans (x y z : float) :
  (x <? y) = true -> (y <=? z) = true -> (x <? z) = true.
Proof. rewrite !ltb_spec, leb_spec. apply SFltb_leb_trans. Qed.

(** [a >= b] fails exactly when [a < b], for numbers. *)
Lemma geb_false_ltb (a b : float) :
  is_nan a = false -> is_nan b = false ->
  (Number.geb a b = false <-> (a <? b) = true).
Proof.
  intros Ha Hb. unfold Number.geb. split.
  - apply leb_false_ltb; assumption.
  - apply ltb_leb_false.
Qed.

(** A positive finite number divided by itself is 1. *)
Lemma positive_finite (x : float) :
  (0 <? x) = true -> (x <? infinity) = true ->
  exists m e, Prim2SF x = S754_finite false m e.
Proof.
  rewrite !ltb_spec. unfold SFltb.
  change (Prim2SF 0) with (S754_zero false).
  change (Prim2SF infinity) with (S754_infinity false).
  destruct (Prim2SF x) as [s|s| |s m e]; cbn; try discriminate.
  - destruct s; discriminate.
  - destruct s; [discriminate|]. intros _ _. eauto.
Qed.

Lemma SFdiv_self (m : positive) (e : Z) :
  SF64div (S754_finite false m e) (S754_finite false m e) = Prim2SF 1.
Proof.
  unfold SF64div, SFdiv, SFdiv_core_binary.
  replace (Zdigits2 (Z.pos m) + e - (Zdigits2 (Z.pos m) + e))%Z with 0%Z by lia.
  replace (e - e)%Z with 0%Z by lia.
  change (Z.min (fexp prec emax 0) 0) with (-53)%Z.
  change (0 - -53)%Z with 53%Z. cbv beta iota zeta.
  assert (Hd : Z.div_eucl (Z.shiftl (Z.pos m) 53) (Z.pos m) = (2 ^ 53, 0)%Z).
  { rewrite Z.shiftl_mul_pow2 by lia. rewrite Z.mul_comm.
    pose proof (Z.div_mul (2 ^ 53) (Z.pos m) ltac:(lia)) as Hq.
    pose proof (Z.mod_mul (2 ^ 53) (Z.pos m) ltac:(lia)) as Hr.
    unfold Z.div, Z.modulo in Hq, Hr.
    destruct (Z.div_eucl (2 ^ 53 * Z.pos m) (Z.pos m)) as [q r].
    now subst. }
  rewrite Hd.
  assert (Hl : new_location (Z.pos m) 0 = loc_Exact).
  { unfold new_location, new_location_even, new_location_odd.
    destruct (Z.even (Z.pos m)); reflexivity. }
  rewrite Hl. reflexivity.
Qed.

Lemma div_self (x : float) :
  (0 <? x) = true -> (x <? infinity) = true -> x / x = 1.
Proof.
  intros Hpos Hfin. destruct (positive_finite x Hpos Hfin) as (m & e & Hx).
  rewrite <- (SF2Prim_Prim2SF (x / x)), div_spec, Hx, SFdiv_self.
  apply SF2Prim_Prim2SF.
Qed.

(** [Math.min(x, 100)] and [Math.max(x, 0)]. *)
Lemma Math_min_100 (x : float) :
  Number.Math_min x 100
  = if is_nan x then nan
    else if 100 <? (if x <? infinity then x else infinity) then 100
    else if x <? infinity then x else infinity.
Proof.
  unfold Number.Math_min, Number.min_step.
  destruct (is_nan x); [reflexivity|].
  change (is_nan 100) with false. cbn [orb].
  change (Number.is_neg_zero 100) with false. cbn [andb].
  change (Number.is_pos_zero infinity) with false. rewrite andb_false_r.
  reflexivity.
Qed.

Lemma Math_min_100_bound (x : float) : (100 <? Number.Math_min x 100) = false.
Proof.
  rewrite Math_min_100.
  destruct (is_nan x); [reflexivity|].
  destruct (100 <? (if x <? infinity then x else infinity)) eqn:E;
    [reflexivity | exact E].
Qed.

Lemma Math_max_0 (x : float) :
  Number.Math_max x 0
  = if is_nan x then nan
    else if Number.is_neg_zero (if neg_infinity <? x then x else neg_infinity) then 0
    else if (if neg_infinity <? x then x else neg_infinity) <? 0 then 0
    else if neg_infinity <? x then x else neg_infinity.
Proof.
  unfold Number.Math_max, Number.max_step.
  destruct (is_nan x); [reflexivity|].
  change (is_nan 0) with false. cbn [orb].
  change (Number.is_neg_zero neg_infinity) with false. rewrite andb_false_r.
  change (Number.is_pos_zero 0) with true. cbn [andb].
  reflexivity.
Qed.

Lemma Math_max_0_bound (x : float) : (Number.Math_max x 0 <? 0) = false.
Proof.
  rewrite Math_max_0.
  destruct (is_nan x); [reflexivity|].
  destruct (Number.is_neg_zero (if neg_infinity <? x then x else neg_infinity));
    [reflexivity|].
  destruct ((if neg_infinity <? x then x else neg_infinity) <? 0) eqn:E;
    [reflexivity | exact E].
Qed.

End FloatOrder.

(** *** The page over binary64 numbers *)

Section BudgetFacts64.
Import PrimFloat Number Budgets64.
Local Open Scope float_scope.

Lemma pctUsed_quotient (b : budget) :
  gtb (amount b) 0 = true -> pctUsed b = current_spend b / amount b.
Proof. intros H. unfold pctUsed. now rewrite H. Qed.

Lemma badge64_label_cases (p a : float) :
  (Budgets.label (BudgetStatusBadge p a) = "Over Budget" <-> geb p 1 = true)
  /\ (Budgets.label (BudgetStatusBadge p a) = "Warning"
      <-> geb p a = true /\ geb p 1 = false)
  /\ (Budgets.label (BudgetStatusBadge p a) = "On Track"
      <-> geb p a = false /\ geb p 1 = false).
Proof.
  unfold BudgetStatusBadge.
  destruct (geb p 1) eqn:H1; destruct (geb p a) eqn:H2; cbn [Budgets.label];
    repeat split; intros; try discriminate; try tauto;
    match goal with H : _ /\ _ |- _ => destruct H; discriminate end.
Qed.

Lemma bar64_color_cases (p a : float) :
  (color (ProgressBar p a) = "var(--color-error)" <-> geb p 1 = true)
  /\ (color (ProgressBar p a) = "var(--color-warning)"
      <-> geb p a = true /\ geb p 1 = false)
  /\ (color (ProgressBar p a) = "var(--color-success)"
      <-> geb p a = false /\ geb p 1 = false).
Proof.
  unfold ProgressBar. cbn [color].
  destruct (geb p 1) eqn:H1; destruct (geb p a) eqn:H2;
    repeat split; intros; try discriminate; try tauto;
    match goal with H : _ /\ _ |- _ => destruct H; discriminate end.
Qed.

(** At the alert level the page follows the rounded quotient: 2.4 of 3 is
    just below 0.8 in binary64 and shows 'On Track', while 1 of 10 is the
    number 0.1 and shows 'Warning'. *)
Lemma badge_at_alert_level :
  (pctUsed (mkBudget 3 2.4 0.8) <? 0.8) = true
  /\ Budgets.label (BudgetStatusBadge (pctUsed (mkBudget 3 2.4 0.8)) 0.8) = "On Track"
  /\ is_at_risk (mkBudget 3 2.4 0.8) = false
  /\ geb (pctUsed (mkBudget 10 1 0.1)) 0.1 = true
  /\ Budgets.label (BudgetStatusBadge (pctUsed (mkBudget 10 1 0.1)) 0.1) = "Warning"
  /\ is_at_risk (mkBudget 10 1 0.1) = true.
Proof. repeat split; reflexivity. Qed.

(** C4 (as stated it fails): with an alert level above 1 a budget at 120%
    of its amount has [pctUsed < alert_at_pct] and still shows
    'Over Budget', not 'On Track'. *)
Lemma badge_over_budget_below_alert :
  gtb (amount (mkBudget 100 120 1.5)) 0 = true
  /\ (pctUsed (mkBudget 100 120 1.5) <? alert_at_pct (mkBudget 100 120 1.5)) = true
  /\ Budgets.label (BudgetStatusBadge (pctUsed (mkBudget 100 120 1.5)) 1.5) = "Over Budget"
  /\ Budgets.label (BudgetStatusBadge (pctUsed (mkBudget 100 120 1.5)) 1.5) <> "On Track".
Proof. repeat split; try reflexivity. vm_compute. discriminate. Qed.

(** C4 (amended): for every budget with amount > 0, pctUsed is the
    binary64 quotient current_spend / amount; the badge shows
    'Over Budget' iff pctUsed >= 1.0, 'Warning' iff pctUsed >= alert_at_pct
    and not pctUsed >= 1.0, and 'On Track' iff neither comparison holds;
    when pctUsed and alert_at_pct are numbers (not NaN) the failing
    comparisons are pctUsed < 1.0 and pctUsed < alert_at_pct, and for an
    alert level of at most 1 the badge shows 'On Track' iff
    pctUsed < alert_at_pct.  The progress bar picks its colour by the same
    three cases and its width is min(pctUsed * 100, 100), never above
    100. *)
Theorem budget_status_thresholds (b : budget) :
  gtb (amount b) 0 = true ->
  pctUsed b = current_spend b / amount b
  /\ (Budgets.label (BudgetStatusBadge (pctUsed b) (alert_at_pct b)) = "Over Budget"
      <-> geb (pctUsed b) 1 = true)
  /\ (Budgets.label (BudgetStatusBadge (pctUsed b) (alert_at_pct b)) = "Warning"
      <-> geb (pctUsed b) (alert_at_pct b) = true /\ geb (pctUsed b) 1 = false)
  /\ (Budgets.label (BudgetStatusBadge (pctUsed b) (alert_at_pct b)) = "On Track"
      <-> geb (pctUsed b) (alert_at_pct b) = false /\ geb (pctUsed b) 1 = false)
  /\ (color (ProgressBar (pctUsed b) (alert_at_pct b)) = "var(--color-error)"
      <-> geb (pctUsed b) 1 = true)
  /\ (color (ProgressBar (pctUsed b) (alert_at_pct b)) = "var(--color-warning)"
      <-> geb (pctUsed b) (alert_at_pct b) = true /\ geb (pctUsed b) 1 = false)
  /\ (color (ProgressBar (pctUsed b) (alert_at_pct b)) = "var(--color-success)"
      <-> geb (pctUsed b) (alert_at_pct b) = false /\ geb (pctUsed b) 1 = false)
  /\ width (ProgressBar (pctUsed b) (alert_at_pct b)) = Math_min (pctUsed b * 100) 100
  /\ (100 <? width (ProgressBar (pctUsed b) (alert_at_pct b))) = false
  /\ (is_nan (pctUsed b) = false ->
      (geb (pctUsed b) 1 = false <-> (pctUsed b <? 1) = true)
      /\ (is_nan (alert_at_pct b) = false ->
          (geb (pctUsed b) (alert_at_pct b) = false
           <-> (pctUsed b <? alert_at_pct b) = true)))
  /\ ((alert_at_pct b <=? 1) = true ->
      (Budgets.label (BudgetStatusBadge (pctUsed b) (alert_at_pct b)) = "On Track"
       <-> is_nan (pctUsed b) = true \/ (pctUsed b <? alert_at_pct b) = true)).
Proof.
  intros Hpos.
  split; [apply pctUsed_quotient, Hpos|].
  destruct (badge64_label_cases (pctUsed b) (alert_at_pct b)) as (L1 & L2 & L3).
  destruct (bar64_color_cases (pctUsed b) (alert_at_pct b)) as (C1 & C2 & C3).
  repeat (split; [assumption|]).
  split; [reflexivity|].
  split; [apply Math_min_100_bound|].
  split.
  - intros Hp. split; [apply geb_false_ltb; [exact Hp | reflexivity]|].
    intros Ha. apply geb_false_ltb; assumption.
  - intros Ha. destruct (leb_not_nan _ _ Ha) as [Hna _].
    rewrite L3. split.
    + intros [H2 H1]. destruct (is_nan (pctUsed b)) eqn:Hp; [left; reflexivity|].
      right. apply (geb_false_ltb _ _ Hp Hna). exact H2.
    + intros [Hp|Hlt].
      * assert (Hn : forall y, geb (pctUsed b) y = false).
        { intros y. unfold geb. destruct (y <=? pctUsed b) eqn:E; [|reflexivity].
          destruct (leb_not_nan _ _ E) as [_ Hx]. congruence. }
        split; apply Hn.
      * split; [apply ltb_leb_false, Hlt|].
        apply ltb_leb_false. apply (ltb_leb_trans _ _ _ Hlt Ha).
Qed.

Lemma budget_status_thresholds_witness :
  pctUsed (mkBudget 200 170 0.8) = 170 / 200
  /\ (Budgets.label (BudgetStatusBadge (pctUsed (mkBudget 200 170 0.8)) 0.8) = "Warning"
      <-> geb (pctUsed (mkBudget 200 170 0.8)) 0.8 = true
          /\ geb (pctUsed (mkBudget 200 170 0.8)) 1 = false)
  /\ (100 <? width (ProgressBar (pctUsed (mkBudget 200 170 0.8)) 0.8)) = false.
Proof.
  destruct (budget_status_thresholds (mkBudget 200 170 0.8) eq_refl)
    as (H1 & _ & H3 & _ & _ & _ & _ & _ & H9 & _).
  split; [exact H1|]. split; [exact H3 | exact H9].
Defined.

End BudgetFacts64.

Section BudgetStats64.
Import PrimFloat Number Budgets64.
Local Open Scope float_scope.

Lemma is_at_risk_pctUsed (b : budget) :
  is_at_risk b = geb (pctUsed b) (alert_at_pct b) && (pctUsed b <? 1).
Proof. reflexivity. Qed.

Lemma filter_length_insert {A : Type} (f : A -> bool) (l1 l2 : list A) (x : A) :
  length (List.filter f (l1 ++ x :: l2))
  = ((if f x then 1 else 0) + length (List.filter f (l1 ++ l2)))%nat.
Proof.
  rewrite !List.filter_app, !length_app. cbn [List.filter].
  destruct (f x); cbn [length]; lia.
Qed.

Lemma spend_equal_amount_quotient (b : budget) :
  gtb (amount b) 0 = true -> (amount b <? infinity) = true ->
  current_spend b = amount b -> pctUsed b = 1.
Proof.
  intros Hpos Hfin Heq. rewrite (pctUsed_quotient b Hpos), Heq.
  apply div_self; assumption.
Qed.

(** C8 (as stated it fails): a budget of amount 0 with no spend has
    [current_spend] equal to its amount and is counted in neither stat,
    but its badge shows 'On Track', not 'Over Budget'. *)
Lemma zero_budget_badge_on_track :
  current_spend (mkBudget 0 0 0.8) = amount (mkBudget 0 0 0.8)
  /\ is_over (mkBudget 0 0 0.8) = false
  /\ is_at_risk (mkBudget 0 0 0.8) = false
  /\ Budgets.label (BudgetStatusBadge (pctUsed (mkBudget 0 0 0.8)) 0.8) = "On Track"
  /\ Budgets.label (BudgetStatusBadge (pctUsed (mkBudget 0 0 0.8)) 0.8) <> "Over Budget".
Proof. repeat split; try reflexivity. vm_compute. discriminate. Qed.

(** C8 (amended): in the summary statistics of any list of budgets, a
    budget adds one to the over-budget count iff current_spend > amount
    (strictly) and one to the at-risk count iff pctUsed >= alert_at_pct and
    pctUsed < 1, where pctUsed is the binary64 quotient
    current_spend / amount for a positive amount and 0 otherwise;
    remaining is max(total - spent, 0) of the binary64 sums and difference
    and is never negative; consequently a budget with a positive finite
    amount whose current_spend equals its amount has pctUsed 1 and is
    counted in neither stat although its badge shows 'Over Budget'. *)
Theorem budget_stats_counts (bs1 bs2 : list budget) (b : budget) :
  (overBudget (stats (bs1 ++ b :: bs2)) = S (overBudget (stats (bs1 ++ bs2)))
   <-> gtb (current_spend b) (amount b) = true)
  /\ (atRisk (stats (bs1 ++ b :: bs2)) = S (atRisk (stats (bs1 ++ bs2)))
      <-> geb (pctUsed b) (alert_at_pct b) = true /\ (pctUsed b <? 1) = true)
  /\ (gtb (current_spend b) (amount b) = false ->
      overBudget (stats (bs1 ++ b :: bs2)) = overBudget (stats (bs1 ++ bs2)))
  /\ (~ (geb (pctUsed b) (alert_at_pct b) = true /\ (pctUsed b <? 1) = true) ->
      atRisk (stats (bs1 ++ b :: bs2)) = atRisk (stats (bs1 ++ bs2)))
  /\ remaining (stats (bs1 ++ b :: bs2))
     = Math_max (total (stats (bs1 ++ b :: bs2)) - spent (stats (bs1 ++ b :: bs2))) 0
  /\ (remaining (stats (bs1 ++ b :: bs2)) <? 0) = false
  /\ (gtb (amount b) 0 = true -> (amount b <? infinity) = true ->
      current_spend b = amount b ->
      pctUsed b = 1
      /\ overBudget (stats (bs1 ++ b :: bs2)) = overBudget (stats (bs1 ++ bs2))
      /\ atRisk (stats (bs1 ++ b :: bs2)) = atRisk (stats (bs1 ++ bs2))
      /\ Budgets.label (BudgetStatusBadge (pctUsed b) (alert_at_pct b)) = "Over Budget").
Proof.
  pose proof (filter_length_insert is_over bs1 bs2 b) as Ho.
  pose proof (filter_length_insert is_at_risk bs1 bs2 b) as Hr.
  pose proof (is_at_risk_pctUsed b) as Ir.
  cbn [stats overBudget atRisk remaining total spent].
  assert (Hover : is_over b = false ->
                  length (List.filter is_over (bs1 ++ b :: bs2))
                  = length (List.filter is_over (bs1 ++ bs2))).
  { intros Hn. rewrite Ho, Hn. reflexivity. }
  assert (Hrisk : is_at_risk b = false ->
                  length (List.filter is_at_risk (bs1 ++ b :: bs2))
                  = length (List.filter is_at_risk (bs1 ++ bs2))).
  { intros Hn. rewrite Hr, Hn. reflexivity. }
  split.
  { rewrite Ho. fold (is_over b).
    destruct (is_over b); split; intros H; try reflexivity; try lia; discriminate. }
  split.
  { rewrite Hr, <- andb_true_iff, <- Ir.
    destruct (is_at_risk b); split; intros H; try reflexivity; try lia; discriminate. }
  split; [exact Hover|].
  split.
  { intros Hn. apply Hrisk. rewrite Ir. apply not_true_is_false.
    rewrite andb_true_iff. exact Hn. }
  split; [reflexivity|].
  split; [apply Math_max_0_bound|].
  intros Hpos Hfin Heq.
  pose proof (spend_equal_amount_quotient b Hpos Hfin Heq) as Hone.
  split; [exact Hone|]. split; [|split].
  - apply Hover. unfold is_over, gtb. rewrite Heq. apply ltb_irrefl.
  - apply Hrisk. rewrite Ir, Hone. apply andb_false_r.
  - rewrite Hone. apply (badge64_label_cases 1 (alert_at_pct b)). reflexivity.
Qed.

Lemma budget_stats_counts_witness :
  pctUsed (mkBudget 100 100 0.8) = 1
  /\ overBudget (stats ([mkBudget 50 80 0.8] ++ mkBudget 100 100 0.8 :: []))
     = overBudget (stats ([mkBudget 50 80 0.8] ++ []))
  /\ atRisk (stats ([mkBudget 50 80 0.8] ++ mkBudget 100 100 0.8 :: []))
     = atRisk (stats ([mkBudget 50 80 0.8] ++ []))
  /\ Budgets.label (BudgetStatusBadge (pctUsed (mkBudget 100 100 0.8))
                      (alert_at_pct (mkBudget 100 100 0.8))) = "Over Budget".
Proof.
  apply (budget_stats_counts [mkBudget 50 80 0.8] [] (mkBudget 100 100 0.8));
    reflexivity.
Defined.

End BudgetStats64.

(** *** The same expressions over the rationals *)

Section BudgetFacts.
Import Budgets.
Local Open Scope Q_scope.

Lemma geb_true (a b : Q) : geb a b = true <-> b <= a.
Proof. unfold geb. apply Qle_bool_iff. Qed.

Lemma geb_false (a b : Q) : geb a b = false <-> a < b.
Proof.
  unfold geb. split; intros H.
  - apply Qnot_le_lt. intros Hle. apply Qle_bool_iff in Hle. congruence.
  - destruct (Qle_bool b a) eqn:E; [|reflexivity].
    apply Qle_bool_iff in E. lra.
Qed.

Lemma ltb_true (a b : Q) : ltb a b = true <-> a < b.
Proof. unfold ltb. rewrite negb_true_iff. apply geb_false. Qed.

Lemma gtb_true (a b : Q) : gtb a b = true <-> b < a.
Proof. unfold gtb. rewrite negb_true_iff. apply (geb_false b a). Qed.

Lemma pctUsed_ratio (b : budget) :
  0 < amount b -> pctUsed b = current_spend b / amount b.
Proof. intros H. unfold pctUsed. apply gtb_true in H. now rewrite H. Qed.

Lemma badge_label_cases (p a : Q) :
  (label (BudgetStatusBadge p a) = "Over Budget" <-> 1 <= p)
  /\ (label (BudgetStatusBadge p a) = "Warning" <-> a <= p /\ p < 1)
  /\ (label (BudgetStatusBadge p a) = "On Track" <-> p < a /\ p < 1).
Proof.
  unfold BudgetStatusBadge.
  destruct (geb p 1) eqn:H1; [apply geb_true in H1 | apply geb_false in H1];
    (destruct (geb p a) eqn:H2; [apply geb_true in H2 | apply geb_false in H2]);
    cbn [label]; repeat split; intros; try discriminate; try lra;
    try (exfalso; lra); try tauto.
Qed.

Lemma is_over_iff (b : budget) : is_over b = true <-> amount b < current_spend b.
Proof. unfold is_over. apply gtb_true. Qed.

Lemma is_at_risk_iff (b : budget) :
  is_at_risk b = true <-> alert_at_pct b <= pctUsed b /\ pctUsed b < 1.
Proof.
  unfold is_at_risk. fold (pctUsed b).
  rewrite andb_true_iff, geb_true, ltb_true. reflexivity.
Qed.

End BudgetFacts.

(** ** Anomalies: default alert thresholds and acknowledging *)

(** C2 (as stated it fails): the default alert configuration has the
    warning threshold at 25 and the critical threshold at 50, not at 50 and
    100. *)
Lemma alert_defaults_are_25_and_50 :
  Anomalies.warningThreshold Anomalies.alertDefaults = 25
  /\ Anomalies.criticalThreshold Anomalies.alertDefaults = 50
  /\ Anomalies.warningThreshold Anomalies.alertDefaults <> 50
  /\ Anomalies.criticalThreshold Anomalies.alertDefaults <> 100.
Proof. repeat split; discriminate. Qed.

(** C2 (amended): the documented severity levels are threshold comparisons
    on the percentage deviation, INFO from 25, WARNING from 50 and CRITICAL
    from 100; the frontend's alert configuration is the saved one when the
    'cp_anomaly_config' entry of localStorage is a non-empty string and the
    defaults otherwise, and the defaults put the warning threshold at 25,
    the documented default of the configurable threshold and the INFO level,
    and the critical threshold at 50, the documented WARNING level. *)
Theorem alert_config_defaults (JSON_parse : string -> Anomalies.alert_config)
    (localStorage : gmap string string) (deviation_pct : Z) :
  (localStorage !! "cp_anomaly_config" = None
   \/ localStorage !! "cp_anomaly_config" = Some "" ->
   Anomalies.initial_alertConfig JSON_parse localStorage = Anomalies.alertDefaults)
  /\ (forall saved, localStorage !! "cp_anomaly_config" = Some saved -> saved <> "" ->
      Anomalies.initial_alertConfig JSON_parse localStorage = JSON_parse saved)
  /\ Anomalies.warningThreshold Anomalies.alertDefaults = 25
  /\ Anomalies.criticalThreshold Anomalies.alertDefaults = 50
  /\ Anomalies.warningThreshold Anomalies.alertDefaults
     = Anomalies.documented_threshold Anomalies.INFO
  /\ Anomalies.criticalThreshold Anomalies.alertDefaults
     = Anomalies.documented_threshold Anomalies.WARNING
  /\ (Anomalies.documented_severity deviation_pct = Some Anomalies.CRITICAL
      <-> 100 <= deviation_pct)
  /\ (Anomalies.documented_severity deviation_pct = Some Anomalies.WARNING
      <-> 50 <= deviation_pct < 100)
  /\ (Anomalies.documented_severity deviation_pct = Some Anomalies.INFO
      <-> 25 <= deviation_pct < 50)
  /\ (Anomalies.documented_severity deviation_pct = None <-> deviation_pct < 25).
Proof.
  split; [|split].
  - intros [H|H]; unfold Anomalies.initial_alertConfig; rewrite H; reflexivity.
  - intros saved H Hne. unfold Anomalies.initial_alertConfig. rewrite H.
    destruct saved; [congruence | reflexivity].
  - repeat (split; [reflexivity|]).
    unfold Anomalies.documented_severity, Anomalies.documented_threshold.
    destruct (deviation_pct >=? 100) eqn:E1; [|destruct (deviation_pct >=? 50) eqn:E2;
      [|destruct (deviation_pct >=? 25) eqn:E3]];
      rewrite ?Z.geb_leb, ?Z.leb_le, ?Z.leb_gt in *;
      repeat split; intros; try discriminate; try lia; try reflexivity.
Qed.

Lemma lookup_set_member_eq (k : string) (v : json) (ms : list (string * json)) :
  lookup_member k (set_member k v ms) = Some v.
Proof.
  induction ms as [|[k' v'] ms IH]; cbn [set_member lookup_member].
  - now rewrite String.eqb_refl.
  - destruct (String.eqb k' k) eqn:E; cbn [lookup_member]; rewrite E; [reflexivity | exact IH].
Qed.

Lemma lookup_set_member_ne (k k0 : string) (v : json) (ms : list (string * json)) :
  k <> k0 -> lookup_member k (set_member k0 v ms) = lookup_member k ms.
Proof.
  intros Hne. induction ms as [|[k' v'] ms IH]; cbn [set_member lookup_member].
  - destruct (String.eqb k0 k) eqn:E; [apply String.eqb_eq in E; congruence | reflexivity].
  - destruct (String.eqb k' k0) eqn:E; cbn [lookup_member].
    + apply String.eqb_eq in E. subst k'.
      destruct (String.eqb k0 k) eqn:E'; [apply String.eqb_eq in E'; congruence | reflexivity].
    + destruct (String.eqb k' k); [reflexivity | exact IH].
Qed.

Lemma acknowledge_other (id : value) (a : Anomalies.anomaly) :
  Anomalies.strict_eq (lookup_member "id" a) id = false -> Anomalies.acknowledge id a = a.
Proof. intros H. unfold Anomalies.acknowledge. now rewrite H. Qed.

Lemma acknowledge_fields (id : value) (a : Anomalies.anomaly) (k : string) :
  k <> "acknowledged" ->
  lookup_member k (Anomalies.acknowledge id a) = lookup_member k a.
Proof.
  intros Hk. unfold Anomalies.acknowledge.
  destruct (Anomalies.strict_eq _ _); [apply lookup_set_member_ne, Hk | reflexivity].
Qed.

Lemma acknowledge_matched (id : value) (a : Anomalies.anomaly) :
  Anomalies.strict_eq (lookup_member "id" a) id = true ->
  lookup_member "acknowledged" (Anomalies.acknowledge id a) = Some (JBool true).
Proof.
  intros H. unfold Anomalies.acknowledge. rewrite H. apply lookup_set_member_eq.
Qed.

(** C9: for every anomalies list and every id, [handleAcknowledge] keeps
    the length and the order of the list; an anomaly whose id differs from
    the argument is unchanged; every field other than [acknowledged] of any
    anomaly is unchanged; and an anomaly that did change has
    [acknowledged] true.  When the API call succeeds, each anomaly with the
    given id ends with [acknowledged] true. *)
Theorem acknowledge_changes_only_flag (fetch : Fetch.fetch_fn)
    (storage : gmap string string) (id : value) (anomalies : list Anomalies.anomaly) :
  length (Anomalies.handleAcknowledge fetch storage id anomalies) = length anomalies
  /\ List.map (lookup_member "id") (Anomalies.handleAcknowledge fetch storage id anomalies)
     = List.map (lookup_member "id") anomalies
  /\ forall (i : nat) (a : Anomalies.anomaly),
       nth_error anomalies i = Some a ->
       exists a',
         nth_error (Anomalies.handleAcknowledge fetch storage id anomalies) i = Some a'
         /\ (Anomalies.strict_eq (lookup_member "id" a) id = false -> a' = a)
         /\ (forall k, k <> "acknowledged" -> lookup_member k a' = lookup_member k a)
         /\ (a' <> a -> lookup_member "acknowledged" a' = Some (JBool true))
         /\ (forall ok, Api.acknowledgeAnomaly fetch storage id = Return ok ->
             Anomalies.strict_eq (lookup_member "id" a) id = true ->
             lookup_member "acknowledged" a' = Some (JBool true)).
Proof.
  unfold Anomalies.handleAcknowledge.
  destruct (Api.acknowledgeAnomaly fetch storage id) as [ok|e].
  - split; [apply length_map|].
    split.
    + rewrite List.map_map. apply List.map_ext. intros a.
      apply acknowledge_fields. discriminate.
    + intros i a Hi. exists (Anomalies.acknowledge id a).
      split; [rewrite nth_error_map, Hi; reflexivity|].
      split; [apply acknowledge_other|].
      split; [intros k; apply acknowledge_fields|].
      split.
      * intros Hne.
        destruct (Anomalies.strict_eq (lookup_member "id" a) id) eqn:E.
        -- apply acknowledge_matched, E.
        -- exfalso. apply Hne, acknowledge_other, E.
      * intros _ _ E. apply acknowledge_matched, E.
  - split; [reflexivity|]. split; [reflexivity|].
    intros i a Hi. exists a.
    split; [exact Hi|]. split; [reflexivity|]. split; [reflexivity|].
    split; [congruence | intros ok Hok; discriminate].
Qed.

(** ** AuthProvider: the rendered invariant and the two ways out *)

Lemma effect_fields (s : Auth.state) :
  Auth.token (Auth.effect s) = Auth.token s
  /\ Auth.user (Auth.effect s) = Auth.user s
  /\ Auth.localStorage (Auth.effect s) = Auth.localStorage s
  /\ Auth.effect_due (Auth.effect s) = false.
Proof.
  unfold Auth.effect. destruct (Auth.token s) as [t|] eqn:E.
  - destruct (truthy_string t); cbn; rewrite ?E; repeat split.
  - cbn. rewrite ?E. repeat split.
Qed.

Lemma effect_in_flight (s : Auth.state) (t : string) :
  In t (Auth.in_flight s) -> In t (Auth.in_flight (Auth.effect s)).
Proof.
  unfold Auth.effect. intros H. destruct (Auth.token s) as [t'|]; [|exact H].
  destruct (truthy_string t'); cbn; [apply in_or_app; left|]; exact H.
Qed.

Lemma after_effect_fields (s : Auth.state) :
  Auth.token (after_effect s) = Auth.token s
  /\ Auth.user (after_effect s) = Auth.user s
  /\ Auth.localStorage (after_effect s) = Auth.localStorage s
  /\ Auth.effect_due (after_effect s) = false.
Proof.
  unfold after_effect. destruct (Auth.effect_due s) eqn:E.
  - apply effect_fields.
  - repeat split. exact E.
Qed.

Lemma after_effect_in_flight (s : Auth.state) (t : string) :
  In t (Auth.in_flight s) -> In t (Auth.in_flight (after_effect s)).
Proof.
  unfold after_effect. destruct (Auth.effect_due s); [apply effect_in_flight | auto].
Qed.

Lemma after_effect_reachable (storage : gmap string string) (s : Auth.state) :
  Auth.reachable storage s -> Auth.reachable storage (after_effect s).
Proof.
  intros H. unfold after_effect. destruct (Auth.effect_due s) eqn:E; [|exact H].
  eapply Auth.reach_step; [exact H | apply Auth.step_effect, E].
Qed.

Lemma signed_out_after_reset (s : Auth.state) :
  let s' := Auth.setUser JNull (Auth.setToken None (Auth.removeItem Auth.TOKEN_KEY s)) in
  Auth.user s' = JNull
  /\ Auth.token s' = None
  /\ Auth.localStorage s' !! Auth.TOKEN_KEY = None
  /\ Auth.in_flight s' = Auth.in_flight s
  /\ Auth.loading s' = Auth.loading s.
Proof.
  cbn. repeat split. apply lookup_delete_eq.
Qed.

Lemma validation_failed_throws (r : completion Auth.me_response) :
  validation_failed r = true <-> exists e, Auth.validated r = Throw e.
Proof.
  unfold validation_failed, Auth.validated.
  destruct r as [res|e]; cbn [bind]; [|split; eauto].
  destruct ((200 <=? Auth.me_status res) && (Auth.me_status res <=? 299)); cbn [negb orb].
  - destruct (Auth.me_json res) as [u|e]; split; eauto; try discriminate.
    intros [e He]. discriminate He.
  - split; eauto.
Qed.

Lemma validation_not_failed (r : completion Auth.me_response) :
  validation_failed r = false ->
  exists res u, r = Return res /\ Auth.me_json res = Return u
                /\ 200 <= Auth.me_status res <= 299
                /\ Auth.validated r = Return u.
Proof.
  unfold validation_failed, Auth.validated.
  destruct r as [res|e]; cbn [bind]; [|discriminate].
  destruct ((200 <=? Auth.me_status res) && (Auth.me_status res <=? 299)) eqn:Hok;
    cbn [negb orb]; [|discriminate].
  destruct (Auth.me_json res) as [u|e] eqn:Hj; [|discriminate].
  intros _. exists res, u. apply andb_true_iff in Hok. destruct Hok as [H1 H2].
  apply Z.leb_le in H1, H2. repeat split; auto.
Qed.

Lemma settle_failed (t : string) (r : completion Auth.me_response) (s : Auth.state) :
  validation_failed r = true ->
  Auth.user (Auth.settle t r s) = JNull
  /\ Auth.token (Auth.settle t r s) = None
  /\ Auth.localStorage (Auth.settle t r s) !! Auth.TOKEN_KEY = None
  /\ Auth.loading (Auth.settle t r s) = false.
Proof.
  intros Hf. apply validation_failed_throws in Hf. destruct Hf as [e Hv].
  unfold Auth.settle. rewrite Hv. cbn. repeat split. apply lookup_delete_eq.
Qed.

Lemma settle_ok_fields (t : string) (r : completion Auth.me_response) (u : json)
    (s : Auth.state) :
  Auth.validated r = Return u ->
  Auth.user (Auth.settle t r s) = u
  /\ Auth.token (Auth.settle t r s) = Auth.token s
  /\ Auth.localStorage (Auth.settle t r s) = Auth.localStorage s
  /\ Auth.loading (Auth.settle t r s) = false
  /\ Auth.effect_due (Auth.settle t r s) = Auth.effect_due s.
Proof. intros Hv. unfold Auth.settle. rewrite Hv. repeat split. Qed.


(** In every reachable state [user] is [null] or the body of an ok
    response of /api/v1/auth/me. *)
Lemma user_was_served (storage : gmap string string) (s : Auth.state) :
  Auth.reachable storage s ->
  Auth.user s = JNull
  \/ exists r, validation_failed r = false /\ Auth.validated r = Return (Auth.user s).
Proof.
  induction 1 as [|s s' _ IH Hstep]; [left; reflexivity|].
  destruct Hstep as [s Hd|s t r Hd Hin|s access_token Hd|s Hd].
  - destruct (effect_fields s) as (_ & Hu & _). rewrite Hu. exact IH.
  - destruct (validation_failed r) eqn:Hf.
    + left. apply (settle_failed t r s Hf).
    + right. destruct (validation_not_failed r Hf) as (res & u & _ & _ & _ & Hv).
      destruct (settle_ok_fields t r u s Hv) as (Hu & _). rewrite Hu. eauto.
  - exact IH.
  - left. reflexivity.
Qed.

(** C6 (as stated it fails): the provider stores whatever JSON value an ok
    response of /api/v1/auth/me carries.  From a stored token, the
    validation answered with status 200 and the body [0] leads to a
    rendered state in which [user] is 0, which is not null, while
    [isAuthenticated] is false. *)
Lemma falsy_user_not_authenticated :
  Auth.reachable {[ "cloudpulse_token" := "tok" ]}
    (Auth.settle "tok" (me_ok (JNum 0))
       (Auth.effect (Auth.initial {[ "cloudpulse_token" := "tok" ]})))
  /\ Auth.ctx_user
       (Auth.render
          (Auth.settle "tok" (me_ok (JNum 0))
             (Auth.effect (Auth.initial {[ "cloudpulse_token" := "tok" ]}))))
     = JNum 0
  /\ JNum 0 <> JNull
  /\ Auth.isAuthenticated
       (Auth.render
          (Auth.settle "tok" (me_ok (JNum 0))
             (Auth.effect (Auth.initial {[ "cloudpulse_token" := "tok" ]}))))
     = false.
Proof.
  split; [|repeat split; discriminate].
  eapply Auth.reach_step; [eapply Auth.reach_step; [apply Auth.reach_initial|]|].
  - apply Auth.step_effect. reflexivity.
  - apply Auth.step_settle; [reflexivity | left; reflexivity].
Qed.

(** C6 (amended): in every state the provider can reach, the rendered
    [isAuthenticated] is [!!user]: true exactly when the rendered [user] is
    truthy, hence never when it is null and always when it is an object;
    and [user] is null or the JSON body of an ok response of
    /api/v1/auth/me.  From any such state, when the validation of a token
    fails (the request is rejected, the status is not ok, or the body of an
    ok response does not parse) or [logout] is called, the next state has
    [user] null, [token] null and no 'cloudpulse_token' entry in
    localStorage, and renders [isAuthenticated] false; a validation that
    does not fail stores the body as [user] and keeps the token. *)
Theorem auth_invariant_and_sign_out (storage : gmap string string) (s : Auth.state) :
  Auth.reachable storage s ->
  Auth.isAuthenticated (Auth.render s) = truthy_json (Auth.ctx_user (Auth.render s))
  /\ (Auth.isAuthenticated (Auth.render s) = true -> Auth.ctx_user (Auth.render s) <> JNull)
  /\ (forall members, Auth.ctx_user (Auth.render s) = JObj members ->
        Auth.isAuthenticated (Auth.render s) = true)
  /\ (Auth.user s = JNull
      \/ exists r, validation_failed r = false /\ Auth.validated r = Return (Auth.user s))
  /\ (forall (t : string) (r : completion Auth.me_response),
        validation_failed r = true ->
        Auth.user (Auth.settle t r s) = JNull
        /\ Auth.token (Auth.settle t r s) = None
        /\ Auth.localStorage (Auth.settle t r s) !! Auth.TOKEN_KEY = None
        /\ Auth.isAuthenticated (Auth.render (Auth.settle t r s)) = false)
  /\ (forall (t : string) (r : completion Auth.me_response),
        validation_failed r = false ->
        exists u, Auth.validated r = Return u
                  /\ Auth.user (Auth.settle t r s) = u
                  /\ Auth.token (Auth.settle t r s) = Auth.token s
                  /\ Auth.localStorage (Auth.settle t r s) = Auth.localStorage s)
  /\ (Auth.user (Auth.logout s) = JNull
      /\ Auth.token (Auth.logout s) = None
      /\ Auth.localStorage (Auth.logout s) !! Auth.TOKEN_KEY = None
      /\ Auth.isAuthenticated (Auth.render (Auth.logout s)) = false).
Proof.
  intros Hr.
  split; [reflexivity|].
  split; [cbn; intros H E; rewrite E in H; discriminate H|].
  split; [cbn; intros members E; rewrite E; reflexivity|].
  split; [apply (user_was_served storage s Hr)|].
  split; [|split].
  - intros t r Hf. destruct (settle_failed t r s Hf) as (Hu & Ht & Hl & _).
    repeat split; try assumption.
    cbn [Auth.render Auth.isAuthenticated]. now rewrite Hu.
  - intros t r Hf. destruct (validation_not_failed r Hf) as (res & u & _ & _ & _ & Hv).
    destruct (settle_ok_fields t r u s Hv) as (Hu & Ht & Hl & _).
    exists u. repeat split; assumption.
  - destruct (signed_out_after_reset s) as (Hu & Ht & Hl & _).
    repeat split; assumption.
Qed.

Lemma auth_invariant_and_sign_out_witness :
  Auth.user (Auth.settle "tok" (Return (Auth.mkMe 401 (Return JNull)))
               (Auth.effect (Auth.initial {[ "cloudpulse_token" := "tok" ]}))) = JNull
  /\ Auth.token (Auth.settle "tok" (Return (Auth.mkMe 401 (Return JNull)))
                   (Auth.effect (Auth.initial {[ "cloudpulse_token" := "tok" ]}))) = None
  /\ Auth.localStorage
       (Auth.settle "tok" (Return (Auth.mkMe 401 (Return JNull)))
          (Auth.effect (Auth.initial {[ "cloudpulse_token" := "tok" ]})))
       !! Auth.TOKEN_KEY = None
  /\ Auth.isAuthenticated
       (Auth.render
          (Auth.settle "tok" (Return (Auth.mkMe 401 (Return JNull)))
             (Auth.effect (Auth.initial {[ "cloudpulse_token" := "tok" ]})))) = false.
Proof.
  destruct (auth_invariant_and_sign_out {[ "cloudpulse_token" := "tok" ]}
              (Auth.effect (Auth.initial {[ "cloudpulse_token" := "tok" ]})))
    as (_ & _ & _ & _ & Hfail & _).
  - eapply Auth.reach_step; [apply Auth.reach_initial | apply Auth.step_effect; reflexivity].
  - exact (Hfail "tok" (Return (Auth.mkMe 401 (Return JNull))) eq_refl).
Defined.

(** ** CQL filters travel unchanged *)

Lemma read_body_quote_char (c : ascii) (rest : string) :
  JsonRead.read_body (quote_char c +:+ rest)
  = match JsonRead.read_body rest with
    | Some t => Some (String c t)
    | None => None
    end.
Proof. destruct c as [[] [] [] [] [] [] [] []]; reflexivity. Qed.

Lemma read_body_quote_body (s : string) :
  JsonRead.read_body (quote_body s +:+ dquote) = Some s.
Proof.
  induction s as [|c s IH]; [reflexivity|].
  cbn [quote_body]. rewrite append_assoc', read_body_quote_char, IH. reflexivity.
Qed.

(** What [QuoteJSONString] writes reads back as the string it was given. *)
Lemma read_quote_roundtrip (s : string) :
  JsonRead.read_string_literal (QuoteJSONString s) = Some s.
Proof.
  unfold QuoteJSONString. change (dquote +:+ quote_body s +:+ dquote)
    with (String (ascii_of_nat 34) (quote_body s +:+ dquote)).
  cbn [JsonRead.read_string_literal]. apply read_body_quote_body.
Qed.

Lemma lookup_member_In (k : string) (v : json) (ms : list (string * json)) :
  lookup_member k ms = Some v -> In (k, v) ms.
Proof.
  induction ms as [|[k' v'] ms IH]; cbn [lookup_member]; [discriminate|].
  destruct (String.eqb k' k) eqn:E.
  - apply String.eqb_eq in E. intros [= ->]. left. now subst.
  - intros H. right. apply IH, H.
Qed.

Lemma stringify_object_member (ms : list (string * json)) (k : string) (v : json) :
  In (k, v) ms ->
  Url.includes (JSON_stringify (JObj ms))
    (QuoteJSONString k +:+ ":" +:+ JSON_stringify v) = true.
Proof.
  intros Hin. unfold JSON_stringify. cbn [SerializeJSONProperty].
  change (String.eqb "" "") with true. cbv iota.
  set (member := fun kv : string * json =>
                   QuoteJSONString (fst kv) +:+ ":" +:+ "" +:+ SerializeJSONProperty "" ("" +:+ "") (snd kv)).
  assert (Hm : In (QuoteJSONString k +:+ ":" +:+ SerializeJSONProperty "" "" v)
                 (List.map member ms)).
  { apply (in_map member) in Hin. exact Hin. }
  destruct (List.map member ms) as [|x l] eqn:E; [destruct Hm|].
  apply includes_append_r, includes_append_l, includes_join, Hm.
Qed.

(** C7: the filter is passed through verbatim.  [validateCQL(filter)] hands
    [fetch] a POST to /api/v2/query/validate whose body is the JSON text
    of the object with the single member "filter", and the string written
    there reads back as [filter] itself; the MCP server's
    [create_cost_report] case calls the API with POST /cost_reports and the
    tool arguments as they came, so the body is their JSON text, in which a
    "filter" member appears with the given string. *)
Theorem cql_filter_passed_verbatim (fetch : Fetch.fetch_fn)
    (storage : gmap string string) (e : Mcp.env) (filter : string)
    (ms : list (string * json)) :
  (exists k, Api.validateCQL fetch storage filter
             = bind (fetch (Api.to_fetch (Api.validateCQL_args storage filter))) k)
  /\ Fetch.url (Api.to_fetch (Api.validateCQL_args storage filter)) = "/api/v2/query/validate"
  /\ Fetch.method (Api.to_fetch (Api.validateCQL_args storage filter)) = "POST"
  /\ Fetch.body (Api.to_fetch (Api.validateCQL_args storage filter))
     = Some ("{" +:+ QuoteJSONString "filter" +:+ ":" +:+ QuoteJSONString filter +:+ "}")
  /\ JsonRead.read_string_literal (QuoteJSONString filter) = Some filter
  /\ Mcp.tool_call fetch e (Mcp.mkParams "create_cost_report" (Some (JObj ms)))
     = inl (Mcp.apiRequest fetch e "POST" "/cost_reports" (Some (JObj ms)))
  /\ (exists k, Mcp.apiRequest fetch e "POST" "/cost_reports" (Some (JObj ms))
                = bind (fetch (Mcp.apiRequest_args e "POST" "/cost_reports" (Some (JObj ms)))) k)
  /\ Fetch.method (Mcp.apiRequest_args e "POST" "/cost_reports" (Some (JObj ms))) = "POST"
  /\ Fetch.url (Mcp.apiRequest_args e "POST" "/cost_reports" (Some (JObj ms)))
     = Mcp.API_BASE e +:+ "/api/v2/cost_reports"
  /\ Fetch.body (Mcp.apiRequest_args e "POST" "/cost_reports" (Some (JObj ms)))
     = Some (JSON_stringify (JObj ms))
  /\ (lookup_member "filter" ms = Some (JStr filter) ->
      Url.includes (JSON_stringify (JObj ms))
        (QuoteJSONString "filter" +:+ ":" +:+ QuoteJSONString filter) = true).
Proof.
  split; [eexists; reflexivity|].
  split; [reflexivity|]. split; [reflexivity|]. split; [reflexivity|].
  split; [apply read_quote_roundtrip|].
  split; [reflexivity|].
  split; [eexists; reflexivity|].
  split; [reflexivity|]. split; [reflexivity|]. split; [reflexivity|].
  intros H. apply (stringify_object_member ms "filter" (JStr filter)).
  apply lookup_member_In, H.
Qed.

Lemma cql_filter_passed_verbatim_witness :
  Url.includes
    (JSON_stringify (JObj [("title", JStr "EC2"); ("workspace_token", JStr "ws_1");
                           ("filter", JStr "costs.service = 'EC2'")]))
    (QuoteJSONString "filter" +:+ ":" +:+ QuoteJSONString "costs.service = 'EC2'") = true.
Proof.
  apply (cql_filter_passed_verbatim (fetch_failing "offline") ∅ (Mcp.mkEnv None None)
           "costs.service = 'EC2'"
           [("title", JStr "EC2"); ("workspace_token", JStr "ws_1");
            ("filter", JStr "costs.service = 'EC2'")]).
  reflexivity.
Defined.

(** ** The MCP tool handler always answers *)

Lemma known_tool_call (fetch : Fetch.fetch_fn) (e : Mcp.env) (p : Mcp.call_params) :
  known_tool (Mcp.name p) = true ->
  exists method path body,
    Mcp.tool_call fetch e p = inl (Mcp.apiRequest fetch e method path body).
Proof.
  unfold known_tool, Mcp.tool_call. intros H.
  destruct (String.eqb (Mcp.name p) "list_workspaces"); [do 3 eexists; reflexivity|].
  destruct (String.eqb (Mcp.name p) "list_cost_reports"); [do 3 eexists; reflexivity|].
  destruct (String.eqb (Mcp.name p) "get_cost_report"); [do 3 eexists; reflexivity|].
  destruct (String.eqb (Mcp.name p) "create_cost_report"); [do 3 eexists; reflexivity|].
  destruct (String.eqb (Mcp.name p) "list_segments"); [do 3 eexists; reflexivity|].
  discriminate.
Qed.

Lemma unknown_tool_call (fetch : Fetch.fetch_fn) (e : Mcp.env) (p : Mcp.call_params) :
  known_tool (Mcp.name p) = false ->
  Mcp.tool_call fetch e p
  = inr (Mcp.mkResult [Mcp.mkContent "text" ("Unknown tool: " +:+ Mcp.name p)] (Some true)).
Proof.
  unfold known_tool, Mcp.tool_call. intros H.
  repeat (apply orb_false_iff in H; destruct H as [H ?]).
  repeat match goal with E : String.eqb _ _ = false |- _ => rewrite E; clear E end.
  reflexivity.
Qed.

(** C10 (as stated it fails): when the API call fails, the text of the
    answer is the error's message behind the prefix 'Error: ', not the
    message itself. *)
Lemma tool_error_text_is_prefixed :
  Mcp.handler (fetch_failing "fetch failed") (Mcp.mkEnv None None)
    (Mcp.mkParams "list_workspaces" None)
  = Return (Mcp.mkResult [Mcp.mkContent "text" "Error: fetch failed"] (Some true))
  /\ Mcp.apiRequest (fetch_failing "fetch failed") (Mcp.mkEnv None None)
       "GET" "/workspaces" None
     = Throw (mkError "TypeError" "fetch failed")
  /\ "Error: fetch failed" <> message (mkError "TypeError" "fetch failed").
Proof. repeat split. discriminate. Qed.

(** C10 (amended): for every CallTool request the handler returns a result
    object and never rejects: an unknown tool name yields [isError] true
    with the text 'Unknown tool: <name>'; a known name leads to one API
    call, any failure of which yields [isError] true with the text
    'Error: <message>', the error's message behind that prefix; and every
    successful call returns the API result, JSON-stringified with an
    indent of 2, as text content without [isError]. *)
Theorem tool_handler_always_answers (fetch : Fetch.fetch_fn) (e : Mcp.env)
    (p : Mcp.call_params) :
  (exists r, Mcp.handler fetch e p = Return r)
  /\ (known_tool (Mcp.name p) = false ->
      Mcp.handler fetch e p
      = Return (Mcp.mkResult
                  [Mcp.mkContent "text" ("Unknown tool: " +:+ Mcp.name p)] (Some true)))
  /\ (known_tool (Mcp.name p) = true ->
      exists method path body,
        Mcp.tool_call fetch e p = inl (Mcp.apiRequest fetch e method path body))
  /\ (forall call, Mcp.tool_call fetch e p = inl call ->
      (forall err, call = Throw err ->
         Mcp.handler fetch e p
         = Return (Mcp.mkResult
                     [Mcp.mkContent "text" ("Error: " +:+ message err)] (Some true)))
      /\ (forall result, call = Return result ->
            Mcp.handler fetch e p
            = Return (Mcp.mkResult
                        [Mcp.mkContent "text" (JSON_stringify_2 result)] None))).
Proof.
  split.
  { unfold Mcp.handler. destruct (Mcp.tool_call fetch e p) as [[result|err]|unknown];
      eexists; reflexivity. }
  split.
  { intros H. unfold Mcp.handler. now rewrite (unknown_tool_call fetch e p H). }
  split; [apply known_tool_call|].
  intros call Hc. unfold Mcp.handler. rewrite Hc.
  split; intros x ->; reflexivity.
Qed.

Lemma tool_handler_always_answers_witness :
  Mcp.handler (fetch_failing "offline") (Mcp.mkEnv None None) (Mcp.mkParams "drop_tables" None)
  = Return (Mcp.mkResult
              [Mcp.mkContent "text"
                 ("Unknown tool: " +:+ Mcp.name (Mcp.mkParams "drop_tables" None))]
              (Some true)).
Proof.
  apply (tool_handler_always_answers (fetch_failing "offline") (Mcp.mkEnv None None)
           (Mcp.mkParams "drop_tables" None)).
  reflexivity.
Defined.

(** ** The [workspace_token] parameter of the list operations *)

Lemma set_fresh (qs : Url.URLSearchParams) (k v : string) :
  ~ In k (List.map fst qs) -> Url.set qs k v = (qs ++ [(k, v)])%list.
Proof.
  induction qs as [|[k' v'] qs IH]; intros Hk; [reflexivity|].
  cbn [Url.set]. destruct (String.eqb k' k) eqn:E.
  - apply String.eqb_eq in E. exfalso. apply Hk. left. exact E.
  - cbn [app]. f_equal. apply IH. intros Hin. apply Hk. right. exact Hin.
Qed.

Lemma fold_set_fresh (keep : value -> bool)
    (f : Url.URLSearchParams -> string * value -> Url.URLSearchParams)
    (Hf : forall qs kv,
        f qs kv = if keep (snd kv) then Url.set qs (fst kv) (to_string (snd kv)) else qs)
    (ps : params_t) :
  forall acc : Url.URLSearchParams,
    List.NoDup (List.map fst ps) ->
    (forall k, In k (List.map fst ps) -> ~ In k (List.map fst acc)) ->
    fold_left f ps acc = (acc ++ pairs_of keep ps)%list.
Proof.
  induction ps as [|[k v] ps IH]; intros acc Hnd Hfresh.
  - cbn. now rewrite app_nil_r.
  - cbn [fold_left]. inversion Hnd as [|? ? Hk Hnd']; subst.
    rewrite Hf. cbn [fst snd pairs_of flat_map]. fold (pairs_of keep ps).
    destruct (keep v).
    + rewrite set_fresh by (apply Hfresh; left; reflexivity).
      rewrite IH; [now rewrite <- app_assoc | exact Hnd' |].
      intros k' Hk' Hin. rewrite List.map_app, in_app_iff in Hin.
      destruct Hin as [Hin|[Heq|[]]].
      * apply (Hfresh k'); [right; exact Hk' | exact Hin].
      * cbn [fst] in Heq. subst k'. apply Hk, Hk'.
    + cbn [app]. apply IH; [exact Hnd'|].
      intros k' Hk'. apply Hfresh. right. exact Hk'.
Qed.

Lemma ts_request_qs_pairs (ps : params_t) :
  List.NoDup (List.map fst ps) -> TsSdk.request_qs ps = pairs_of not_undefined ps.
Proof.
  intros Hnd. unfold TsSdk.request_qs.
  rewrite (fold_set_fresh not_undefined); [reflexivity | | exact Hnd | intros k _ []].
  intros qs [k [j|]]; reflexivity.
Qed.

Lemma js_request_qs_pairs (ps : params_t) :
  List.NoDup (List.map fst ps) -> JsSdk.request_qs ps = pairs_of not_undefined_nor_null ps.
Proof.
  intros Hnd. unfold JsSdk.request_qs.
  rewrite (fold_set_fresh not_undefined_nor_null); [reflexivity | | exact Hnd | intros k _ []].
  intros qs [k [[| | | | |]|]]; reflexivity.
Qed.

Lemma pairs_of_In (keep : value -> bool) (ps : params_t) (k s : string) :
  In (k, s) (pairs_of keep ps) <->
  exists v, In (k, v) ps /\ keep v = true /\ s = to_string v.
Proof.
  unfold pairs_of. rewrite in_flat_map. split.
  - intros ([k' v] & Hin & Hx). cbn [fst snd] in Hx.
    destruct (keep v) eqn:E; [|destruct Hx].
    destruct Hx as [[= <- <-]|[]]. exists v. auto.
  - intros (v & Hin & Hk & ->). exists (k, v). split; [exact Hin|].
    cbn [fst snd]. rewrite Hk. left. reflexivity.
Qed.






(** The MCP server's own list tools append the token as it is, and only
    when it is truthy. *)
Lemma mcp_workspace_qs (args : list (string * json)) (v : string) :
  lookup_member "workspace_token" args = Some (JStr v) ->
  Mcp.workspace_qs (Some (JObj args))
  = if truthy_string v then "?workspace_token=" +:+ v else "".
Proof.
  intros H. unfold Mcp.workspace_qs. cbn [get_prop_opt]. rewrite H.
  cbn [truthy truthy_json to_string to_string_json]. reflexivity.
Qed.

Lemma mcp_workspace_qs_absent (args : list (string * json)) :
  lookup_member "workspace_token" args = None ->
  Mcp.workspace_qs (Some (JObj args)) = "".
Proof. intros H. unfold Mcp.workspace_qs. cbn [get_prop_opt]. now rewrite H. Qed.





(* ===================================================================== *)
(** * Part III.  Further properties of the same files                     *)
(* ===================================================================== *)

(** ** The Go client's list parameters and service methods *)

Lemma plain_char_safe (c : ascii) :
  plain_char c = true ->
  Url.urlencode_byte c = String c "" /\ GoServices.escape_byte c = String c "".
Proof.
  destruct c as [[] [] [] [] [] [] [] []]; intros H;
    first [split; reflexivity | discriminate H].
Qed.

Lemma plain_string_unescaped (s : string) :
  string_forallb plain_char s = true ->
  Url.urlencode s = s /\ GoServices.QueryEscape s = s.
Proof.
  induction s as [|c s IH]; [split; reflexivity|].
  cbn [string_forallb Url.urlencode GoServices.QueryEscape].
  rewrite andb_true_iff. intros [Hc Hs].
  destruct (plain_char_safe c Hc) as [-> ->]. destruct (IH Hs) as [-> ->].
  split; reflexivity.
Qed.

Lemma pretty_N_char_plain (x : N) : plain_char (pretty_N_char x) = true.
Proof. unfold pretty_N_char. repeat case_match; reflexivity. Qed.

Lemma pretty_N_go_plain (x : N) (s : string) :
  string_forallb plain_char s = true ->
  string_forallb plain_char (pretty_N_go x s) = true.
Proof.
  revert s. induction (N.lt_wf_0 x) as [x _ IH]; intros s Hs.
  assert (x = 0 \/ 0 < x)%N as [->|Hx] by lia.
  - rewrite pretty_N_go_0. exact Hs.
  - rewrite pretty_N_go_step by exact Hx. apply IH.
    + apply N.div_lt; [exact Hx | reflexivity].
    + cbn [string_forallb]. rewrite pretty_N_char_plain. exact Hs.
Qed.

Lemma pretty_Z_plain (z : Z) : 0 <= z -> string_forallb plain_char (pretty z) = true.
Proof.
  intros Hz. destruct z as [|q|q]; [reflexivity | | lia].
  unfold pretty, pretty_Z, pretty, pretty_positive, pretty, pretty_N.
  destruct (decide (N.pos q = 0%N)); [reflexivity|].
  apply pretty_N_go_plain. reflexivity.
Qed.

Lemma gtb_pos (z : Z) : (z >? 0) = true -> 0 <= z.
Proof. rewrite Z.gtb_ltb. intros H. apply Z.ltb_lt in H. lia. Qed.

(** X1: the query string of the Go list methods.  Without params (nil) it
    is empty; otherwise it lists, in the order limit, page,
    workspace_token, the limit when positive, the page when positive and
    the query-escaped workspace token when not empty, after a question
    mark, and it is empty when none of the three qualifies. *)
Theorem go_toQuery_form (p : GoServices.ListParams) :
  GoServices.toQuery None = ""
  /\ GoServices.toQuery (Some p)
     = match
         (if GoServices.Limit p >? 0 then ["limit=" +:+ pretty (GoServices.Limit p)] else [])
         ++ (if GoServices.Page p >? 0 then ["page=" +:+ pretty (GoServices.Page p)] else [])
         ++ (if negb (String.eqb (GoServices.WorkspaceToken p) "")
             then ["workspace_token="
                     +:+ GoServices.QueryEscape (GoServices.WorkspaceToken p)]
             else [])
       with
       | [] => ""
       | comps => "?" +:+ join "&" comps
       end%list.
Proof.
  split; [reflexivity|].
  transitivity
    (match
        (if GoServices.Limit p >? 0
         then ["limit=" +:+ GoServices.QueryEscape (pretty (GoServices.Limit p))] else [])
        ++ (if GoServices.Page p >? 0
            then ["page=" +:+ GoServices.QueryEscape (pretty (GoServices.Page p))] else [])
        ++ (if negb (String.eqb (GoServices.WorkspaceToken p) "")
            then ["workspace_token="
                    +:+ GoServices.QueryEscape (GoServices.WorkspaceToken p)]
            else [])
      with
      | [] => ""
      | comps => "?" +:+ join "&" comps
      end%list).
  - unfold GoServices.toQuery.
    destruct (GoServices.Limit p >? 0);
      destruct (GoServices.Page p >? 0);
      destruct (negb (String.eqb (GoServices.WorkspaceToken p) ""));
      reflexivity.
  - destruct (GoServices.Limit p >? 0) eqn:HL;
      destruct (GoServices.Page p >? 0) eqn:HP;
      try (destruct (plain_string_unescaped _ (pretty_Z_plain _ (gtb_pos _ HL))) as [_ ->]);
      try (destruct (plain_string_unescaped _ (pretty_Z_plain _ (gtb_pos _ HP))) as [_ ->]);
      reflexivity.
Qed.








Lemma header_lookup_set_eq (k v : string) (hs : list (string * string)) :
  header_lookup k (set_member k v hs) = Some v.
Proof.
  induction hs as [|[k' v'] hs IH]; cbn [set_member header_lookup].
  - now rewrite String.eqb_refl.
  - destruct (String.eqb k' k) eqn:E; cbn [header_lookup]; rewrite E; [reflexivity | exact IH].
Qed.

Lemma header_lookup_set_ne (k k0 v : string) (hs : list (string * string)) :
  k <> k0 -> header_lookup k (set_member k0 v hs) = header_lookup k hs.
Proof.
  intros Hne. induction hs as [|[k' v'] hs IH]; cbn [set_member header_lookup].
  - destruct (String.eqb k0 k) eqn:E; [apply String.eqb_eq in E; congruence | reflexivity].
  - destruct (String.eqb k' k0) eqn:E; cbn [header_lookup].
    + apply String.eqb_eq in E. subst k'.
      destruct (String.eqb k0 k) eqn:E'; [apply String.eqb_eq in E'; congruence | reflexivity].
    + destruct (String.eqb k' k); [reflexivity | exact IH].
Qed.

(** X3: [doRequest] returns data only when the body (if any) marshalled,
    the request was built for the method and base URL plus path, the
    transport delivered a response with a status below 400 whose body read
    as that data, and the request sent carried the bearer token, the JSON
    content type and the SDK's user agent. *)
Theorem go_doRequest_success (rt : GoSdk.runtime) (c : GoSdk.Client)
    (method path : string) (body : option json) (data : string) :
  GoSdk.doRequest rt c method path body = GoSdk.Ok data ->
  exists buf req0 req resp,
    (forall b, body = Some b -> exists bytes,
          GoSdk.json_Marshal rt b = GoSdk.Ok bytes /\ buf = Some bytes)
    /\ (body = None -> buf = None)
    /\ GoSdk.http_NewRequest rt method (GoSdk.BaseURL c +:+ path) buf = GoSdk.Ok req0
    /\ GoSdk.HTTPClient_Do rt req = GoSdk.Ok resp
    /\ GoSdk.Body resp = GoSdk.Ok data
    /\ GoSdk.StatusCode resp < 400
    /\ GoSdk.Method req = GoSdk.Method req0
    /\ GoSdk.URL req = GoSdk.URL req0
    /\ GoSdk.ReqBody req = GoSdk.ReqBody req0
    /\ header_lookup "Authorization" (GoSdk.Header req) = Some ("Bearer " +:+ GoSdk.APIToken c)
    /\ header_lookup "Content-Type" (GoSdk.Header req) = Some "application/json"
    /\ header_lookup "User-Agent" (GoSdk.Header req) = Some "cloudpulse-go/0.1.0".
Proof.
  unfold GoSdk.doRequest. intros H.
  destruct (match body with
            | Some b => match GoSdk.json_Marshal rt b with
                        | GoSdk.Ok bytes => GoSdk.Ok (Some bytes)
                        | GoSdk.Err e => GoSdk.Err e
                        end
            | None => GoSdk.Ok None
            end) as [buf|e] eqn:Hbuf; [|discriminate].
  destruct (GoSdk.http_NewRequest rt method (GoSdk.BaseURL c +:+ path) buf)
    as [req0|e] eqn:Hnew; [|discriminate].
  set (req := GoSdk.Header_Set "User-Agent" GoSdk.UserAgent
                (GoSdk.Header_Set "Content-Type" "application/json"
                   (GoSdk.Header_Set "Authorization" ("Bearer " +:+ GoSdk.APIToken c) req0)))
    in H.
  destruct (GoSdk.HTTPClient_Do rt req) as [resp|e] eqn:Hdo; [|discriminate].
  destruct (GoSdk.Body resp) as [d|e] eqn:Hbody; [|discriminate].
  destruct (GoSdk.StatusCode resp >=? 400) eqn:Hs; [discriminate|].
  injection H as ->.
  exists buf, req0, req, resp.
  split.
  { intros b ->. destruct (GoSdk.json_Marshal rt b) as [bytes|e]; [|discriminate].
    injection Hbuf as <-. eauto. }
  split; [intros ->; now injection Hbuf as <-|].
  split; [exact Hnew|]. split; [exact Hdo|]. split; [exact Hbody|].
  split; [rewrite Z.geb_leb in Hs; apply Z.leb_gt in Hs; exact Hs|].
  split; [reflexivity|]. split; [reflexivity|]. split; [reflexivity|].
  subst req. cbn [GoSdk.Header_Set GoSdk.Header].
  split; [|split].
  - rewrite !header_lookup_set_ne by discriminate. apply header_lookup_set_eq.
  - rewrite header_lookup_set_ne by discriminate. apply header_lookup_set_eq.
  - apply header_lookup_set_eq.
Qed.

Lemma go_doRequest_success_witness :
  exists buf req0 req resp,
    (forall b, @None json = Some b -> exists bytes,
          GoSdk.json_Marshal (go_runtime_answering 200 "{}") b = GoSdk.Ok bytes
          /\ buf = Some bytes)
    /\ (@None json = None -> buf = None)
    /\ GoSdk.http_NewRequest (go_runtime_answering 200 "{}") "GET"
         (GoSdk.BaseURL (GoSdk.NewClient "t") +:+ "/workspaces") buf = GoSdk.Ok req0
    /\ GoSdk.HTTPClient_Do (go_runtime_answering 200 "{}") req = GoSdk.Ok resp
    /\ GoSdk.Body resp = GoSdk.Ok "{}"
    /\ GoSdk.StatusCode resp < 400
    /\ GoSdk.Method req = GoSdk.Method req0
    /\ GoSdk.URL req = GoSdk.URL req0
    /\ GoSdk.ReqBody req = GoSdk.ReqBody req0
    /\ header_lookup "Authorization" (GoSdk.Header req)
       = Some ("Bearer " +:+ GoSdk.APIToken (GoSdk.NewClient "t"))
    /\ header_lookup "Content-Type" (GoSdk.Header req) = Some "application/json"
    /\ header_lookup "User-Agent" (GoSdk.Header req) = Some "cloudpulse-go/0.1.0".
Proof.
  apply (go_doRequest_success (go_runtime_answering 200 "{}") (GoSdk.NewClient "t")
           "GET" "/workspaces" None "{}").
  reflexivity.
Defined.

(** ** More on the TypeScript and JavaScript request functions *)

(** X4: for a params object (distinct keys) the query string of the
    TypeScript client holds, in the order of the object's entries, one pair
    for every entry whose value is not undefined, and the JavaScript
    client's one pair for every entry whose value is neither undefined nor
    null; each value is converted with String(). *)
Theorem query_lists_defined_params (ps : params_t) :
  List.NoDup (List.map fst ps) ->
  TsSdk.request_qs ps = pairs_of not_undefined ps
  /\ JsSdk.request_qs ps = pairs_of not_undefined_nor_null ps
  /\ List.NoDup (List.map fst (TsSdk.request_qs ps))
  /\ List.NoDup (List.map fst (JsSdk.request_qs ps)).
Proof.
  intros Hnd.
  assert (Hsub : forall keep, List.NoDup (List.map fst (pairs_of keep ps))).
  { intros keep. clear -Hnd. induction ps as [|[k v] ps IH]; [constructor|].
    inversion Hnd as [|? ? Hk Hnd']; subst.
    cbn [pairs_of flat_map fst snd]. fold (pairs_of keep ps).
    destruct (keep v); [|apply IH, Hnd'].
    cbn [app List.map fst]. constructor; [|apply IH, Hnd'].
    intros Hin. apply Hk. apply in_map_iff in Hin. destruct Hin as ([k' s] & <- & Hin).
    apply pairs_of_In in Hin. destruct Hin as (v' & Hin & _).
    apply (in_map fst) in Hin. exact Hin. }
  rewrite (ts_request_qs_pairs ps Hnd), (js_request_qs_pairs ps Hnd).
  repeat split; auto.
Qed.

Lemma query_lists_defined_params_witness :
  TsSdk.request_qs [("page", Some (JNum 2)); ("limit", None); ("workspace_token", Some JNull)]
  = pairs_of not_undefined
      [("page", Some (JNum 2)); ("limit", None); ("workspace_token", Some JNull)]
  /\ JsSdk.request_qs [("page", Some (JNum 2)); ("limit", None); ("workspace_token", Some JNull)]
     = pairs_of not_undefined_nor_null
         [("page", Some (JNum 2)); ("limit", None); ("workspace_token", Some JNull)]
  /\ List.NoDup (List.map fst (TsSdk.request_qs
       [("page", Some (JNum 2)); ("limit", None); ("workspace_token", Some JNull)]))
  /\ List.NoDup (List.map fst (JsSdk.request_qs
       [("page", Some (JNum 2)); ("limit", None); ("workspace_token", Some JNull)])).
Proof.
  apply (query_lists_defined_params
           [("page", Some (JNum 2)); ("limit", None); ("workspace_token", Some JNull)]).
  repeat constructor; cbn; intuition discriminate.
Defined.

(** X5: the body and headers of the requests.  On the JavaScript client
    every operation sends no body for list, get, delete and revoke, and for
    create and update the JSON text of the data when the data is truthy
    (always, for an object).  Wherever the TypeScript client makes a request
    (its [list] and [get] on the six collections make none) it sends the
    same body as the JavaScript client does for the operation; every
    request of either client carries the bearer token and the JSON content
    type. *)
Theorem sdk_request_bodies (stack : nat) (apiToken : string) (baseUrl : option string)
    (r : resource) (o : operation) :
  (forall q, js_request apiToken baseUrl r o = Some q ->
     Fetch.body q
     = match o with
       | op_create d | op_update _ d =>
           if truthy_json d then Some (JSON_stringify d) else None
       | _ => None
       end
     /\ header_lookup "Authorization" (Fetch.headers q) = Some ("Bearer " +:+ apiToken)
     /\ header_lookup "Content-Type" (Fetch.headers q) = Some "application/json")
  /\ (forall req, ts_request stack apiToken baseUrl r o = Some (Return req) ->
      option_map Fetch.body (js_request apiToken baseUrl r o) = Some (Fetch.body req)
      /\ header_lookup "Authorization" (Fetch.headers req) = Some ("Bearer " +:+ apiToken)
      /\ header_lookup "Content-Type" (Fetch.headers req) = Some "application/json").
Proof.
  split.
  - intros q H.
    destruct o as [params|t|d|t d|t|t]; destruct r; cbn in H; try discriminate H;
      injection H as <-; repeat split.
  - intros req H.
    assert (Hl : forall params, r <> api_tokens ->
                   ts_request stack apiToken baseUrl r (op_list params)
                   <> Some (Return req)).
    { intros params Hr. unfold ts_request. rewrite (ts_list_overflows r stack Hr).
      discriminate. }
    assert (Hg : forall t, r <> api_tokens ->
                   ts_request stack apiToken baseUrl r (op_get t) <> Some (Return req)).
    { intros t Hr. unfold ts_request. rewrite (ts_get_overflows r stack Hr). discriminate. }
    destruct o as [params|t|d|t d|t|t]; destruct r;
      try (exfalso; apply (Hl params); [discriminate | exact H]);
      try (exfalso; apply (Hg t); [discriminate | exact H]);
      cbn in H; try discriminate H;
      injection H as <-; repeat split.
Qed.

Lemma sdk_request_bodies_witness :
  option_map Fetch.body (js_request "t" None folders (op_create (JObj [("title", JStr "Q3")])))
  = Some (Fetch.body (TsSdk.request_args (TsSdk.constructor (TsSdk.mkOptions "t" None))
                        "POST" "/folders" (Some (JObj [("title", JStr "Q3")])) None))
  /\ header_lookup "Authorization"
       (Fetch.headers (TsSdk.request_args (TsSdk.constructor (TsSdk.mkOptions "t" None))
                         "POST" "/folders" (Some (JObj [("title", JStr "Q3")])) None))
     = Some ("Bearer " +:+ "t")
  /\ header_lookup "Content-Type"
       (Fetch.headers (TsSdk.request_args (TsSdk.constructor (TsSdk.mkOptions "t" None))
                         "POST" "/folders" (Some (JObj [("title", JStr "Q3")])) None))
     = Some "application/json".
Proof.
  apply (sdk_request_bodies 64 "t" None folders (op_create (JObj [("title", JStr "Q3")]))).
  reflexivity.
Defined.

Lemma strip_append_slash (b : string) : Url.strip_trailing_slash (b +:+ "/") = b.
Proof.
  induction b as [|c b IH]; [reflexivity|].
  rewrite append_cons. cbn [Url.strip_trailing_slash].
  destruct (b +:+ "/") as [|c' r] eqn:E.
  - destruct b; discriminate E.
  - rewrite IH. reflexivity.
Qed.

Lemma strip_no_slash (b : string) :
  ends_with_slash b = false -> Url.strip_trailing_slash b = b.
Proof.
  induction b as [|c b IH]; [reflexivity|].
  cbn [ends_with_slash Url.strip_trailing_slash]. destruct b as [|c' r].
  - intros ->. reflexivity.
  - intros H. now rewrite (IH H).
Qed.

(** X6: one trailing slash of the [baseUrl] option is ignored.  For every
    string b, both clients built with b followed by a slash use the base
    b/api/v2; built with a non-empty b that does not end in a slash they
    use the same base; only one slash is dropped, two trailing slashes
    leave one in the base. *)
Theorem base_url_trailing_slash (apiToken b : string) :
  TsSdk.client_baseUrl (TsSdk.constructor (TsSdk.mkOptions apiToken (Some (b +:+ "/"))))
  = b +:+ "/api/v2"
  /\ JsSdk.client_baseUrl (JsSdk.constructor apiToken (Some (b +:+ "/"))) = b +:+ "/api/v2"
  /\ (ends_with_slash b = false ->
      JsSdk.client_baseUrl (JsSdk.constructor apiToken (Some b)) = b +:+ "/api/v2"
      /\ (b <> "" ->
          TsSdk.client_baseUrl (TsSdk.constructor (TsSdk.mkOptions apiToken (Some b)))
          = b +:+ "/api/v2"))
  /\ JsSdk.client_baseUrl (JsSdk.constructor apiToken (Some (b +:+ "//")))
     = b +:+ "//api/v2".
Proof.
  split; [|split; [|split]].
  - cbn [TsSdk.constructor TsSdk.client_baseUrl TsSdk.baseUrl].
    assert (Ht : truthy_string (b +:+ "/") = true) by (destruct b; reflexivity).
    rewrite Ht, strip_append_slash. reflexivity.
  - cbn [JsSdk.constructor JsSdk.client_baseUrl]. now rewrite strip_append_slash.
  - intros Hs. split.
    + cbn [JsSdk.constructor JsSdk.client_baseUrl]. now rewrite (strip_no_slash b Hs).
    + intros Hne. cbn [TsSdk.constructor TsSdk.client_baseUrl TsSdk.baseUrl].
      destruct b as [|c r]; [congruence|].
      change (truthy_string (String c r)) with true. cbv iota.
      now rewrite (strip_no_slash _ Hs).
  - cbn [JsSdk.constructor JsSdk.client_baseUrl].
    change (b +:+ "//") with (b +:+ ("/" +:+ "/")).
    rewrite <- append_assoc', strip_append_slash, append_assoc'. reflexivity.
Qed.

Lemma base_url_trailing_slash_witness :
  JsSdk.client_baseUrl (JsSdk.constructor "t" (Some "https://cp.example"))
  = "https://cp.example" +:+ "/api/v2"
  /\ ("https://cp.example" <> "" ->
      TsSdk.client_baseUrl (TsSdk.constructor (TsSdk.mkOptions "t" (Some "https://cp.example")))
      = "https://cp.example" +:+ "/api/v2").
Proof.
  apply (base_url_trailing_slash "t" "https://cp.example"). reflexivity.
Defined.

(** ** Error texts of the three JavaScript-family request functions *)

(** X7: what the SDK request functions throw for a response whose status
    is outside 200..299.  A JSON object body with a non-empty string
    [detail] gives 'CloudPulse API error <status>: <detail>'; a body that
    is not JSON gives the status text in place of the detail, or
    'Unknown error' when the status text is empty; an object without
    [detail] gives 'Unknown error'; and a body that is the JSON value null
    makes the function reject with a TypeError instead of the API error.
    The JavaScript client does the same on every response. *)
Theorem sdk_error_messages (res : Fetch.response) :
  ~ (200 <= Fetch.status res <= 299) ->
  (forall ms d, Fetch.json_body res = Return (JObj ms) ->
      lookup_member "detail" ms = Some (JStr d) -> d <> "" ->
      TsSdk.request_result res
      = Throw (mkError "Error"
                 ("CloudPulse API error " +:+ pretty (Fetch.status res) +:+ ": " +:+ d)))
  /\ (forall e, Fetch.json_body res = Throw e ->
      TsSdk.request_result res
      = Throw (mkError "Error"
                 ("CloudPulse API error " +:+ pretty (Fetch.status res) +:+ ": "
                    +:+ (if String.eqb (Fetch.statusText res) "" then "Unknown error"
                         else Fetch.statusText res))))
  /\ (forall ms, Fetch.json_body res = Return (JObj ms) ->
      lookup_member "detail" ms = None ->
      TsSdk.request_result res
      = Throw (mkError "Error"
                 ("CloudPulse API error " +:+ pretty (Fetch.status res) +:+ ": Unknown error")))
  /\ (Fetch.json_body res = Return JNull ->
      exists msg, TsSdk.request_result res = Throw (mkError "TypeError" msg))
  /\ JsSdk.request_result res = TsSdk.request_result res.
Proof.
  intros Hs. unfold TsSdk.request_result.
  destruct (Fetch.ok res) eqn:Hok; [apply ok_range in Hok; contradiction|].
  cbn [negb]. split; [|split; [|split; [|split]]].
  - intros ms d -> Hd Hne. cbn [try_catch bind get_prop]. rewrite Hd.
    cbn [truthy truthy_json to_string to_string_json].
    destruct d; [congruence | reflexivity].
  - intros e ->. cbn [try_catch bind get_prop lookup_member].
    change (String.eqb "detail" "detail") with true. cbv iota.
    cbn [truthy truthy_json to_string to_string_json].
    destruct (String.eqb (Fetch.statusText res) ""); reflexivity.
  - intros ms -> Hd. cbn [try_catch bind get_prop]. rewrite Hd. reflexivity.
  - intros ->. eexists. reflexivity.
  - unfold JsSdk.request_result. rewrite Hok. reflexivity.
Qed.

Lemma sdk_error_messages_witness :
  TsSdk.request_result
    (Fetch.mkResponse 404 "Not Found" (Return (JObj [("detail", JStr "No such report")])))
  = Throw (mkError "Error"
             ("CloudPulse API error "
                +:+ pretty (Fetch.status
                              (Fetch.mkResponse 404 "Not Found"
                                 (Return (JObj [("detail", JStr "No such report")]))))
                +:+ ": " +:+ "No such report")).
Proof.
  apply (sdk_error_messages
           (Fetch.mkResponse 404 "Not Found" (Return (JObj [("detail", JStr "No such report")]))))
    with (ms := [("detail", JStr "No such report")]).
  - cbn. lia.
  - reflexivity.
  - reflexivity.
  - discriminate.
Defined.

(** X8: [apiRequest] of the MCP server returns a value only when [fetch]
    resolved with a status in 200..299 and the body parsed to that value;
    for another status whose body is a JSON object it throws
    'API error <status>: <detail>', where a missing [detail] is printed as
    'undefined', and for a body that is not JSON the detail is the status
    text. *)
Theorem mcp_apiRequest_outcomes (fetch : Fetch.fetch_fn) (e : Mcp.env)
    (method path : string) (body : value) :
  (forall result, Mcp.apiRequest fetch e method path body = Return result ->
     exists res, fetch (Mcp.apiRequest_args e method path body) = Return res
                 /\ 200 <= Fetch.status res <= 299
                 /\ Fetch.json_body res = Return result)
  /\ (forall res, fetch (Mcp.apiRequest_args e method path body) = Return res ->
      ~ (200 <= Fetch.status res <= 299) ->
      (forall ms, Fetch.json_body res = Return (JObj ms) ->
          Mcp.apiRequest fetch e method path body
          = Throw (mkError "Error"
                     ("API error " +:+ pretty (Fetch.status res) +:+ ": "
                        +:+ to_string (lookup_member "detail" ms))))
      /\ (forall err, Fetch.json_body res = Throw err ->
          Mcp.apiRequest fetch e method path body
          = Throw (mkError "Error"
                     ("API error " +:+ pretty (Fetch.status res) +:+ ": "
                        +:+ Fetch.statusText res))))
  /\ (forall err, fetch (Mcp.apiRequest_args e method path body) = Throw err ->
      Mcp.apiRequest fetch e method path body = Throw err).
Proof.
  unfold Mcp.apiRequest. split; [|split].
  - intros result H.
    destruct (fetch (Mcp.apiRequest_args e method path body)) as [res|err]; [|discriminate].
    cbn [bind] in H. destruct (Fetch.ok res) eqn:Hok.
    + exists res. split; [reflexivity|]. split; [apply ok_range, Hok | exact H].
    + exfalso. cbn [negb] in H.
      destruct (Fetch.json_body res) as [[| | | | |]|err]; cbn in H; discriminate.
  - intros res -> Hs. cbn [bind].
    destruct (Fetch.ok res) eqn:Hok; [apply ok_range in Hok; contradiction|].
    cbn [negb]. split.
    + intros ms ->. reflexivity.
    + intros err ->. reflexivity.
  - intros err ->. reflexivity.
Qed.

Lemma mcp_apiRequest_outcomes_witness :
  Mcp.apiRequest (fetch_failing "offline") (Mcp.mkEnv None None) "GET" "/workspaces" None
  = Throw (mkError "TypeError" "offline").
Proof.
  apply (mcp_apiRequest_outcomes (fetch_failing "offline") (Mcp.mkEnv None None)
           "GET" "/workspaces" None).
  reflexivity.
Defined.

(** ** The MCP server's tool list and the paths its tools request *)

(** X9: the tools announced by ListTools are exactly the names the
    CallTool handler has a case for: a name is in the list iff the handler
    turns the call into an API request (any other name, such as the
    [query_costs] and [get_recommendations] of the file's header, is an
    unknown tool); no name is listed twice and every required argument is
    one of the tool's declared properties. *)
Theorem mcp_tools_are_handled (fetch : Fetch.fetch_fn) (e : Mcp.env)
    (n : string) (args : value) :
  (In n (List.map McpTools.tool_name McpTools.tools)
   <-> exists call, Mcp.tool_call fetch e (Mcp.mkParams n args) = inl call)
  /\ (~ In n (List.map McpTools.tool_name McpTools.tools)
      <-> Mcp.handler fetch e (Mcp.mkParams n args)
          = Return (Mcp.mkResult [Mcp.mkContent "text" ("Unknown tool: " +:+ n)] (Some true)))
  /\ List.NoDup (List.map McpTools.tool_name McpTools.tools)
  /\ Forall (fun t => forall k, In k (McpTools.required t) ->
                        In k (List.map McpTools.prop_name (McpTools.properties t)))
       McpTools.tools.
Proof.
  assert (Hk : In n (List.map McpTools.tool_name McpTools.tools) <-> known_tool n = true).
  { unfold known_tool. rewrite !orb_true_iff, !String.eqb_eq. cbn.
    intuition (subst; auto). }
  assert (H1 : In n (List.map McpTools.tool_name McpTools.tools)
               <-> exists call, Mcp.tool_call fetch e (Mcp.mkParams n args) = inl call).
  { rewrite Hk. split.
    - intros H. destruct (known_tool_call fetch e (Mcp.mkParams n args) H)
        as (m & p & b & Hc). eauto.
    - intros [call Hc]. destruct (known_tool n) eqn:E; [reflexivity|].
      rewrite (unknown_tool_call fetch e (Mcp.mkParams n args) E) in Hc. discriminate. }
  split; [exact H1|]. split.
  - rewrite Hk. split.
    + intros H. apply not_true_is_false in H. unfold Mcp.handler.
      now rewrite (unknown_tool_call fetch e (Mcp.mkParams n args) H).
    + intros H Hn. destruct (known_tool_call fetch e (Mcp.mkParams n args) Hn)
        as (m & p & b & Hc).
      unfold Mcp.handler in H. rewrite Hc in H.
      destruct (Mcp.apiRequest fetch e m p b) as [result|err]; cbn in H.
      * discriminate.
      * injection H as H. destruct (message err); discriminate.
  - split.
    + repeat constructor; cbn; intuition discriminate.
    + unfold McpTools.tools.
      repeat (constructor; [cbn; intros k Hk'; tauto|]).
      constructor.
Qed.

(** X10: the paths the MCP tools request.  [list_cost_reports] and
    [list_segments] append [?workspace_token=] and the argument as it is,
    without encoding, when the argument is a non-empty string, and nothing
    when it is missing or empty; [get_cost_report] asks for
    /cost_reports/<token>, which is /cost_reports/undefined when the token
    argument is missing. *)
Theorem mcp_tool_paths (fetch : Fetch.fetch_fn) (e : Mcp.env)
    (args : list (string * json)) :
  (forall v, lookup_member "workspace_token" args = Some (JStr v) -> v <> "" ->
     Mcp.tool_call fetch e (Mcp.mkParams "list_cost_reports" (Some (JObj args)))
     = inl (Mcp.apiRequest fetch e "GET" ("/cost_reports?workspace_token=" +:+ v) None)
     /\ Mcp.tool_call fetch e (Mcp.mkParams "list_segments" (Some (JObj args)))
        = inl (Mcp.apiRequest fetch e "GET" ("/segments?workspace_token=" +:+ v) None)
     /\ Fetch.url (Mcp.apiRequest_args e "GET" ("/cost_reports?workspace_token=" +:+ v) None)
        = Mcp.API_BASE e +:+ "/api/v2/cost_reports?workspace_token=" +:+ v)
  /\ (lookup_member "workspace_token" args = None
      \/ lookup_member "workspace_token" args = Some (JStr "") ->
      Mcp.tool_call fetch e (Mcp.mkParams "list_cost_reports" (Some (JObj args)))
      = inl (Mcp.apiRequest fetch e "GET" "/cost_reports" None)
      /\ Mcp.tool_call fetch e (Mcp.mkParams "list_segments" (Some (JObj args)))
         = inl (Mcp.apiRequest fetch e "GET" "/segments" None))
  /\ (forall t, lookup_member "token" args = Some (JStr t) ->
      Mcp.tool_call fetch e (Mcp.mkParams "get_cost_report" (Some (JObj args)))
      = inl (Mcp.apiRequest fetch e "GET" ("/cost_reports/" +:+ t) None))
  /\ (lookup_member "token" args = None ->
      Mcp.tool_call fetch e (Mcp.mkParams "get_cost_report" (Some (JObj args)))
      = inl (Mcp.apiRequest fetch e "GET" "/cost_reports/undefined" None))
  /\ Mcp.tool_call fetch e (Mcp.mkParams "get_cost_report" None)
     = inl (Mcp.apiRequest fetch e "GET" "/cost_reports/undefined" None)
  /\ Mcp.tool_call fetch e (Mcp.mkParams "list_cost_reports" None)
     = inl (Mcp.apiRequest fetch e "GET" "/cost_reports" None).
Proof.
  split; [|split; [|split; [|split; [|split]]]].
  - intros v Hv Hne.
    assert (Hq : Mcp.workspace_qs (Some (JObj args)) = "?workspace_token=" +:+ v).
    { rewrite (mcp_workspace_qs args v Hv). destruct v; [congruence | reflexivity]. }
    unfold Mcp.tool_call. cbn [Mcp.name Mcp.arguments]. cbv beta zeta.
    change (String.eqb "list_cost_reports" "list_workspaces") with false.
    change (String.eqb "list_cost_reports" "list_cost_reports") with true.
    change (String.eqb "list_segments" "list_workspaces") with false.
    change (String.eqb "list_segments" "list_cost_reports") with false.
    change (String.eqb "list_segments" "get_cost_report") with false.
    change (String.eqb "list_segments" "create_cost_report") with false.
    change (String.eqb "list_segments" "list_segments") with true.
    cbv iota. rewrite Hq. repeat split.
  - intros Hv.
    assert (Hq : Mcp.workspace_qs (Some (JObj args)) = "").
    { destruct Hv as [Hv|Hv]; [apply mcp_workspace_qs_absent, Hv|].
      rewrite (mcp_workspace_qs args "" Hv). reflexivity. }
    unfold Mcp.tool_call. cbn [Mcp.name Mcp.arguments]. cbv beta zeta.
    change (String.eqb "list_cost_reports" "list_workspaces") with false.
    change (String.eqb "list_cost_reports" "list_cost_reports") with true.
    change (String.eqb "list_segments" "list_workspaces") with false.
    change (String.eqb "list_segments" "list_cost_reports") with false.
    change (String.eqb "list_segments" "get_cost_report") with false.
    change (String.eqb "list_segments" "create_cost_report") with false.
    change (String.eqb "list_segments" "list_segments") with true.
    cbv iota. rewrite Hq. split; reflexivity.
  - intros t Ht. unfold Mcp.tool_call. cbn [Mcp.name Mcp.arguments get_prop_opt].
    rewrite Ht. reflexivity.
  - intros Ht. unfold Mcp.tool_call. cbn [Mcp.name Mcp.arguments get_prop_opt].
    rewrite Ht. reflexivity.
  - reflexivity.
  - reflexivity.
Qed.

Lemma mcp_tool_paths_witness :
  Mcp.tool_call (fetch_failing "offline") (Mcp.mkEnv None None)
    (Mcp.mkParams "list_cost_reports" (Some (JObj [("workspace_token", JStr "ws 1")])))
  = inl (Mcp.apiRequest (fetch_failing "offline") (Mcp.mkEnv None None) "GET"
           ("/cost_reports?workspace_token=" +:+ "ws 1") None)
  /\ Mcp.tool_call (fetch_failing "offline") (Mcp.mkEnv None None)
       (Mcp.mkParams "list_segments" (Some (JObj [("workspace_token", JStr "ws 1")])))
     = inl (Mcp.apiRequest (fetch_failing "offline") (Mcp.mkEnv None None) "GET"
              ("/segments?workspace_token=" +:+ "ws 1") None)
  /\ Fetch.url (Mcp.apiRequest_args (Mcp.mkEnv None None) "GET"
                  ("/cost_reports?workspace_token=" +:+ "ws 1") None)
     = Mcp.API_BASE (Mcp.mkEnv None None) +:+ "/api/v2/cost_reports?workspace_token=" +:+ "ws 1".
Proof.
  apply (mcp_tool_paths (fetch_failing "offline") (Mcp.mkEnv None None)
           [("workspace_token", JStr "ws 1")]).
  - reflexivity.
  - discriminate.
Defined.

(** ** The dashboard's API client *)

(** X11: the headers of a dashboard API request.  Without a [headers]
    option the request carries the JSON content type, and an Authorization
    header with the bearer token exactly when localStorage holds a
    non-empty 'cloudpulse_token'; the method is GET unless the options name
    one.  With a [headers] option, the headers sent are that option alone:
    the content type and the bearer token are not added to it. *)
Theorem api_request_headers (storage : gmap string string) (endpoint baseUrl : string)
    (m : option string) (b : option string) :
  header_lookup "Content-Type"
    (Fetch.headers (Api.to_fetch (Api.request_args storage endpoint (Api.mkOptions m b None) baseUrl)))
  = Some "application/json"
  /\ (forall t, storage !! "cloudpulse_token" = Some t -> t <> "" ->
      header_lookup "Authorization"
        (Fetch.headers (Api.to_fetch
           (Api.request_args storage endpoint (Api.mkOptions m b None) baseUrl)))
      = Some ("Bearer " +:+ t))
  /\ (storage !! "cloudpulse_token" = None \/ storage !! "cloudpulse_token" = Some "" ->
      header_lookup "Authorization"
        (Fetch.headers (Api.to_fetch
           (Api.request_args storage endpoint (Api.mkOptions m b None) baseUrl)))
      = None)
  /\ Fetch.method (Api.to_fetch
        (Api.request_args storage endpoint (Api.mkOptions m b None) baseUrl))
     = default "GET" m
  /\ Fetch.url (Api.to_fetch
        (Api.request_args storage endpoint (Api.mkOptions m b None) baseUrl))
     = baseUrl +:+ endpoint
  /\ (forall h,
        Fetch.headers (Api.to_fetch
          (Api.request_args storage endpoint (Api.mkOptions m b (Some h)) baseUrl)) = h).
Proof.
  unfold Api.request_args, Api.to_fetch.
  cbn [Api.opt_headers Api.opt_method Api.opt_body Api.init_headers Api.init_method
       Api.init_url Api.init_body Fetch.headers Fetch.method Fetch.url default].
  split; [|split; [|split; [|split; [|split]]]]; try reflexivity.
  - destruct (storage !! "cloudpulse_token") as [t|]; [destruct (truthy_string t)|];
      reflexivity.
  - intros t -> Hne. destruct t; [congruence | reflexivity].
  - intros [-> | ->]; reflexivity.
Qed.

Lemma api_request_headers_witness :
  header_lookup "Authorization"
    (Fetch.headers (Api.to_fetch
       (Api.request_args {[ "cloudpulse_token" := "tok" ]} "/accounts"
          (Api.mkOptions None None None) "/api/v1")))
  = Some ("Bearer " +:+ "tok").
Proof.
  apply (api_request_headers {[ "cloudpulse_token" := "tok" ]} "/accounts" "/api/v1" None None).
  - reflexivity.
  - discriminate.
Defined.

(** X12: the dashboard's [request] returns a value only when [fetch]
    resolved with a status in 200..299 and the body parsed to that value.
    For another status it throws an Error whose message is the [detail] of
    a JSON object body when that is a non-empty string, 'API request
    failed' when the object has no detail, and the status text (or
    'API request failed' when that is empty) when the body is not JSON. *)
Theorem api_request_outcomes (fetch : Fetch.fetch_fn) (storage : gmap string string)
    (endpoint : string) (o : Api.options) (baseUrl : string) :
  (forall result, Api.request fetch storage endpoint o baseUrl = Return result ->
     exists res,
       fetch (Api.to_fetch (Api.request_args storage endpoint o baseUrl)) = Return res
       /\ 200 <= Fetch.status res <= 299
       /\ Fetch.json_body res = Return result)
  /\ (forall res,
        fetch (Api.to_fetch (Api.request_args storage endpoint o baseUrl)) = Return res ->
        ~ (200 <= Fetch.status res <= 299) ->
        (forall ms d, Fetch.json_body res = Return (JObj ms) ->
            lookup_member "detail" ms = Some (JStr d) -> d <> "" ->
            Api.request fetch storage endpoint o baseUrl = Throw (mkError "Error" d))
        /\ (forall ms, Fetch.json_body res = Return (JObj ms) ->
            lookup_member "detail" ms = None ->
            Api.request fetch storage endpoint o baseUrl
            = Throw (mkError "Error" "API request failed"))
        /\ (forall err, Fetch.json_body res = Throw err ->
            Api.request fetch storage endpoint o baseUrl
            = Throw (mkError "Error"
                       (if String.eqb (Fetch.statusText res) "" then "API request failed"
                        else Fetch.statusText res)))).
Proof.
  unfold Api.request. split.
  - intros result H.
    destruct (fetch (Api.to_fetch (Api.request_args storage endpoint o baseUrl)))
      as [res|err]; [|discriminate].
    cbn [bind] in H. destruct (Fetch.ok res) eqn:Hok.
    + exists res. split; [reflexivity|]. split; [apply ok_range, Hok | exact H].
    + exfalso. cbn [negb] in H.
      destruct (Fetch.json_body res) as [[| | | | |ms]|err]; cbn in H; discriminate.
  - intros res -> Hs. cbn [bind].
    destruct (Fetch.ok res) eqn:Hok; [apply ok_range in Hok; contradiction|].
    cbn [negb]. split; [|split].
    + intros ms d -> Hd Hne. cbn [try_catch bind get_prop]. rewrite Hd.
      cbn [truthy truthy_json to_string to_string_json].
      destruct d; [congruence | reflexivity].
    + intros ms -> Hd. cbn [try_catch bind get_prop]. rewrite Hd. reflexivity.
    + intros err ->. cbn [try_catch bind get_prop lookup_member].
      change (String.eqb "detail" "detail") with true. cbv iota.
      cbn [truthy truthy_json to_string to_string_json].
      destruct (String.eqb (Fetch.statusText res) ""); reflexivity.
Qed.

Lemma api_request_outcomes_witness :
  exists res,
    (fun _ : Fetch.request => Return (Fetch.mkResponse 200 "OK" (Return (JArr []))))
      (Api.to_fetch (Api.request_args ∅ "/accounts" Api.no_options Api.BASE_URL)) = Return res
    /\ 200 <= Fetch.status res <= 299
    /\ Fetch.json_body res = Return (JArr []).
Proof.
  apply (api_request_outcomes
           (fun _ => Return (Fetch.mkResponse 200 "OK" (Return (JArr []))))
           ∅ "/accounts" Api.no_options Api.BASE_URL).
  reflexivity.
Defined.

Lemma set_if_truthy_fresh (params : Url.URLSearchParams) (k : string) (x : value) :
  ~ In k (List.map fst params) ->
  List.map Url.serialize_pair (ApiCalls.set_if_truthy params k x)
  = (List.map Url.serialize_pair params ++ query_component (Url.urlencode k) x)%list.
Proof.
  intros Hk. unfold ApiCalls.set_if_truthy, query_component.
  destruct (truthy x).
  - rewrite (set_fresh params k _ Hk), List.map_app. reflexivity.
  - now rewrite app_nil_r.
Qed.

Lemma set_if_truthy_names (params : Url.URLSearchParams) (k : string) (x : value) (k' : string) :
  In k' (List.map fst (ApiCalls.set_if_truthy params k x)) ->
  In k' (List.map fst params) \/ k' = k.
Proof.
  unfold ApiCalls.set_if_truthy. destruct (truthy x); [|auto].
  induction params as [|[a b] params IH]; cbn [Url.set List.map fst In].
  - intros [<-|[]]. auto.
  - destruct (String.eqb a k) eqn:E.
    + apply String.eqb_eq in E. subst a. cbn [List.map fst In]. intros [<-|H]; [auto|].
      left. right. unfold Url.remove_name in H. apply in_map_iff in H.
      destruct H as (p & <- & Hp). apply filter_In in Hp. apply in_map, Hp.
    + cbn [List.map fst In]. intros [<-|H]; [auto|].
      destruct (IH H); auto.
Qed.

(** X13: the date-filtered calls of the dashboard client.  [getCosts]
    requests /accounts/<id>/costs? followed by the form-encoded start_date
    and end_date that are truthy, in that order and joined by an
    ampersand; [getAnomalies] does the same with start_date, end_date and
    severity, and [syncCloudAccount] with the two dates.  With no filter
    given the endpoint ends in the bare question mark. *)
Theorem api_date_filter_endpoints (id startDate endDate : value)
    (opts : list (string * json)) :
  ApiCalls.getCosts_endpoint id startDate endDate
  = "/accounts/" +:+ to_string id +:+ "/costs?"
      +:+ join "&" (query_component "start_date" startDate
                    ++ query_component "end_date" endDate)
  /\ ApiCalls.syncCloudAccount_endpoint id startDate endDate
     = "/cloud_accounts/" +:+ to_string id +:+ "/sync?"
         +:+ join "&" (query_component "start_date" startDate
                       ++ query_component "end_date" endDate)
  /\ ApiCalls.getAnomalies_endpoint id opts
     = "/accounts/" +:+ to_string id +:+ "/anomalies?"
         +:+ join "&" (query_component "start_date" (lookup_member "startDate" opts)
                       ++ query_component "end_date" (lookup_member "endDate" opts)
                       ++ query_component "severity" (lookup_member "severity" opts))
  /\ ApiCalls.getCosts_endpoint id None None = "/accounts/" +:+ to_string id +:+ "/costs?"
  /\ ApiCalls.getAnomalies_endpoint id [] = "/accounts/" +:+ to_string id +:+ "/anomalies?".
Proof.
  assert (H2 : forall a b : value,
             Url.toString (ApiCalls.set_if_truthy
                             (ApiCalls.set_if_truthy [] "start_date" a) "end_date" b)
             = join "&" (query_component "start_date" a ++ query_component "end_date" b)).
  { intros a b. unfold Url.toString.
    rewrite set_if_truthy_fresh.
    - rewrite set_if_truthy_fresh by (intros []). reflexivity.
    - intros Hin. apply set_if_truthy_names in Hin. destruct Hin as [[]|Hin]. discriminate. }
  split; [|split; [|split; [|split]]].
  - unfold ApiCalls.getCosts_endpoint. cbv zeta. now rewrite H2.
  - unfold ApiCalls.syncCloudAccount_endpoint. cbv zeta. now rewrite H2.
  - unfold ApiCalls.getAnomalies_endpoint. cbv zeta. unfold Url.toString.
    rewrite set_if_truthy_fresh.
    + rewrite set_if_truthy_fresh.
      * rewrite set_if_truthy_fresh by (intros []). now rewrite <- app_assoc.
      * intros Hin. apply set_if_truthy_names in Hin. destruct Hin as [[]|Hin]. discriminate.
    + intros Hin. apply set_if_truthy_names in Hin. destruct Hin as [Hin|Hin]; [|discriminate].
      apply set_if_truthy_names in Hin. destruct Hin as [[]|Hin]. discriminate.
  - unfold ApiCalls.getCosts_endpoint. cbn. now rewrite !append_nil_r'.
  - unfold ApiCalls.getAnomalies_endpoint. cbn. now rewrite !append_nil_r'.
Qed.

(** ** Budgets: more on the statistics, the badge and deleting *)

Section BudgetExtras64.
Import PrimFloat Number Budgets64.
Local Open Scope float_scope.

Lemma ltb_leb (x y : float) : (x <? y) = true -> (x <=? y) = true.
Proof.
  rewrite FloatAxioms.ltb_spec, FloatAxioms.leb_spec.
  unfold SpecFloat.SFltb, SpecFloat.SFleb.
  destruct (SpecFloat.SFcompare (FloatOps.Prim2SF x) (FloatOps.Prim2SF y)) as [[]|];
    congruence.
Qed.

Lemma is_neg_zero_eq (x : float) : is_neg_zero x = true <-> x = neg_zero.
Proof. apply FloatAxioms.Leibniz.eqb_spec. Qed.

(** A number that is at most 0 and not below 0 is one of the two zeros. *)
Lemma zero_cases (x : float) :
  (x <=? 0) = true -> (x <? 0) = false -> x = 0 \/ x = neg_zero.
Proof.
  rewrite FloatAxioms.ltb_spec, FloatAxioms.leb_spec.
  unfold SpecFloat.SFltb, SpecFloat.SFleb.
  change (FloatOps.Prim2SF 0) with (SpecFloat.S754_zero false).
  intros H1 H2.
  assert (Hz : exists s, FloatOps.Prim2SF x = SpecFloat.S754_zero s).
  { destruct (FloatOps.Prim2SF x) as [s|s| |s m e]; cbn in H1, H2;
      [eauto | destruct s; discriminate | discriminate | destruct s; discriminate]. }
  destruct Hz as [s Hz].
  rewrite <- (FloatAxioms.SF2Prim_Prim2SF x), Hz.
  destruct s; [right | left]; reflexivity.
Qed.

Lemma Math_max_0_positive (d : float) : (0 <? d) = true -> Math_max d 0 = d.
Proof.
  intros Hd. rewrite Math_max_0.
  destruct (ltb_not_nan _ _ Hd) as [_ Hn]. rewrite Hn.
  assert (Hi : (neg_infinity <? d) = true).
  { apply (ltb_leb_trans neg_infinity 0 d); [reflexivity | apply ltb_leb, Hd]. }
  rewrite Hi.
  destruct (is_neg_zero d) eqn:Hz.
  - apply is_neg_zero_eq in Hz. subst d. discriminate Hd.
  - rewrite (leb_ltb_false 0 d (ltb_leb _ _ Hd)). reflexivity.
Qed.

Lemma Math_max_0_nonpositive (d : float) : (d <=? 0) = true -> Math_max d 0 = 0.
Proof.
  intros Hd. rewrite Math_max_0.
  destruct (leb_not_nan _ _ Hd) as [Hn _]. rewrite Hn.
  destruct (neg_infinity <? d) eqn:Hi; [|reflexivity].
  destruct (is_neg_zero d) eqn:Hz; [reflexivity|].
  destruct (d <? 0) eqn:Hl; [reflexivity|].
  destruct (zero_cases d Hd Hl) as [->| ->]; [reflexivity | discriminate Hz].
Qed.

(** X14: the counts of the summary statistics add up over a concatenation
    of two lists of budgets; the totals do not: for the concatenation,
    [total] and [spent] continue the left-to-right binary64 sum of the first
    list through the second, which is not the sum of the two totals (amounts
    0.1, then 0.2 and 0.3: 0.6000000000000001 against 0.6). *)
Theorem budget_stats_concat (bs1 bs2 : list budget) :
  overBudget (stats (bs1 ++ bs2)) = (overBudget (stats bs1) + overBudget (stats bs2))%nat
  /\ atRisk (stats (bs1 ++ bs2)) = (atRisk (stats bs1) + atRisk (stats bs2))%nat
  /\ total (stats (bs1 ++ bs2))
     = fold_left (fun s b => s + amount b) bs2 (total (stats bs1))
  /\ spent (stats (bs1 ++ bs2))
     = fold_left (fun s b => s + current_spend b) bs2 (spent (stats bs1))
  /\ total (stats ([mkBudget 0.1 0 0.8] ++ [mkBudget 0.2 0 0.8; mkBudget 0.3 0 0.8]))
     = 0.6000000000000001
  /\ total (stats [mkBudget 0.1 0 0.8])
       + total (stats [mkBudget 0.2 0 0.8; mkBudget 0.3 0 0.8]) = 0.6
  /\ (0.6 <? 0.6000000000000001) = true.
Proof.
  cbn [stats total spent overBudget atRisk].
  rewrite !List.filter_app, !length_app, !fold_left_app.
  repeat split; reflexivity.
Qed.

(** X16: the remaining amount is Math.max of the binary64 difference
    total - spent and 0: it is that difference when the difference is
    positive, 0 when the difference is at most 0 (a negative zero
    included), and NaN when the difference is NaN; so it is positive
    exactly when the difference is, and never below 0.  The difference is
    that of the rounded sums: budgets of 0.1 and 0.2 spent to 0.3 leave
    5.551115123125783e-17. *)
Theorem budget_remaining_cases (bs : list budget) :
  ((0 <? total (stats bs) - spent (stats bs)) = true ->
   remaining (stats bs) = total (stats bs) - spent (stats bs))
  /\ ((total (stats bs) - spent (stats bs) <=? 0) = true -> remaining (stats bs) = 0)
  /\ (is_nan (total (stats bs) - spent (stats bs)) = true ->
      is_nan (remaining (stats bs)) = true)
  /\ ((0 <? remaining (stats bs)) = true
      <-> (0 <? total (stats bs) - spent (stats bs)) = true)
  /\ (remaining (stats bs) <? 0) = false
  /\ remaining (stats [mkBudget 0.1 0.3 0.8; mkBudget 0.2 0 0.8])
     = 5.551115123125783e-17.
Proof.
  cbn [stats remaining total spent].
  set (d := fold_left (fun s b => s + amount b) bs 0
            - fold_left (fun s b => s + current_spend b) bs 0).
  split; [apply Math_max_0_positive|].
  split; [apply Math_max_0_nonpositive|].
  split; [intros Hn; unfold Math_max; rewrite Hn; reflexivity|].
  split; [|split; [apply Math_max_0_bound | reflexivity]].
  split.
  - intros Hr. destruct (0 <? d) eqn:Hd; [reflexivity|].
    destruct (is_nan d) eqn:Hn.
    + unfold Math_max in Hr. rewrite Hn in Hr. discriminate Hr.
    + rewrite (Math_max_0_nonpositive d) in Hr; [discriminate Hr|].
      apply ltb_false_leb; [reflexivity | exact Hn | exact Hd].
  - intros Hd. rewrite (Math_max_0_positive d Hd). exact Hd.
Qed.

Lemma budget_remaining_cases_witness :
  remaining (stats [mkBudget 100 20 0.8]) = total (stats [mkBudget 100 20 0.8])
                                             - spent (stats [mkBudget 100 20 0.8]).
Proof. apply (budget_remaining_cases [mkBudget 100 20 0.8]). reflexivity. Defined.

End BudgetExtras64.

Section BudgetExtras.
Import Budgets.
Local Open Scope Q_scope.

Lemma over_not_at_risk (b : budget) :
  0 < amount b -> is_over b = true -> is_at_risk b = false.
Proof.
  intros Hpos Ho. apply is_over_iff in Ho.
  destruct (is_at_risk b) eqn:Hr; [|reflexivity].
  apply is_at_risk_iff in Hr. destruct Hr as [_ Hlt].
  rewrite (pctUsed_ratio b Hpos) in Hlt.
  assert (H1 : 1 < current_spend b / amount b).
  { apply Qlt_shift_div_l; [exact Hpos | lra]. }
  lra.
Qed.

(** X15: when every budget has a positive amount, no budget is counted both
    as over budget and as at risk, so the two counts together never exceed
    the number of budgets. *)
Theorem budget_counts_disjoint (bs : list budget) :
  Forall (fun b => 0 < amount b) bs ->
  Forall (fun b => is_over b = true -> is_at_risk b = false) bs
  /\ (overBudget (stats bs) + atRisk (stats bs) <= length bs)%nat.
Proof.
  intros Hall. cbn [stats overBudget atRisk]. split.
  - induction Hall as [|b bs Hb _ IH]; constructor; [apply over_not_at_risk, Hb | exact IH].
  - induction Hall as [|b bs Hb _ IH]; [cbn; lia|].
    cbn [List.filter length]. pose proof (over_not_at_risk b Hb) as Hd.
    destruct (is_over b); [rewrite (Hd eq_refl)|destruct (is_at_risk b)]; cbn [length]; lia.
Qed.

Lemma budget_counts_disjoint_witness :
  Forall (fun b => is_over b = true -> is_at_risk b = false)
    [mkBudget 100 120 (4 # 5); mkBudget 50 45 (4 # 5)]
  /\ (overBudget (stats [mkBudget 100 120 (4 # 5); mkBudget 50 45 (4 # 5)])
      + atRisk (stats [mkBudget 100 120 (4 # 5); mkBudget 50 45 (4 # 5)])
      <= length [mkBudget 100 120 (4 # 5); mkBudget 50 45 (4 # 5)])%nat.
Proof.
  apply (budget_counts_disjoint [mkBudget 100 120 (4 # 5); mkBudget 50 45 (4 # 5)]).
  repeat constructor.
Defined.

Lemma badge_rank_cases (p a : Q) :
  badge_rank (BudgetStatusBadge p a)
  = if geb p 1 then 2%nat else if geb p a then 1%nat else 0%nat.
Proof. unfold BudgetStatusBadge. destruct (geb p 1), (geb p a); reflexivity. Qed.

(** X17: a larger used share never improves the status: for the same alert
    level, if pctUsed grows the badge stays or moves from 'On Track'
    towards 'Warning' and 'Over Budget', and the progress bar does not
    get shorter. *)
Theorem budget_status_monotone (p p' a : Q) :
  p <= p' ->
  (badge_rank (BudgetStatusBadge p a) <= badge_rank (BudgetStatusBadge p' a))%nat
  /\ width (ProgressBar p a) <= width (ProgressBar p' a).
Proof.
  intros Hle. split.
  - rewrite !badge_rank_cases.
    destruct (geb p 1) eqn:H1; [apply geb_true in H1 | apply geb_false in H1];
      (destruct (geb p' 1) eqn:H1'; [apply geb_true in H1' | apply geb_false in H1']);
      (destruct (geb p a) eqn:H2; [apply geb_true in H2 | apply geb_false in H2]);
      (destruct (geb p' a) eqn:H2'; [apply geb_true in H2' | apply geb_false in H2']);
      first [lia | exfalso; lra].
  - cbn [ProgressBar width]. apply Q.min_le_compat_r. lra.
Qed.

Lemma budget_status_monotone_witness :
  (badge_rank (BudgetStatusBadge (1 # 2) (4 # 5))
   <= badge_rank (BudgetStatusBadge (9 # 10) (4 # 5)))%nat
  /\ width (ProgressBar (1 # 2) (4 # 5)) <= width (ProgressBar (9 # 10) (4 # 5)).
Proof. apply (budget_status_monotone (1 # 2) (9 # 10) (4 # 5)). vm_compute. discriminate. Defined.

(** X18: a budget whose amount is zero or negative has a used share of 0:
    with a positive alert level its badge is 'On Track' and its bar is
    empty whatever was spent, although the statistics count it as over
    budget as soon as its spend exceeds its amount. *)
Theorem budget_without_amount (b : budget) :
  amount b <= 0 ->
  pctUsed b = 0
  /\ width (ProgressBar (pctUsed b) (alert_at_pct b)) == 0
  /\ (0 < alert_at_pct b ->
      label (BudgetStatusBadge (pctUsed b) (alert_at_pct b)) = "On Track")
  /\ (amount b < current_spend b -> is_over b = true)
  /\ (is_at_risk b = true <-> alert_at_pct b <= 0).
Proof.
  intros Hle.
  assert (Hp : pctUsed b = 0).
  { unfold pctUsed. destruct (gtb (amount b) 0) eqn:E; [|reflexivity].
    apply gtb_true in E. lra. }
  split; [exact Hp|]. split; [|split; [|split]].
  - rewrite Hp. cbn [ProgressBar width]. apply Q.min_l. lra.
  - intros Ha. rewrite Hp. apply (badge_label_cases 0 (alert_at_pct b)). lra.
  - apply is_over_iff.
  - rewrite is_at_risk_iff, Hp. split; [tauto | intros; split; lra].
Qed.

Lemma budget_without_amount_witness :
  pctUsed (mkBudget 0 30 (4 # 5)) = 0
  /\ width (ProgressBar (pctUsed (mkBudget 0 30 (4 # 5))) (4 # 5)) == 0
  /\ (0 < 4 # 5 ->
      label (BudgetStatusBadge (pctUsed (mkBudget 0 30 (4 # 5))) (4 # 5)) = "On Track")
  /\ (0 < 30 -> is_over (mkBudget 0 30 (4 # 5)) = true)
  /\ (is_at_risk (mkBudget 0 30 (4 # 5)) = true <-> 4 # 5 <= 0).
Proof. apply (budget_without_amount (mkBudget 0 30 (4 # 5))). vm_compute. discriminate. Defined.

End BudgetExtras.

Lemma filter_map_filter_le {A B : Type} (f : B -> bool) (g : A -> bool) (h : A -> B)
    (l : list A) :
  (length (List.filter f (List.map h (List.filter g l)))
   <= length (List.filter f (List.map h l)))%nat.
Proof.
  induction l as [|x l IH]; [reflexivity|].
  cbn [List.filter List.map]. destruct (g x); cbn [List.map List.filter];
    destruct (f (h x)); cbn [length]; lia.
Qed.

Section BudgetDelete.
Import PrimFloat.

Lemma handleDelete_ok (fetch : Fetch.fetch_fn) (storage : gmap string string)
    (budgetId : value) (rendered : BudgetsPage.page) (ok : json) :
  ApiCalls.deleteBudget fetch storage budgetId = Return ok ->
  forall s,
    BudgetsPage.handleDelete fetch storage budgetId rendered s
    = BudgetsPage.mkPage
        (List.filter (BudgetsPage.other_id budgetId) (BudgetsPage.budgets rendered))
        (if Anomalies.strict_eq (BudgetsPage.selected_id rendered) budgetId
         then None else BudgetsPage.selectedBudget s).
Proof. intros H s. unfold BudgetsPage.handleDelete. rewrite H. reflexivity. Qed.

(** X19: deleting a budget.  The handler works on the [budgets] and
    [selectedBudget] of the render it belongs to.  When the API call
    succeeds, the list becomes the budgets of that render with another id,
    in their order, whatever the list had become in the meantime; the
    selection is cleared when the selection of that render had the id and
    is otherwise left as it is; neither count of the statistics exceeds
    that of the render.  So when nothing changed since the render, exactly
    the budgets with another id stay and the selection is cleared exactly
    when it had the deleted id; but of two deletions started from the same
    render the one that completes last lists the budget of the other
    again.  When the call fails, the page state is unchanged. *)
Theorem delete_budget_frame (fetch : Fetch.fetch_fn) (storage : gmap string string)
    (budgetId : value) (rendered s : BudgetsPage.page) :
  (forall ok, ApiCalls.deleteBudget fetch storage budgetId = Return ok ->
     (forall b, In b (BudgetsPage.budgets
                        (BudgetsPage.handleDelete fetch storage budgetId rendered s))
                <-> In b (BudgetsPage.budgets rendered)
                    /\ Anomalies.strict_eq (BudgetsPage.id b) budgetId = false)
     /\ sublist (BudgetsPage.budgets
                   (BudgetsPage.handleDelete fetch storage budgetId rendered s))
          (BudgetsPage.budgets rendered)
     /\ BudgetsPage.selectedBudget
          (BudgetsPage.handleDelete fetch storage budgetId rendered s)
        = (if Anomalies.strict_eq (BudgetsPage.selected_id rendered) budgetId
           then None else BudgetsPage.selectedBudget s)
     /\ (forall sel,
           BudgetsPage.selectedBudget
             (BudgetsPage.handleDelete fetch storage budgetId s s) = Some sel
           <-> BudgetsPage.selectedBudget s = Some sel
               /\ Anomalies.strict_eq (BudgetsPage.id sel) budgetId = false)
     /\ (Budgets64.overBudget
           (BudgetsPage.stats (BudgetsPage.handleDelete fetch storage budgetId rendered s))
         <= Budgets64.overBudget (BudgetsPage.stats rendered))%nat
     /\ (Budgets64.atRisk
           (BudgetsPage.stats (BudgetsPage.handleDelete fetch storage budgetId rendered s))
         <= Budgets64.atRisk (BudgetsPage.stats rendered))%nat
     /\ (forall (first : value) (b : BudgetsPage.row),
           In b (BudgetsPage.budgets rendered) ->
           Anomalies.strict_eq (BudgetsPage.id b) first = true ->
           Anomalies.strict_eq (BudgetsPage.id b) budgetId = false ->
           In b (BudgetsPage.budgets
                   (BudgetsPage.handleDelete fetch storage budgetId rendered
                      (BudgetsPage.handleDelete fetch storage first rendered rendered)))))
  /\ (forall e, ApiCalls.deleteBudget fetch storage budgetId = Throw e ->
      BudgetsPage.handleDelete fetch storage budgetId rendered s = s).
Proof.
  split.
  - intros ok Hok.
    pose proof (handleDelete_ok fetch storage budgetId rendered ok Hok) as Hd.
    assert (Hin : forall s0 b,
               In b (BudgetsPage.budgets
                       (BudgetsPage.handleDelete fetch storage budgetId rendered s0))
               <-> In b (BudgetsPage.budgets rendered)
                   /\ Anomalies.strict_eq (BudgetsPage.id b) budgetId = false).
    { intros s0 b. rewrite Hd. cbn [BudgetsPage.budgets].
      rewrite filter_In. unfold BudgetsPage.other_id.
      rewrite negb_true_iff. reflexivity. }
    split; [apply Hin|]. split; [|split; [|split; [|split; [|split]]]].
    + rewrite Hd. cbn [BudgetsPage.budgets]. clear Hd Hin.
      induction (BudgetsPage.budgets rendered) as [|b l IH]; [constructor|].
      cbn [List.filter]. destruct (BudgetsPage.other_id budgetId b);
        [apply sublist_skip | apply sublist_cons]; exact IH.
    + rewrite Hd. reflexivity.
    + intros sel.
      rewrite (handleDelete_ok fetch storage budgetId s ok Hok).
      cbn [BudgetsPage.selectedBudget]. unfold BudgetsPage.selected_id.
      destruct (BudgetsPage.selectedBudget s) as [x|].
      * destruct (Anomalies.strict_eq (BudgetsPage.id x) budgetId) eqn:E.
        -- split; [discriminate | intros [[= ->] H]; congruence].
        -- split; [intros [= ->]; auto | intros [H _]; exact H].
      * destruct (Anomalies.strict_eq None budgetId);
          (split; [discriminate | intros [H _]; discriminate]).
    + rewrite Hd. apply filter_map_filter_le.
    + rewrite Hd. apply filter_map_filter_le.
    + intros first b Hb _ Hne. apply Hin. split; assumption.
  - intros e He. unfold BudgetsPage.handleDelete. rewrite He. reflexivity.
Qed.

Lemma delete_budget_frame_witness :
  BudgetsPage.budgets
    (BudgetsPage.handleDelete (fetch_answering 200 JNull) ∅ (Some (JNum 7))
       (BudgetsPage.mkPage
          [BudgetsPage.mkRow (Some (JNum 7)) (Budgets64.mkBudget 100 20 0.8);
           BudgetsPage.mkRow (Some (JNum 8)) (Budgets64.mkBudget 50 60 0.8)]
          (Some (BudgetsPage.mkRow (Some (JNum 7)) (Budgets64.mkBudget 100 20 0.8))))
       (BudgetsPage.mkPage
          [BudgetsPage.mkRow (Some (JNum 7)) (Budgets64.mkBudget 100 20 0.8);
           BudgetsPage.mkRow (Some (JNum 8)) (Budgets64.mkBudget 50 60 0.8)]
          (Some (BudgetsPage.mkRow (Some (JNum 7)) (Budgets64.mkBudget 100 20 0.8)))))
  = [BudgetsPage.mkRow (Some (JNum 8)) (Budgets64.mkBudget 50 60 0.8)]
  /\ BudgetsPage.selectedBudget
       (BudgetsPage.handleDelete (fetch_answering 200 JNull) ∅ (Some (JNum 7))
          (BudgetsPage.mkPage
             [BudgetsPage.mkRow (Some (JNum 7)) (Budgets64.mkBudget 100 20 0.8);
              BudgetsPage.mkRow (Some (JNum 8)) (Budgets64.mkBudget 50 60 0.8)]
             (Some (BudgetsPage.mkRow (Some (JNum 7)) (Budgets64.mkBudget 100 20 0.8))))
          (BudgetsPage.mkPage
             [BudgetsPage.mkRow (Some (JNum 7)) (Budgets64.mkBudget 100 20 0.8);
              BudgetsPage.mkRow (Some (JNum 8)) (Budgets64.mkBudget 50 60 0.8)]
             (Some (BudgetsPage.mkRow (Some (JNum 7)) (Budgets64.mkBudget 100 20 0.8)))))
     = None.
Proof.
  destruct (delete_budget_frame (fetch_answering 200 JNull) ∅ (Some (JNum 7))
              (BudgetsPage.mkPage
                 [BudgetsPage.mkRow (Some (JNum 7)) (Budgets64.mkBudget 100 20 0.8);
                  BudgetsPage.mkRow (Some (JNum 8)) (Budgets64.mkBudget 50 60 0.8)]
                 (Some (BudgetsPage.mkRow (Some (JNum 7)) (Budgets64.mkBudget 100 20 0.8))))
              (BudgetsPage.mkPage
                 [BudgetsPage.mkRow (Some (JNum 7)) (Budgets64.mkBudget 100 20 0.8);
                  BudgetsPage.mkRow (Some (JNum 8)) (Budgets64.mkBudget 50 60 0.8)]
                 (Some (BudgetsPage.mkRow (Some (JNum 7)) (Budgets64.mkBudget 100 20 0.8)))))
    as [Hok _].
  destruct (Hok JNull eq_refl) as (_ & _ & Hsel & _).
  split; [reflexivity | exact Hsel].
Defined.

End BudgetDelete.

(** ** Anomalies: counters, the severity filter and acknowledging *)

Lemma acknowledge_severity (id : value) (s : string) (a : Anomalies.anomaly) :
  AnomalyViews.severity_is s (Anomalies.acknowledge id a) = AnomalyViews.severity_is s a.
Proof.
  unfold AnomalyViews.severity_is. rewrite acknowledge_fields by discriminate. reflexivity.
Qed.

Lemma acknowledge_idempotent (id : value) (a : Anomalies.anomaly) :
  Anomalies.acknowledge id (Anomalies.acknowledge id a) = Anomalies.acknowledge id a.
Proof.
  unfold Anomalies.acknowledge at 2.
  destruct (Anomalies.strict_eq (lookup_member "id" a) id) eqn:E.
  - unfold Anomalies.acknowledge. rewrite lookup_set_member_ne by discriminate.
    rewrite E. clear E. induction a as [|[k v] a IH]; cbn [set_member].
    + change (String.eqb "acknowledged" "acknowledged") with true. reflexivity.
    + destruct (String.eqb k "acknowledged") eqn:Ek; cbn [set_member]; rewrite Ek;
        [reflexivity | now rewrite IH].
  - unfold Anomalies.acknowledge. now rewrite E.
Qed.

Lemma filter_map_ext_bool {A : Type} (f : A -> bool) (h : A -> A) (l : list A) :
  (forall x, f (h x) = f x) ->
  List.filter f (List.map h l) = List.map h (List.filter f l).
Proof.
  intros H. induction l as [|x l IH]; [reflexivity|].
  cbn [List.map List.filter]. rewrite H. destruct (f x); cbn [List.map]; now rewrite IH.
Qed.

(** X20: acknowledging and the severity tabs.  After a successful
    [handleAcknowledge], the anomalies shown under any filter ('all' or a
    severity) are the ones shown before, each acknowledged if it has the
    given id: no anomaly enters or leaves a tab; the total and the critical
    counters keep their values; and acknowledging the same id a second time
    changes nothing. *)
Theorem acknowledge_keeps_tabs (fetch : Fetch.fetch_fn) (storage : gmap string string)
    (id : value) (anomalies : list Anomalies.anomaly) (ok : json) (f : string) :
  Api.acknowledgeAnomaly fetch storage id = Return ok ->
  AnomalyViews.filtered f (Anomalies.handleAcknowledge fetch storage id anomalies)
  = List.map (Anomalies.acknowledge id) (AnomalyViews.filtered f anomalies)
  /\ AnomalyViews.stats_total (Anomalies.handleAcknowledge fetch storage id anomalies)
     = AnomalyViews.stats_total anomalies
  /\ AnomalyViews.stats_critical (Anomalies.handleAcknowledge fetch storage id anomalies)
     = AnomalyViews.stats_critical anomalies
  /\ Anomalies.handleAcknowledge fetch storage id
       (Anomalies.handleAcknowledge fetch storage id anomalies)
     = Anomalies.handleAcknowledge fetch storage id anomalies.
Proof.
  intros Hok. unfold Anomalies.handleAcknowledge. rewrite Hok.
  split; [|split; [|split]].
  - unfold AnomalyViews.filtered. destruct (String.eqb f "all"); [reflexivity|].
    apply filter_map_ext_bool. intros a. apply acknowledge_severity.
  - apply length_map.
  - unfold AnomalyViews.stats_critical.
    rewrite filter_map_ext_bool by (intros a; apply acknowledge_severity).
    apply length_map.
  - rewrite List.map_map. apply List.map_ext. intros a. apply acknowledge_idempotent.
Qed.

Lemma acknowledge_keeps_tabs_witness :
  AnomalyViews.filtered "critical"
    (Anomalies.handleAcknowledge (fetch_answering 200 JNull) ∅ (Some (JNum 3))
       [[("id", JNum 3); ("severity", JStr "critical"); ("acknowledged", JBool false)]])
  = List.map (Anomalies.acknowledge (Some (JNum 3)))
      (AnomalyViews.filtered "critical"
         [[("id", JNum 3); ("severity", JStr "critical"); ("acknowledged", JBool false)]])
  /\ AnomalyViews.stats_total
       (Anomalies.handleAcknowledge (fetch_answering 200 JNull) ∅ (Some (JNum 3))
          [[("id", JNum 3); ("severity", JStr "critical"); ("acknowledged", JBool false)]])
     = AnomalyViews.stats_total
         [[("id", JNum 3); ("severity", JStr "critical"); ("acknowledged", JBool false)]]
  /\ AnomalyViews.stats_critical
       (Anomalies.handleAcknowledge (fetch_answering 200 JNull) ∅ (Some (JNum 3))
          [[("id", JNum 3); ("severity", JStr "critical"); ("acknowledged", JBool false)]])
     = AnomalyViews.stats_critical
         [[("id", JNum 3); ("severity", JStr "critical"); ("acknowledged", JBool false)]]
  /\ Anomalies.handleAcknowledge (fetch_answering 200 JNull) ∅ (Some (JNum 3))
       (Anomalies.handleAcknowledge (fetch_answering 200 JNull) ∅ (Some (JNum 3))
          [[("id", JNum 3); ("severity", JStr "critical"); ("acknowledged", JBool false)]])
     = Anomalies.handleAcknowledge (fetch_answering 200 JNull) ∅ (Some (JNum 3))
         [[("id", JNum 3); ("severity", JStr "critical"); ("acknowledged", JBool false)]].
Proof.
  apply (acknowledge_keeps_tabs (fetch_answering 200 JNull) ∅ (Some (JNum 3))
           [[("id", JNum 3); ("severity", JStr "critical"); ("acknowledged", JBool false)]]
           JNull "critical").
  reflexivity.
Defined.

(** X21: the unacknowledged counter after a successful [handleAcknowledge]
    is the counter before minus the number of unacknowledged anomalies
    with the given id, so it never grows, and no anomaly with that id is
    counted any more. *)
Theorem acknowledge_lowers_unacked (fetch : Fetch.fetch_fn) (storage : gmap string string)
    (id : value) (anomalies : list Anomalies.anomaly) (ok : json) :
  Api.acknowledgeAnomaly fetch storage id = Return ok ->
  (AnomalyViews.stats_unacked (Anomalies.handleAcknowledge fetch storage id anomalies)
   + length (List.filter
               (fun a => AnomalyViews.unacknowledged a
                         && Anomalies.strict_eq (lookup_member "id" a) id) anomalies)
   = AnomalyViews.stats_unacked anomalies)%nat
  /\ Forall (fun a => Anomalies.strict_eq (lookup_member "id" a) id = true ->
                      AnomalyViews.unacknowledged a = false)
       (Anomalies.handleAcknowledge fetch storage id anomalies).
Proof.
  intros Hok. unfold Anomalies.handleAcknowledge. rewrite Hok.
  unfold AnomalyViews.stats_unacked. split.
  - induction anomalies as [|a l IH]; [reflexivity|].
    cbn [List.map List.filter].
    destruct (Anomalies.strict_eq (lookup_member "id" a) id) eqn:E.
    + assert (Hu : AnomalyViews.unacknowledged (Anomalies.acknowledge id a) = false).
      { unfold AnomalyViews.unacknowledged. now rewrite (acknowledge_matched id a E). }
      rewrite Hu, andb_true_r. destruct (AnomalyViews.unacknowledged a); cbn [length]; lia.
    + rewrite (acknowledge_other id a E), andb_false_r.
      destruct (AnomalyViews.unacknowledged a); cbn [length]; lia.
  - apply List.Forall_forall. intros a' Hin. apply in_map_iff in Hin.
    destruct Hin as (a & <- & _). intros E.
    rewrite acknowledge_fields in E by discriminate.
    unfold AnomalyViews.unacknowledged. now rewrite (acknowledge_matched id a E).
Qed.

Lemma acknowledge_lowers_unacked_witness :
  (AnomalyViews.stats_unacked
     (Anomalies.handleAcknowledge (fetch_answering 200 JNull) ∅ (Some (JNum 3))
        [[("id", JNum 3); ("acknowledged", JBool false)]; [("id", JNum 4)]])
   + length (List.filter
               (fun a => AnomalyViews.unacknowledged a
                         && Anomalies.strict_eq (lookup_member "id" a) (Some (JNum 3)))
               [[("id", JNum 3); ("acknowledged", JBool false)]; [("id", JNum 4)]])
   = AnomalyViews.stats_unacked
       [[("id", JNum 3); ("acknowledged", JBool false)]; [("id", JNum 4)]])%nat
  /\ Forall (fun a => Anomalies.strict_eq (lookup_member "id" a) (Some (JNum 3)) = true ->
                      AnomalyViews.unacknowledged a = false)
       (Anomalies.handleAcknowledge (fetch_answering 200 JNull) ∅ (Some (JNum 3))
          [[("id", JNum 3); ("acknowledged", JBool false)]; [("id", JNum 4)]]).
Proof.
  apply (acknowledge_lowers_unacked (fetch_answering 200 JNull) ∅ (Some (JNum 3))
           [[("id", JNum 3); ("acknowledged", JBool false)]; [("id", JNum 4)]] JNull).
  reflexivity.
Defined.

(** ** AuthProvider: invariants of the reachable states *)

Lemma reachable_quiet (storage : gmap string string) (s : Auth.state) :
  Auth.reachable storage s ->
  Auth.effect_due s = false ->
  (falsy_token (Auth.token s) = true -> Auth.loading s = false)
  /\ (Auth.loading s = true -> Auth.in_flight s <> []).
Proof.
  induction 1 as [|s s' _ IH Hstep]; [discriminate|].
  destruct Hstep as [s Hd|s t r Hd Hin|s access_token Hd|s Hd]; intros Hdue.
  - unfold Auth.effect, falsy_token. destruct (Auth.token s) as [t|] eqn:Et.
    + destruct (truthy_string t) eqn:T; cbn; rewrite ?Et, ?T; cbn.
      * split; [discriminate|]. intros _. destruct (Auth.in_flight s); discriminate.
      * split; [reflexivity | discriminate].
    + cbn. split; [reflexivity | discriminate].
  - assert (Hl : Auth.loading (Auth.settle t r s) = false) by reflexivity.
    split; [auto | congruence].
  - cbn in Hdue. rewrite Hd in Hdue. cbn in Hdue.
    apply negb_false_iff, bool_decide_eq_true in Hdue.
    specialize (IH Hd). rewrite Hdue in IH. exact IH.
  - cbn in Hdue. rewrite Hd in Hdue. cbn in Hdue.
    apply negb_false_iff, bool_decide_eq_true in Hdue.
    specialize (IH Hd). rewrite Hdue in IH. exact IH.
Qed.



(** X23: a user is only ever set by a validation that succeeded: if a step
    of the provider ends with a user that is not null, either that user
    was there before the step, or the step is the settling of an in-flight
    validation whose response was ok and carried that user.  In particular
    [login] stores the token without authenticating, and [logout] leaves
    no user. *)
Theorem user_only_from_validation (s s' : Auth.state) (u : json) :
  Auth.step s s' ->
  Auth.user s' = u ->
  u <> JNull ->
  Auth.user s = u
  \/ exists t r, In t (Auth.in_flight s) /\ s' = Auth.settle t r s
                 /\ Auth.validated r = Return u.
Proof.
  intros Hstep Hu Hnn. destruct Hstep as [s Hd|s t r Hd Hin|s access_token Hd|s Hd].
  - left. destruct (effect_fields s) as (_ & Hus & _). congruence.
  - destruct (validation_failed r) eqn:Hf.
    + destruct (settle_failed t r s Hf) as (Hn & _). congruence.
    + right. exists t, r. split; [exact Hin|]. split; [reflexivity|].
      destruct (validation_not_failed r Hf) as (res & u' & _ & _ & _ & Hv).
      destruct (settle_ok_fields t r u' s Hv) as (Hus & _). congruence.
  - left. exact Hu.
  - cbn in Hu. congruence.
Qed.

Lemma user_only_from_validation_witness :
  Auth.user (Auth.effect (Auth.initial {[ "cloudpulse_token" := "tok" ]}))
  = JObj [("email", JStr "a@b.c")]
  \/ exists t r,
       In t (Auth.in_flight (Auth.effect (Auth.initial {[ "cloudpulse_token" := "tok" ]})))
       /\ Auth.settle "tok" (me_ok (JObj [("email", JStr "a@b.c")]))
            (Auth.effect (Auth.initial {[ "cloudpulse_token" := "tok" ]}))
          = Auth.settle t r (Auth.effect (Auth.initial {[ "cloudpulse_token" := "tok" ]}))
       /\ Auth.validated r = Return (JObj [("email", JStr "a@b.c")]).
Proof.
  apply (user_only_from_validation
           (Auth.effect (Auth.initial {[ "cloudpulse_token" := "tok" ]}))
           (Auth.settle "tok" (me_ok (JObj [("email", JStr "a@b.c")]))
              (Auth.effect (Auth.initial {[ "cloudpulse_token" := "tok" ]})))).
  - apply Auth.step_settle; [reflexivity | left; reflexivity].
  - reflexivity.
  - discriminate.
Defined.

Lemma logout_in_flight (s : Auth.state) :
  Auth.in_flight (Auth.logout s) = Auth.in_flight s.
Proof. reflexivity. Qed.

(** X24: a validation that is still in flight survives [logout].  From
    any reachable state with a validation in flight, calling [logout] and
    then receiving the ok response of that validation, carrying a user
    object, leads to a reachable state in which [user] is set and
    [isAuthenticated] is true while [token] is null and localStorage has no
    token: the provider reports a signed-in user for a signed-out session,
    and [AppRoutes] shows the application. *)
Theorem late_validation_after_logout (storage : gmap string string) (s : Auth.state)
    (t : string) (u : list (string * json)) :
  Auth.reachable storage s ->
  In t (Auth.in_flight s) ->
  Auth.reachable storage
    (Auth.settle t (me_ok (JObj u)) (after_effect (Auth.logout (after_effect s))))
  /\ Auth.user (Auth.settle t (me_ok (JObj u)) (after_effect (Auth.logout (after_effect s))))
     = JObj u
  /\ Auth.token (Auth.settle t (me_ok (JObj u)) (after_effect (Auth.logout (after_effect s))))
     = None
  /\ Auth.localStorage
       (Auth.settle t (me_ok (JObj u)) (after_effect (Auth.logout (after_effect s))))
       !! Auth.TOKEN_KEY = None
  /\ Auth.isAuthenticated
       (Auth.render
          (Auth.settle t (me_ok (JObj u)) (after_effect (Auth.logout (after_effect s)))))
     = true
  /\ App.AppRoutes
       (Auth.render
          (Auth.settle t (me_ok (JObj u)) (after_effect (Auth.logout (after_effect s)))))
     = App.Application.
Proof.
  intros Hr Hin.
  pose proof (after_effect_reachable storage s Hr) as Hr1.
  destruct (after_effect_fields s) as (_ & _ & _ & Hd1).
  pose proof (after_effect_in_flight s t Hin) as Hin1.
  set (s1 := after_effect s) in *.
  assert (Hr2 : Auth.reachable storage (Auth.logout s1)).
  { eapply Auth.reach_step; [exact Hr1 | apply Auth.step_logout, Hd1]. }
  pose proof (after_effect_reachable storage _ Hr2) as Hr3.
  destruct (after_effect_fields (Auth.logout s1)) as (Ht3 & _ & Hl3 & Hd3).
  assert (Hin3 : In t (Auth.in_flight (after_effect (Auth.logout s1)))).
  { apply after_effect_in_flight. rewrite logout_in_flight. exact Hin1. }
  destruct (signed_out_after_reset s1) as (_ & Ht & Hl & _).
  fold (Auth.logout s1) in Ht, Hl.
  set (s3 := after_effect (Auth.logout s1)) in *.
  split.
  { eapply Auth.reach_step; [exact Hr3 | apply Auth.step_settle; assumption]. }
  destruct (settle_ok_fields t (me_ok (JObj u)) (JObj u) s3 eq_refl)
    as (Su & St & Sl & Sg & _).
  unfold App.AppRoutes, Auth.render. cbn [Auth.ctx_loading Auth.isAuthenticated].
  rewrite Su, St, Sl, Sg, Ht3, Hl3, Ht, Hl. repeat split.
Qed.

Lemma late_validation_after_logout_witness :
  Auth.user
    (Auth.settle "tok" (me_ok (JObj [("email", JStr "a@b.c")]))
       (after_effect
          (Auth.logout
             (after_effect
                (Auth.effect (Auth.initial {[ "cloudpulse_token" := "tok" ]}))))))
  = JObj [("email", JStr "a@b.c")]
  /\ Auth.token
       (Auth.settle "tok" (me_ok (JObj [("email", JStr "a@b.c")]))
          (after_effect
             (Auth.logout
                (after_effect
                   (Auth.effect (Auth.initial {[ "cloudpulse_token" := "tok" ]}))))))
     = None.
Proof.
  destruct (late_validation_after_logout {[ "cloudpulse_token" := "tok" ]}
              (Auth.effect (Auth.initial {[ "cloudpulse_token" := "tok" ]})) "tok"
              [("email", JStr "a@b.c")]) as (_ & Hu & Ht & _).
  - eapply Auth.reach_step; [apply Auth.reach_initial | apply Auth.step_effect; reflexivity].
  - left. reflexivity.
  - split; [exact Hu | exact Ht].
Defined.

(** X25: what the application shows around signing out and validating.
    From any reachable state (its effect run), the render right after
    [logout] never shows the application, and once the effect of that
    render has run the login page is shown.  The loading splash is shown
    only while an effect is due or a validation is in flight.  A validation
    answered with an ok response whose body is a falsy JSON value (null,
    false, 0, the empty string) ends in the login page with that value as
    [user] and the token kept. *)
Theorem app_routes_screens (storage : gmap string string) (s : Auth.state) :
  Auth.reachable storage s ->
  App.AppRoutes (Auth.render (Auth.logout (after_effect s))) <> App.Application
  /\ App.AppRoutes (Auth.render (after_effect (Auth.logout (after_effect s))))
     = App.LoginScreen
  /\ (App.AppRoutes (Auth.render s) = App.LoadingScreen ->
      Auth.effect_due s = true \/ Auth.in_flight s <> [])
  /\ (forall (t : string) (u : json),
        truthy_json u = false ->
        App.AppRoutes (Auth.render (Auth.settle t (me_ok u) s)) = App.LoginScreen
        /\ Auth.user (Auth.settle t (me_ok u) s) = u
        /\ Auth.token (Auth.settle t (me_ok u) s) = Auth.token s).
Proof.
  intros Hr.
  pose proof (after_effect_reachable storage s Hr) as Hr1.
  destruct (after_effect_fields s) as (_ & _ & _ & Hd1).
  set (s1 := after_effect s) in *.
  split; [|split; [|split]].
  - unfold App.AppRoutes. cbn. destruct (Auth.loading s1); discriminate.
  - unfold after_effect at 1.
    destruct (Auth.effect_due (Auth.logout s1)) eqn:Hd.
    + reflexivity.
    + cbn in Hd. rewrite Hd1 in Hd. cbn in Hd.
      apply negb_false_iff, bool_decide_eq_true in Hd.
      destruct (reachable_quiet storage s1 Hr1 Hd1) as [Hq _].
      unfold App.AppRoutes. cbn. rewrite Hq; [reflexivity|]. now rewrite Hd.
  - unfold App.AppRoutes. cbn. destruct (Auth.loading s) eqn:Hl.
    + intros _. destruct (Auth.effect_due s) eqn:Hd; [left; reflexivity|].
      right. apply (reachable_quiet storage s Hr Hd), Hl.
    + destruct (negb (Auth.not_not (Auth.user s))); discriminate.
  - intros t u Hu.
    destruct (settle_ok_fields t (me_ok u) u s eq_refl) as (Su & St & _ & Sg & _).
    split; [|split; assumption].
    unfold App.AppRoutes, Auth.render. cbn [Auth.ctx_loading Auth.isAuthenticated].
    rewrite Su, Sg. unfold Auth.not_not. rewrite Hu. reflexivity.
Qed.

Lemma app_routes_screens_witness :
  App.AppRoutes
    (Auth.render
       (after_effect
          (Auth.logout
             (after_effect (Auth.initial {[ "cloudpulse_token" := "tok" ]})))))
  = App.LoginScreen.
Proof.
  apply (app_routes_screens {[ "cloudpulse_token" := "tok" ]}
           (Auth.initial {[ "cloudpulse_token" := "tok" ]})).
  apply Auth.reach_initial.
Defined.

(** ** The password strength meter of the login page *)

Lemma existsb_app_mono {A : Type} (f : A -> bool) (l more : list A) :
  (Login.b2n (existsb f l) <= Login.b2n (existsb f (l ++ more)%list))%nat.
Proof.
  rewrite existsb_app. destruct (existsb f l); cbn; [lia|].
  destruct (existsb f more); cbn; lia.
Qed.

Lemma getStrength_le_4 (pw : Login.code_units) : (Login.getStrength pw <= 4)%nat.
Proof.
  unfold Login.getStrength. destruct pw as [|c pw]; [lia|].
  generalize (c :: pw). intros l.
  destruct (8 <=? length l)%nat, (existsb Login.is_upper l), (existsb Login.is_digit l),
    (existsb (fun c => negb (Login.is_upper c || Login.is_lower c || Login.is_digit c)) l);
    cbn; lia.
Qed.

(** X26: the strength score of a password is between 0 and 4, so the label
    and the colour read from the two five-element arrays are always
    defined; the score is 4 exactly when the password has at least 8 code
    units, an upper-case letter, a digit and a character that is neither
    letter nor digit; typing more characters never lowers the score; the
    number of coloured bars is the score; and an empty password shows no
    meter. *)
Theorem password_strength_meter (pw more : Login.code_units) :
  (Login.getStrength pw <= 4)%nat
  /\ (exists l c, nth_error Login.labels (Login.getStrength pw) = Some l
                  /\ nth_error Login.colors (Login.getStrength pw) = Some c)
  /\ (Login.getStrength pw = 4%nat
      <-> (8 <= length pw)%nat
          /\ existsb Login.is_upper pw = true
          /\ existsb Login.is_digit pw = true
          /\ existsb (fun c => negb (Login.is_upper c || Login.is_lower c || Login.is_digit c))
               pw = true)
  /\ (Login.getStrength pw <= Login.getStrength (pw ++ more)%list)%nat
  /\ (Login.PasswordStrength pw = None <-> pw = [])
  /\ (forall m, Login.PasswordStrength pw = Some m ->
      length (List.filter coloured_bar (Login.bars m)) = Login.getStrength pw
      /\ Login.label m <> None /\ Login.label_color m <> None).
Proof.
  pose proof (getStrength_le_4 pw) as H4.
  split; [exact H4|]. split.
  { destruct (Login.getStrength pw) as [|[|[|[|[|n]]]]]; try lia; do 2 eexists; split; reflexivity. }
  split.
  { unfold Login.getStrength. destruct pw as [|c pw].
    - cbn. split; [discriminate | intros [H _]; lia].
    - generalize (c :: pw). intros l. rewrite <- Nat.leb_le.
      destruct (8 <=? length l)%nat, (existsb Login.is_upper l), (existsb Login.is_digit l),
        (existsb (fun c => negb (Login.is_upper c || Login.is_lower c || Login.is_digit c)) l);
        cbn; split; intros H; try discriminate; try lia; try tauto;
        repeat match goal with H : _ /\ _ |- _ => destruct H end; discriminate. }
  split.
  { unfold Login.getStrength. destruct pw as [|c pw]; [lia|].
    change ((c :: pw) ++ more)%list with (c :: (pw ++ more))%list.
    cbv iota. change (c :: (pw ++ more))%list with ((c :: pw) ++ more)%list.
    generalize (c :: pw). intros l.
    pose proof (existsb_app_mono Login.is_upper l more).
    pose proof (existsb_app_mono Login.is_digit l more).
    pose proof (existsb_app_mono
                  (fun c => negb (Login.is_upper c || Login.is_lower c || Login.is_digit c))
                  l more).
    assert (Login.b2n (8 <=? length l)%nat
            <= Login.b2n (8 <=? length (l ++ more)%list)%nat)%nat.
    { rewrite length_app. destruct (8 <=? length l)%nat eqn:E; [|cbn [Login.b2n]; lia].
      apply Nat.leb_le in E.
      assert (E' : (8 <=? length l + length more)%nat = true) by (apply Nat.leb_le; lia).
      rewrite E'. reflexivity. }
    lia. }
  split.
  { unfold Login.PasswordStrength. destruct pw; split; congruence. }
  intros m Hm. unfold Login.PasswordStrength in Hm. destruct pw as [|c pw]; [discriminate|].
  cbv beta iota zeta in Hm.
  remember (Login.getStrength (c :: pw)) as k eqn:Ek. clear Ek.
  injection Hm as <-. cbn [Login.bars Login.label Login.label_color].
  destruct k as [|[|[|[|[|n]]]]]; try lia;
    (split; [reflexivity | split; discriminate]).
Qed.

(** ** Parameter values cannot split the SDK's query string *)

Lemma count_char_app (c : ascii) (a b : string) :
  count_char c (a +:+ b) = (count_char c a + count_char c b)%nat.
Proof.
  induction a as [|x a IH]; [reflexivity|].
  rewrite append_cons. cbn [count_char]. rewrite IH. lia.
Qed.

Lemma count_delim_urlencode_byte (c x : ascii) :
  In c ["&"; "="; "?"; "#"; " "]%char -> count_char c (Url.urlencode_byte x) = 0%nat.
Proof.
  intros [<-|[<-|[<-|[<-|[<-|[]]]]]];
    destruct x as [[] [] [] [] [] [] [] []]; reflexivity.
Qed.

Lemma count_delim_urlencode (c : ascii) (s : string) :
  In c ["&"; "="; "?"; "#"; " "]%char -> count_char c (Url.urlencode s) = 0%nat.
Proof.
  intros Hc. induction s as [|x s IH]; [reflexivity|].
  cbn [Url.urlencode]. now rewrite count_char_app, IH, count_delim_urlencode_byte.
Qed.

Lemma count_serialize_pair (c : ascii) (p : string * string) :
  In c ["&"; "="; "?"; "#"; " "]%char ->
  count_char c (Url.serialize_pair p) = if Ascii.eqb "=" c then 1%nat else 0%nat.
Proof.
  intros Hc. unfold Url.serialize_pair.
  rewrite !count_char_app, !count_delim_urlencode by exact Hc.
  cbn [count_char]. lia.
Qed.

Lemma count_toString (c : ascii) (qs : Url.URLSearchParams) :
  In c ["&"; "="; "?"; "#"; " "]%char ->
  count_char c (Url.toString qs)
  = ((if Ascii.eqb "=" c then length qs else 0)
     + (if Ascii.eqb "&" c then pred (length qs) else 0))%nat.
Proof.
  intros Hc. pose proof (fun p => count_serialize_pair c p Hc) as Hp.
  unfold Url.toString.
  destruct Hc as [<-|[<-|[<-|[<-|[<-|[]]]]]];
    (induction qs as [|p qs IH]; [reflexivity|];
     destruct qs as [|q qs];
     [ cbn [List.map join]; rewrite Hp; reflexivity
     | change (join "&" (List.map Url.serialize_pair (p :: q :: qs)))
         with (Url.serialize_pair p +:+ "&"
                 +:+ join "&" (List.map Url.serialize_pair (q :: qs)));
       rewrite !count_char_app, IH, Hp; cbn; lia ]).
Qed.

(** X27: a parameter name or value cannot break the query string of the
    SDK clients apart.  Whatever the params hold, the serialized query has
    exactly one [=] per pair and one [&] between two pairs, and contains no
    [?], [#] or space, so the request URL has one question mark at most
    after the path and every value stays inside its own parameter. *)
Theorem sdk_query_delimiters (ps : params_t) :
  count_char "=" (Url.toString (TsSdk.request_qs ps)) = length (TsSdk.request_qs ps)
  /\ count_char "&" (Url.toString (TsSdk.request_qs ps)) = pred (length (TsSdk.request_qs ps))
  /\ count_char "?" (Url.toString (TsSdk.request_qs ps)) = 0%nat
  /\ count_char "#" (Url.toString (TsSdk.request_qs ps)) = 0%nat
  /\ count_char " " (Url.toString (TsSdk.request_qs ps)) = 0%nat
  /\ count_char "=" (Url.toString (JsSdk.request_qs ps)) = length (JsSdk.request_qs ps)
  /\ count_char "&" (Url.toString (JsSdk.request_qs ps)) = pred (length (JsSdk.request_qs ps))
  /\ count_char "?" (Url.toString (JsSdk.request_qs ps)) = 0%nat
  /\ count_char "#" (Url.toString (JsSdk.request_qs ps)) = 0%nat
  /\ count_char " " (Url.toString (JsSdk.request_qs ps)) = 0%nat.
Proof.
  repeat split; rewrite count_toString by (cbn; tauto); cbn; lia.
Qed.
